(** * Context-augmentation and multi-provider completion pipeline

    A shallow embedding of the Python back end under
    [Gemini-private/backend]: the chunker ([shared/utils.py]), the document
    store ([rag/service.py]), the memory store ([memory/service.py]), the
    provider adapter layer ([chat/ai_client.py]), the prompt assembly
    ([chat/service.py]) and the completion route ([api/main.py]).

    Python [int] is [Z]; a Python [str] that is sliced and measured is a list
    of characters ([str]); a [str] that is only concatenated is a [string].
    Code that awaits collaborators (database session, model providers) runs in
    a state monad over an explicit [World]. *)

From Stdlib Require Import ZArith List Bool Ascii String Lia QArith Qround.
From Stdlib Require Import Sorting.Sorted Sorting.Permutation DecimalString.
Import ListNotations.

Local Open Scope Z_scope.

(* ====================================================================== *)
(** * Python values                                                        *)
(* ====================================================================== *)

Module Py.

(** A [str] whose characters are indexed. *)
Definition str := list ascii.

(** Exceptions that the modelled code raises or receives. *)
Inductive exn : Type :=
| ValueError (msg : string)
| IndexError (msg : string)
| DatabaseError (msg : string)
| HTTPError (msg : string)
| ProviderError (msg : string).

(** How a call ends: it returns, it raises, or it never comes back. *)
Inductive result (A : Type) : Type :=
| Ok (a : A)
| Raise (e : exn)
| Diverge.
Arguments Ok {A} a.
Arguments Raise {A} e.
Arguments Diverge {A}.

(** [len(s)] *)
Definition len {A} (s : list A) : Z := Z.of_nat (List.length s).

(** Index adjustment of a slice bound (step 1): a negative bound counts
    from the end, then the bound is clamped to [0, len]. *)
Definition adjust_index (i n : Z) : Z :=
  if i <? 0 then (if i + n <? 0 then 0 else i + n)
  else if n <? i then n else i.

(** [s[start:stop]] *)
Definition py_slice {A} (s : list A) (start stop : Z) : list A :=
  let a := adjust_index start (len s) in
  let b := adjust_index stop (len s) in
  if a <? b then firstn (Z.to_nat (b - a)) (skipn (Z.to_nat a) s) else [].

(** [enumerate(xs)] *)
Fixpoint enumerate_from {A} (i : Z) (xs : list A) : list (Z * A) :=
  match xs with
  | [] => []
  | x :: rest => (i, x) :: enumerate_from (i + 1) rest
  end.
Definition enumerate {A} (xs : list A) : list (Z * A) := enumerate_from 0 xs.

(** Truthiness of an [Optional[str]]: [None] and the empty string are
    falsy. *)
Definition truthy (o : option string) : bool :=
  match o with
  | None => false
  | Some s => negb (String.eqb s EmptyString)
  end.

End Py.
Import Py.

(* ====================================================================== *)
(** * shared/utils.py                                                      *)
(* ====================================================================== *)

Module Utils.

(** The [while start < text_length] loop of [chunk_text]; [fuel] bounds
    the number of iterations, [None] is fuel exhausted. *)
Fixpoint chunk_text_loop (fuel : nat) (text : str) (chunk_size overlap : Z)
         (start : Z) (chunks : list str) : option (list str) :=
  if start <? len text then
    match fuel with
    | O => None
    | S fuel' =>
        let end_ := start + chunk_size in
        let chunk := py_slice text start end_ in
        chunk_text_loop fuel' text chunk_size overlap
                        (end_ - overlap) (chunks ++ [chunk])
    end
  else Some chunks.

Definition chunk_text_fuel (fuel : nat) (text : str)
           (chunk_size overlap : Z) : option (list str) :=
  chunk_text_loop fuel text chunk_size overlap 0 [].

(** [chunk_text(text, chunk_size, overlap)].  The loop either exits within
    [len(text)] iterations or never exits ([chunk_text_fuel_stable] and
    [chunk_text_loop_stuck] below), so running it with that much fuel
    decides the outcome.  The function has no [raise]. *)
Definition chunk_text (text : str) (chunk_size overlap : Z)
  : result (list str) :=
  match chunk_text_fuel (List.length text) text chunk_size overlap with
  | Some chunks => Ok chunks
  | None => Diverge
  end.

Definition default_chunk_size : Z := 1000.
Definition default_overlap : Z := 200.

End Utils.
Import Utils.

(** Reassembly of a text from its chunks, as the specification words it:
    the first chunk whole, every later chunk without its leading [overlap]
    characters. *)
Definition drop_overlap (overlap : Z) (chunk : str) : str :=
  skipn (Z.to_nat overlap) chunk.

Definition reconstruct (overlap : Z) (chunks : list str) : str :=
  match chunks with
  | [] => []
  | c :: rest => c ++ List.concat (map (drop_overlap overlap) rest)
  end.

(** A text of 2500 characters, the size of the ingestion scenario. *)
Definition text2500 : str := repeat "a"%char 2500.

(* ====================================================================== *)
(** * database/models.py and shared/models.py                              *)
(* ====================================================================== *)

Module Models.

Definition UUID := nat.
Definition datetime := nat.

(** An embedding is a list of floats; rationals stand for them, and no
    arithmetic of the code depends on their rounding. *)
Definition embedding := list Q.

(** The dimension of the [Vector(1536)] columns [document_chunks.embedding]
    and [memories.embedding]. *)
Definition VECTOR_DIMENSION : nat := 1536.

(** What a [Vector(1536)] column takes: NULL, or a vector of that many
    numbers. *)
Definition fits_column (e : option embedding) : bool :=
  match e with
  | None => true
  | Some v => Nat.eqb (List.length v) VECTOR_DIMENSION
  end.

(** What a [DECIMAL(3,2)] column keeps of a number: the number rounded to
    two decimals, a half away from zero. *)
Definition round_2 (q : Q) : Q :=
  let cents :=
    if Qle_bool 0 q then Qfloor (q * 100 + (1 # 2))
    else - Qfloor (- q * 100 + (1 # 2)) in
  cents # 100.

(** A [DECIMAL(3,2)] column has one digit before the point. *)
Definition fits_decimal_3_2 (q : Q) : bool :=
  Z.abs (Qnum (round_2 q)) <? 1000.

(** Values of a JSON metadata mapping. *)
Inductive json_value : Type :=
| JStr (s : string)
| JInt (n : Z)
| JBool (b : bool).
Definition json := list (string * json_value).

(** ORM rows. *)
Record Document := mkDocument {
  doc_id : UUID;
  doc_user_id : UUID;
  doc_title : string;
  doc_content : str;
  doc_file_path : option string;
  doc_mime_type : option string;
  doc_size_bytes : option Z;
  doc_metadata : json;
  doc_created_at : datetime;
  doc_updated_at : datetime
}.

Record DocumentChunk := mkDocumentChunk {
  chunk_id : UUID;
  chunk_document_id : UUID;
  chunk_index : Z;
  chunk_content : str;
  chunk_embedding : option embedding;
  chunk_metadata : json;
  chunk_created_at : datetime
}.

Record Memory := mkMemory {
  mem_id : UUID;
  mem_user_id : UUID;
  mem_chat_id : option UUID;
  mem_memory_type : string;
  mem_content : string;
  mem_embedding : option embedding;
  mem_importance_score : Q;
  mem_metadata : json;
  mem_created_at : datetime;
  mem_updated_at : datetime
}.

Record Chat := mkChat {
  ch_id : UUID;
  ch_user_id : UUID;
  ch_title : option string;
  ch_model : string;
  ch_system_prompt : option string;
  ch_metadata : json;
  ch_is_archived : bool;
  ch_created_at : datetime;
  ch_updated_at : datetime
}.

Record Message := mkMessage {
  msg_id : UUID;
  msg_chat_id : UUID;
  msg_role : string;
  msg_content : string;
  msg_model : option string;
  msg_tokens_used : option Z;
  msg_metadata : json;
  msg_created_at : datetime
}.

(** Pydantic request and response models. *)
Record DocumentCreate := mkDocumentCreate {
  dc_title : string;
  dc_content : str;
  dc_mime_type : option string;
  dc_metadata : json;
  dc_user_id : UUID
}.

Record DocumentUpdate := mkDocumentUpdate {
  du_title : option string;
  du_content : option str;
  du_metadata : option json
}.

Record DocumentResponse := mkDocumentResponse {
  dr_title : string;
  dr_content : str;
  dr_mime_type : option string;
  dr_metadata : json;
  dr_id : UUID;
  dr_user_id : UUID;
  dr_file_path : option string;
  dr_size_bytes : option Z;
  dr_created_at : datetime;
  dr_updated_at : datetime
}.

(** [DocumentResponse.model_validate(document)] *)
Definition document_response (d : Document) : DocumentResponse :=
  {| dr_title := doc_title d; dr_content := doc_content d;
     dr_mime_type := doc_mime_type d; dr_metadata := doc_metadata d;
     dr_id := doc_id d; dr_user_id := doc_user_id d;
     dr_file_path := doc_file_path d; dr_size_bytes := doc_size_bytes d;
     dr_created_at := doc_created_at d; dr_updated_at := doc_updated_at d |}.

Record MemoryResponse := mkMemoryResponse {
  mr_content : string;
  mr_memory_type : string;
  mr_importance_score : Q;
  mr_metadata : json;
  mr_id : UUID;
  mr_user_id : UUID;
  mr_chat_id : option UUID;
  mr_created_at : datetime;
  mr_updated_at : datetime
}.

(** A memory as the database keeps it: the importance score is rounded
    to the scale of its column. *)
Definition as_stored (m : Memory) : Memory :=
  mkMemory (mem_id m) (mem_user_id m) (mem_chat_id m) (mem_memory_type m)
           (mem_content m) (mem_embedding m) (round_2 (mem_importance_score m))
           (mem_metadata m) (mem_created_at m) (mem_updated_at m).

(** The attributes of a row that a [MemoryResponse] takes over. *)
Definition memory_fields (m : Memory) : MemoryResponse :=
  {| mr_content := mem_content m; mr_memory_type := mem_memory_type m;
     mr_importance_score := mem_importance_score m;
     mr_metadata := mem_metadata m; mr_id := mem_id m;
     mr_user_id := mem_user_id m; mr_chat_id := mem_chat_id m;
     mr_created_at := mem_created_at m; mr_updated_at := mem_updated_at m |}.

(** [Literal['global', 'chat', 'user_fact', 'preference']] *)
Definition MEMORY_TYPES : list string :=
  ["global"; "chat"; "user_fact"; "preference"]%string.

Definition is_memory_type (s : string) : bool :=
  existsb (String.eqb s) MEMORY_TYPES.

(** [Field(..., ge=0.0, le=1.0)] *)
Definition in_unit_interval (q : Q) : bool :=
  Qle_bool 0 q && Qle_bool q 1.

(** The constraints of [MemoryBase], which [MemoryCreate] and
    [MemoryResponse] inherit. *)
Definition valid_memory_fields (memory_type : string) (importance_score : Q)
  : bool :=
  is_memory_type memory_type && in_unit_interval importance_score.

(** [MemoryResponse.model_validate(memory)]; pydantic's [ValidationError]
    is a [ValueError]. *)
Definition memory_response (m : Memory) : result MemoryResponse :=
  if valid_memory_fields (mem_memory_type m) (mem_importance_score m)
  then Ok (memory_fields m)
  else Raise (ValueError "validation error for MemoryResponse").

(** [[MemoryResponse.model_validate(memory) for memory in memories]] *)
Fixpoint memory_responses (rows : list Memory)
  : result (list MemoryResponse) :=
  match rows with
  | [] => Ok []
  | m :: rest =>
      match memory_response m with
      | Ok r =>
          match memory_responses rest with
          | Ok rs => Ok (r :: rs)
          | Raise e => Raise e
          | Diverge => Diverge
          end
      | Raise e => Raise e
      | Diverge => Diverge
      end
  end.

Record MemorySearchRequest := mkMemorySearchRequest {
  msr_query : string;
  msr_memory_type : option string;
  msr_chat_id : option UUID;
  msr_limit : Z;
  msr_min_score : Q
}.

(** The constraints of [MemorySearchRequest]: [limit] has
    [Field(10, ge=1, le=100)], [min_score] has [Field(0.0, ge=0.0, le=1.0)],
    [memory_type] is one of the four literals when given. *)
Definition valid_search_request (r : MemorySearchRequest) : bool :=
  match msr_memory_type r with
  | Some ty => is_memory_type ty
  | None => true
  end
  && (1 <=? msr_limit r) && (msr_limit r <=? 100)
  && in_unit_interval (msr_min_score r).

(** [MemorySearchRequest(query=..., memory_type=..., chat_id=..., limit=...,
    min_score=...)]: the constructor validates. *)
Definition new_MemorySearchRequest (query : string)
           (memory_type : option string) (chat_id : option UUID)
           (limit : Z) (min_score : Q) : result MemorySearchRequest :=
  let r := mkMemorySearchRequest query memory_type chat_id limit min_score in
  if valid_search_request r then Ok r
  else Raise (ValueError "validation error for MemorySearchRequest").

(** [Literal['user', 'assistant', 'system']] *)
Definition MESSAGE_ROLES : list string :=
  ["user"; "assistant"; "system"]%string.

(** [MessageResponse.model_validate(message)]: the response has the columns
    of the row, and the role must be one of the three. *)
Definition message_response (m : Message) : result Message :=
  if existsb (String.eqb (msg_role m)) MESSAGE_ROLES then Ok m
  else Raise (ValueError "validation error for MessageResponse").

(** [len(content.encode('utf-8'))] for characters below U+0100: one byte
    below 128, two from 128 on. *)
Definition utf8_size (s : str) : Z :=
  fold_right (fun c acc => (if (nat_of_ascii c <? 128)%nat then 1 else 2) + acc)
             0 s.

End Models.
Import Models.

(* ====================================================================== *)
(** * The world the services run in                                        *)
(* ====================================================================== *)

Module Effects.

(** ** Provider data (chat/ai_client.py) *)

Record ChatMessage := mkChatMessage {
  cm_role : string;
  cm_content : string
}.

(** The keyword arguments of an Anthropic messages call. *)
Record AnthropicKwargs := mkAnthropicKwargs {
  ak_model : string;
  ak_messages : list ChatMessage;
  ak_temperature : Q;
  ak_max_tokens : Z;
  ak_system : option string;
  ak_thinking_budget : option Z
}.

Record AnthropicMessage := mkAnthropicMessage {
  am_id : string;
  am_content : list string;
  am_input_tokens : Z;
  am_output_tokens : Z;
  am_stop_reason : string
}.

(** A Vertex [GenerativeModel] object. *)
Record GenerativeModel := mkGenerativeModel {
  gm_name : string;
  gm_system_instruction : option string
}.

Record GeminiMessage := mkGeminiMessage {
  gmsg_role : string;
  gmsg_parts : list string
}.

Record GenerationConfig := mkGenerationConfig {
  gc_temperature : Q;
  gc_max_output_tokens : Z
}.

Record GeminiResponse := mkGeminiResponse {
  gr_text : string;
  gr_total_token_count : option Z;   (* [usage_metadata], when present *)
  gr_candidates : option Z           (* [len(candidates)], when present *)
}.

(** One element of a streamed Gemini response. *)
Record GeminiChunk := mkGeminiChunk {
  gch_text : string;
  gch_total_token_count : option Z
}.

Record SearchItem := mkSearchItem {
  si_title : string;
  si_link : string;
  si_snippet : string;
  si_display_link : string
}.

(** What a collaborator answers to a call: a value or an exception. *)
Inductive answer (A : Type) : Type :=
| Answer (a : A)
| Failure (e : exn).
Arguments Answer {A} a.
Arguments Failure {A} e.

Definition of_answer {A} (a : answer A) : result A :=
  match a with
  | Answer x => Ok x
  | Failure e => Raise e
  end.

(** A stream of items: the items received, then either the end of the
    stream or the exception that interrupted it. *)
Definition stream_of (A : Type) : Type := (list A * option exn)%type.

(** ** External events *)

Inductive Event : Type :=
| AnthropicClientCreated
| GenaiConfigured
| AiplatformInit
| GenerativeModelCreated (gm : GenerativeModel)
| ChatModelFromPretrained (name : string)
| GetEmbeddings (model : string) (text : str)
| MessagesCreate (kwargs : AnthropicKwargs)
| MessagesStream (kwargs : AnthropicKwargs)
| GenerateContent (gm : GenerativeModel) (messages : list GeminiMessage)
                  (config : GenerationConfig) (stream : bool)
| ChatSendMessage (name : string) (text : string)
| HttpGet (url : string) (query : string) (num : Z).

(** Network calls among the events: everything but the construction of a
    local client object. *)
Definition is_network_call (ev : Event) : bool :=
  match ev with
  | AnthropicClientCreated | GenaiConfigured | AiplatformInit
  | GenerativeModelCreated _ => false
  | _ => true
  end.

(** The collaborators outside the repository.  The first argument of every
    answer is the number of external calls made before this one, so that two
    calls with equal arguments may be answered differently. *)
Record Providers := mkProviders {
  get_embeddings : nat -> string -> str -> answer embedding;
  messages_create : nat -> AnthropicKwargs -> answer AnthropicMessage;
  messages_stream :
    nat -> AnthropicKwargs ->
    answer (stream_of string * answer AnthropicMessage);
  generate_content :
    nat -> GenerativeModel -> list GeminiMessage -> GenerationConfig ->
    answer GeminiResponse;
  generate_content_stream :
    nat -> GenerativeModel -> list GeminiMessage -> GenerationConfig ->
    answer (stream_of GeminiChunk);
  chat_send_message : nat -> string -> string -> answer string;
  http_get : nat -> string -> string -> Z -> answer (list SearchItem);
  (** time that the n-th external call takes *)
  latency : nat -> nat;
  (** pgvector's [<=>] *)
  cosine_distance : embedding -> embedding -> Q;
  (** [f"{x:.2f}"] *)
  format_2f : Q -> string
}.

(** shared/config.py, the settings that the modelled code reads. *)
Record Settings := mkSettings {
  ANTHROPIC_API_KEY : option string;
  GOOGLE_AI_API_KEY : option string;
  VERTEX_AI_PROJECT : option string;
  VERTEX_AI_LOCATION : string;
  EMBEDDING_MODEL : string;
  GOOGLE_SEARCH_API_KEY : option string;
  GOOGLE_SEARCH_ENGINE_ID : option string
}.

(** ** The database session *)

Record Tables := mkTables {
  documents : list Document;
  document_chunks : list DocumentChunk;
  memories : list Memory;
  messages : list Message;
  chats : list Chat
}.

(** [view] is what the open transaction sees, [committed] what the last
    commit left. *)
Record Session := mkSession {
  view : Tables;
  committed : Tables
}.

Inductive Level : Type := WARNING | ERROR.

(** A log record: the fixed text of the message and what is formatted
    into it. *)
Record LogRecord := mkLogRecord {
  log_level : Level;
  log_message : string;
  log_index : option Z;
  log_cause : option exn
}.

Record World := mkWorld {
  session : Session;
  uuid_supply : nat;
  clock : nat;
  calls : nat;
  trace : list Event;
  logs : list LogRecord;
  providers : Providers;
  settings : Settings
}.

(** ** The monad: state over [World], with exceptions and divergence *)

Definition M (A : Type) : Type := World -> result A * World.

Definition ret {A} (a : A) : M A := fun w => (Ok a, w).

Definition bind {A B} (m : M A) (k : A -> M B) : M B :=
  fun w =>
    match m w with
    | (Ok a, w') => k a w'
    | (Raise e, w') => (Raise e, w')
    | (Diverge, w') => (Diverge, w')
    end.

Definition raise {A} (e : exn) : M A := fun w => (Raise e, w).

(** A value computed by a pure function that may raise or not return. *)
Definition lift {A} (r : result A) : M A := fun w => (r, w).

(** [try: m  except Exception as e: handler e] *)
Definition try_except {A} (m : M A) (handler : exn -> M A) : M A :=
  fun w =>
    match m w with
    | (Raise e, w') => handler e w'
    | other => other
    end.

Declare Scope monad_scope.
Delimit Scope monad_scope with monad.
Notation "x <- m ;; k" := (bind m (fun x => k))
  (at level 61, m at next level, right associativity) : monad_scope.
Notation "m ;; k" := (bind m (fun _ => k))
  (at level 61, right associativity) : monad_scope.
Local Open Scope monad_scope.

(** [for x in xs: body x] *)
Fixpoint for_each {A} (xs : list A) (body : A -> M unit) : M unit :=
  match xs with
  | [] => ret tt
  | x :: rest => body x ;; for_each rest body
  end.

(** [for x in xs: body x], where every turn adds an object to the session:
    the objects added, in order.  The session keeps them pending until it
    flushes (it is made with [autoflush=False]). *)
Fixpoint for_each_pending {A B} (xs : list A) (body : A -> M B)
  : M (list B) :=
  match xs with
  | [] => ret []
  | x :: rest =>
      b <- body x ;;
      bs <- for_each_pending rest body ;;
      ret (b :: bs)
  end.

Definition get : M World := fun w => (Ok w, w).

(** ** Primitive effects *)

Definition with_session (s : Session) (w : World) : World :=
  mkWorld s (uuid_supply w) (clock w) (calls w) (trace w) (logs w)
          (providers w) (settings w).

Definition with_view (t : Tables) (w : World) : World :=
  with_session (mkSession t (committed (session w))) w.

(** [uuid4()] *)
Definition uuid4 : M UUID :=
  fun w => (Ok (uuid_supply w),
            mkWorld (session w) (S (uuid_supply w)) (clock w) (calls w)
                    (trace w) (logs w) (providers w) (settings w)).

(** [datetime.utcnow()] *)
Definition utcnow : M datetime := fun w => (Ok (clock w), w).

(** A local event that takes no time: a client object is built. *)
Definition emit (ev : Event) : M unit :=
  fun w => (Ok tt,
            mkWorld (session w) (uuid_supply w) (clock w) (calls w)
                    (trace w ++ [ev]) (logs w) (providers w) (settings w)).

(** A call to a collaborator: the event is recorded, the clock advances by
    the latency of the call, and the collaborator answers. *)
Definition ask_external {A} (ev : Event)
           (ask : Providers -> nat -> answer A) : World -> answer A * World :=
  fun w => (ask (providers w) (calls w),
            mkWorld (session w) (uuid_supply w)
                    (clock w + latency (providers w) (calls w))%nat
                    (S (calls w)) (trace w ++ [ev]) (logs w)
                    (providers w) (settings w)).

(** The same call awaited inside a service: a failure is raised. *)
Definition external {A} (ev : Event)
           (ask : Providers -> nat -> answer A) : M A :=
  fun w => let (a, w') := ask_external ev ask w in (of_answer a, w').

Definition log (level : Level) (message : string) (index : option Z)
           (cause : option exn) : M unit :=
  fun w => (Ok tt,
            mkWorld (session w) (uuid_supply w) (clock w) (calls w)
                    (trace w)
                    (logs w ++ [mkLogRecord level message index cause])
                    (providers w) (settings w)).

(** [db.add(document)] *)
Definition db_add_document (d : Document) : M unit :=
  fun w =>
    let t := view (session w) in
    (Ok tt, with_view (mkTables (documents t ++ [d]) (document_chunks t)
                                (memories t) (messages t) (chats t)) w).

(** [db.add(chunk)] *)
Definition db_add_chunk (c : DocumentChunk) : M unit :=
  fun w =>
    let t := view (session w) in
    (Ok tt, with_view (mkTables (documents t) (document_chunks t ++ [c])
                                (memories t) (messages t) (chats t)) w).

(** The session writes a modified [Document] object back to its row. *)
Definition db_write_document (d : Document) : M unit :=
  fun w =>
    let t := view (session w) in
    (Ok tt,
     with_view (mkTables
                  (map (fun d' => if Nat.eqb (doc_id d') (doc_id d)
                                  then d else d') (documents t))
                  (document_chunks t) (memories t) (messages t) (chats t)) w).

(** [db.flush()]: pending rows are already in [view]. *)
Definition db_flush : M unit := ret tt.

(** [db.commit()] of a unit of work that the database takes as it is. *)
Definition db_commit : M unit :=
  fun w => (Ok tt,
            with_session (mkSession (view (session w)) (view (session w))) w).

(** What a failed flush leaves: the transaction is rolled back. *)
Definition db_rollback : M unit :=
  fun w => (Ok tt, with_view (committed (session w)) w).

(** [db.commit()] of a unit of work that the database may refuse.  The
    commit starts with the flush of the pending rows; [refusal] is the error
    that the flush meets, if any (a vector of the wrong dimension, a number
    that does not fit its column, a missing parent row).  A refused flush
    rolls the transaction back and the error propagates. *)
Definition db_commit_checked (refusal : option exn) : M unit :=
  match refusal with
  | None => db_commit
  | Some e => db_rollback ;; raise e
  end.

(** pgvector refuses a vector whose length is not the dimension of the
    column. *)
Definition vector_refusal (vectors : list (option embedding)) : option exn :=
  if forallb fits_column vectors then None
  else Some (DatabaseError "expected 1536 dimensions").

(** The foreign keys [messages.chat_id] and [memories.chat_id] require the
    chat row. *)
Definition chat_exists (chat : UUID) (t : Tables) : bool :=
  existsb (fun c => Nat.eqb (ch_id c) chat) (chats t).

(** [result.scalar_one_or_none()] *)
Definition scalar_one_or_none {A} (rows : list A) : M (option A) :=
  match rows with
  | [] => ret None
  | [row] => ret (Some row)
  | _ => raise (DatabaseError "Multiple rows were found when one or none was required")
  end.

(** [db.refresh(document)] *)
Definition db_refresh_document (d : Document) : M Document :=
  w <- get ;;
  match find (fun d' => Nat.eqb (doc_id d') (doc_id d))
             (documents (view (session w))) with
  | Some row => ret row
  | None => raise (DatabaseError "Could not refresh instance")
  end.

(** [select(Document).where(Document.id == document_id,
    Document.user_id == user_id)] *)
Definition select_documents (document_id user_id : UUID) : M (list Document) :=
  w <- get ;;
  ret (filter (fun d => Nat.eqb (doc_id d) document_id
                        && Nat.eqb (doc_user_id d) user_id)
              (documents (view (session w)))).

(** [select(Chat).where(Chat.id == chat_id)] *)
Definition select_chats (chat_id : UUID) : M (list Chat) :=
  w <- get ;;
  ret (filter (fun c => Nat.eqb (ch_id c) chat_id)
              (chats (view (session w)))).

(** The session writes a modified [Chat] object back to its row. *)
Definition db_write_chat (c : Chat) : M unit :=
  fun w =>
    let t := view (session w) in
    (Ok tt,
     with_view (mkTables (documents t) (document_chunks t) (memories t)
                  (messages t)
                  (map (fun c' => if Nat.eqb (ch_id c') (ch_id c)
                                  then c else c') (chats t))) w).

(** [select(DocumentChunk).where(DocumentChunk.document_id == document_id)] *)
Definition select_chunks (document_id : UUID) : M (list DocumentChunk) :=
  w <- get ;;
  ret (filter (fun c => Nat.eqb (chunk_document_id c) document_id)
              (document_chunks (view (session w)))).

End Effects.
Import Effects.

(* ====================================================================== *)
(** * The storage engine's ORDER BY                                        *)
(* ====================================================================== *)

Module Storage.

(** Order of sort keys, ascending with NULL last. *)
Definition key_le (a b : option Q) : Prop :=
  match a, b with
  | Some x, Some y => (x <= y)%Q
  | _, None => True
  | None, Some _ => False
  end.

Definition key_leb (a b : option Q) : bool :=
  match a, b with
  | Some x, Some y => Qle_bool x y
  | _, None => true
  | None, Some _ => false
  end.

(** What the code may rely on when it asks for [ORDER BY key]: the rows come
    back as a rearrangement of the selected rows with ascending keys.  The
    order among rows of equal key is the engine's choice. *)
Class OrderBy : Type := {
  order_by : forall {A : Type}, (A -> option Q) -> list A -> list A;
  order_by_permutation :
    forall (A : Type) (key : A -> option Q) (rows : list A),
      Permutation rows (order_by key rows);
  order_by_sorted :
    forall (A : Type) (key : A -> option Q) (rows : list A),
      StronglySorted (fun r1 r2 => key_le (key r1) (key r2))
                     (order_by key rows)
}.

(** An engine that sorts by insertion and keeps rows of equal key in table
    order. *)
Fixpoint insert_row {A} (key : A -> option Q) (x : A) (l : list A) : list A :=
  match l with
  | [] => [x]
  | y :: rest =>
      if key_leb (key x) (key y) then x :: y :: rest
      else y :: insert_row key x rest
  end.

Definition table_order_sort {A} (key : A -> option Q) (rows : list A)
  : list A :=
  fold_right (insert_row key) [] rows.

(** The insertion sort meets the contract of [OrderBy]. *)
Definition TableOrder : OrderBy.
Proof.
  assert (leb_le : forall a b, key_leb a b = true -> key_le a b).
  { intros [x|] [y|]; simpl; try easy. apply Qle_bool_iff. }
  assert (leb_false : forall a b, key_leb a b = false -> key_le b a).
  { intros [x|] [y|]; simpl; try easy.
    intros H. apply Qlt_le_weak, Qnot_le_lt. intros Hle.
    apply Qle_bool_iff in Hle. congruence. }
  assert (le_trans : forall a b c, key_le a b -> key_le b c -> key_le a c).
  { intros [x|] [y|] [z|]; simpl; try easy. apply Qle_trans. }
  assert (insert_perm : forall A (key : A -> option Q) x l,
             Permutation (x :: l) (insert_row key x l)).
  { intros A key x l. induction l as [|y rest IH]; simpl.
    - apply Permutation_refl.
    - destruct (key_leb (key x) (key y)).
      + apply Permutation_refl.
      + eapply Permutation_trans; [apply perm_swap|]. now apply perm_skip. }
  assert (insert_sorted : forall A (key : A -> option Q) x l,
             StronglySorted (fun r1 r2 => key_le (key r1) (key r2)) l ->
             StronglySorted (fun r1 r2 => key_le (key r1) (key r2))
                            (insert_row key x l)).
  { intros A key x l. induction 1 as [|y rest Hsorted IH Hall]; simpl.
    - repeat constructor.
    - destruct (key_leb (key x) (key y)) eqn:Hxy.
      + constructor; [now constructor|].
        constructor; [now apply leb_le|].
        eapply Forall_impl; [|exact Hall].
        intros z Hz. eapply le_trans; [apply leb_le; exact Hxy | exact Hz].
      + constructor; [exact IH|].
        eapply Permutation_Forall; [apply insert_perm|].
        constructor; [now apply leb_false | exact Hall]. }
  refine {| order_by := @table_order_sort |}.
  - intros A key rows. induction rows as [|x rows IH]; simpl; [constructor|].
    eapply Permutation_trans; [|apply insert_perm]. now apply perm_skip.
  - intros A key rows. induction rows as [|x rows IH]; simpl; [constructor|].
    now apply insert_sorted.
Defined.

(** The first [n] rows, for an [n] that the engine accepts. *)
Definition take {A} (n : Z) (rows : list A) : list A :=
  firstn (Z.to_nat n) rows.

(** [LIMIT n]: PostgreSQL refuses a negative [n]. *)
Definition limit {A} (n : Z) (rows : list A) : result (list A) :=
  if n <? 0 then Raise (DatabaseError "LIMIT must not be negative")
  else Ok (take n rows).

(** [OFFSET n]: PostgreSQL refuses a negative [n]. *)
Definition offset {A} (n : Z) (rows : list A) : result (list A) :=
  if n <? 0 then Raise (DatabaseError "OFFSET must not be negative")
  else Ok (skipn (Z.to_nat n) rows).

(** A vector literal that pgvector reads: 1 to 16000 numbers. *)
Definition vector_literal_ok (v : embedding) : bool :=
  (1 <=? len v) && (len v <=? 16000).

(** [e <=> q] is computed for two vectors of one dimension; pgvector raises
    on any other pair.  NULL has no distance and raises nothing. *)
Definition comparable (q : embedding) (e : option embedding) : bool :=
  match e with
  | None => true
  | Some v => Nat.eqb (List.length v) (List.length q)
  end.

(** [SELECT ... ORDER BY embedding <=> q LIMIT n] over the selected [rows].
    The statement is refused when [q] is no vector literal or [n] is
    negative.  With [LIMIT 0] no row is read.  Otherwise the distance to
    [q] is computed for every selected row, and pgvector raises when a row
    has a vector of another dimension than [q]. *)
Definition nearest {engine : OrderBy} {A} (embedding_of : A -> option embedding)
           (key : A -> option Q) (q : embedding) (n : Z) (rows : list A)
  : result (list A) :=
  if negb (vector_literal_ok q) then
    Raise (DatabaseError "malformed vector literal")
  else if n <? 0 then
    Raise (DatabaseError "LIMIT must not be negative")
  else if n =? 0 then Ok []
  else if forallb (fun r => comparable q (embedding_of r)) rows then
    Ok (take n (order_by key rows))
  else Raise (DatabaseError "different vector dimensions").

End Storage.
Import Storage.

(* ====================================================================== *)
(** * chat/ai_client.py                                                    *)
(* ====================================================================== *)

Module AIClient.

Local Open Scope monad_scope.
Local Open Scope string_scope.

(** The unified non-streaming result. *)
Record Completion := mkCompletion {
  c_id : string;
  c_model : string;
  c_message : ChatMessage;
  c_tokens_used : Z;
  c_finish_reason : string;
  c_metadata : json
}.

(** The [message] of a terminal stream event. *)
Record DoneMessage := mkDoneMessage {
  done_id : string;
  done_model : option string;
  done_tokens_used : Z;
  done_finish_reason : string
}.

Inductive StreamEvent : Type :=
| ContentEvent (text : string)
| DoneEvent (message : DoneMessage).

(** An async generator: nothing happens until it is consumed; consuming it
    in a world yields its events and then ends or raises. *)
Definition Generator : Type := World -> stream_of StreamEvent * World.

Inductive Reply : Type :=
| Unified (c : Completion)
| EventStream (g : Generator).

(** The client object: whether [self.anthropic_client] is set. *)
Record t := mkAIClient {
  anthropic_client : bool
}.

(** [AIClient.__init__] *)
Definition init : M t :=
  w <- get ;;
  client <- (if truthy (ANTHROPIC_API_KEY (settings w))
             then emit AnthropicClientCreated ;; ret true
             else ret false) ;;
  (if truthy (GOOGLE_AI_API_KEY (settings w))
   then emit GenaiConfigured else ret tt) ;;
  (if truthy (VERTEX_AI_PROJECT (settings w))
   then emit AiplatformInit else ret tt) ;;
  ret (mkAIClient client).

(** [model_map.get(model, model)] *)
Fixpoint model_map_get (model_map : list (string * string)) (model : string)
  : string :=
  match model_map with
  | [] => model
  | (k, v) :: rest => if String.eqb k model then v else model_map_get rest model
  end.

(** [model.startswith(p)] *)
Definition startswith (model p : string) : bool := String.prefix p model.

Definition to_done (message : AnthropicMessage) (model : string) : DoneMessage :=
  mkDoneMessage (am_id message) (Some model)
                (am_input_tokens message + am_output_tokens message)
                (am_stop_reason message).

(** [_claude_stream] *)
Definition _claude_stream (self : t) (kwargs : AnthropicKwargs) : Generator :=
  fun w =>
    match ask_external (MessagesStream kwargs)
                       (fun p n => messages_stream p n kwargs) w with
    | (Answer ((texts, None), Answer message), w') =>
        ((map ContentEvent texts
            ++ [DoneEvent (to_done message (ak_model kwargs))])%list,
         None, w')
    | (Answer ((texts, None), Failure e), w') =>
        ((map ContentEvent texts, Some e), w')
    | (Answer ((texts, Some e), _), w') =>
        ((map ContentEvent texts, Some e), w')
    | (Failure e, w') => (([], Some e), w')
    end.

(** [_claude_completion] *)
Definition _claude_completion (self : t) (model : string)
           (messages : list ChatMessage) (temperature : Q) (max_tokens : Z)
           (stream : bool) (system_prompt : option string)
           (use_extended_thinking : bool) : M Reply :=
  if negb (anthropic_client self) then
    raise (ValueError "Anthropic API key not configured")
  else
    let model_map := [("claude-sonnet-4.5", "claude-sonnet-4.5-20250929");
                      ("claude-opus-4.1", "claude-opus-4-20250514")] in
    let anthropic_model := model_map_get model_map model in
    let claude_messages :=
      map (fun msg => mkChatMessage (cm_role msg) (cm_content msg)) messages in
    let kwargs :=
      mkAnthropicKwargs anthropic_model claude_messages temperature max_tokens
        (if truthy system_prompt then system_prompt else None)
        (if use_extended_thinking then Some 10000 else None) in
    if stream then ret (EventStream (_claude_stream self kwargs))
    else
      response <- external (MessagesCreate kwargs)
                           (fun p n => messages_create p n kwargs) ;;
      match am_content response with
      | [] => raise (IndexError "list index out of range")
      | text :: _ =>
          ret (Unified
                 (mkCompletion (am_id response) model
                    (mkChatMessage "assistant" text)
                    (am_input_tokens response + am_output_tokens response)
                    (am_stop_reason response)
                    [("input_tokens", JInt (am_input_tokens response));
                     ("output_tokens", JInt (am_output_tokens response))]))
      end.

(** [_gemini_stream]: [total_tokens] is set to 0 and never assigned
    again. *)
Definition _gemini_stream (model : GenerativeModel)
           (messages : list GeminiMessage)
           (generation_config : GenerationConfig)
           (system_prompt : option string) : Generator :=
  fun w =>
    let total_tokens := 0 in
    match ask_external
            (GenerateContent model messages generation_config true)
            (fun p n => generate_content_stream p n model messages
                                                generation_config) w with
    | (Answer (chunks, failure), w') =>
        let contents :=
          flat_map (fun chunk =>
                      if String.eqb (gch_text chunk) "" then []
                      else [ContentEvent (gch_text chunk)]) chunks in
        match failure with
        | Some e => ((contents, Some e), w')
        | None =>
            ((contents
                ++ [DoneEvent (mkDoneMessage "gemini-stream" None
                                             total_tokens "stop")])%list,
             None, w')
        end
    | (Failure e, w') => (([], Some e), w')
    end.

(** [_gemini_completion] *)
Definition _gemini_completion (self : t) (model : string)
           (messages : list ChatMessage) (temperature : Q) (max_tokens : Z)
           (stream : bool) (system_prompt : option string) : M Reply :=
  let model_map := [("gemini-2.5-flash", "gemini-2.5-flash");
                    ("gemini-2.5-pro", "gemini-2.5-pro")] in
  let gemini_model_name := model_map_get model_map model in
  let gemini_model := mkGenerativeModel gemini_model_name None in
  emit (GenerativeModelCreated gemini_model) ;;
  let gemini_messages :=
    map (fun msg =>
           mkGeminiMessage
             (if String.eqb (cm_role msg) "user" then "user" else "model")
             [cm_content msg]) messages in
  let generation_config := mkGenerationConfig temperature max_tokens in
  if stream then
    ret (EventStream (_gemini_stream gemini_model gemini_messages
                                     generation_config system_prompt))
  else
    gemini_model <-
      (if truthy system_prompt then
         let gm := mkGenerativeModel gemini_model_name system_prompt in
         emit (GenerativeModelCreated gm) ;; ret gm
       else ret gemini_model) ;;
    response <- external (GenerateContent gemini_model gemini_messages
                                          generation_config false)
                         (fun p n => generate_content p n gemini_model
                                       gemini_messages generation_config) ;;
    ret (Unified
           (mkCompletion ("gemini-" ++ model) model
              (mkChatMessage "assistant" (gr_text response))
              (match gr_total_token_count response with
               | Some n => n
               | None => 0
               end)
              "stop"
              [("candidates", JInt (match gr_candidates response with
                                    | Some n => n
                                    | None => 1
                                    end))])).

(** [_gemma_completion]; [stream] is not read. *)
Definition _gemma_completion (self : t) (model : string)
           (messages : list ChatMessage) (temperature : Q) (max_tokens : Z)
           (stream : bool) (system_prompt : option string) : M Reply :=
  let model_map := [("gemma-7b", "gemma-7b-it"); ("gemma-2b", "gemma-2b-it")] in
  let gemma_model_name := model_map_get model_map model in
  external (ChatModelFromPretrained gemma_model_name)
           (fun _ _ => Answer tt) ;;
  let send text :=
    external (ChatSendMessage gemma_model_name text)
             (fun p n => chat_send_message p n gemma_model_name text) in
  (match system_prompt with
   | Some sp => if String.eqb sp "" then ret tt
                else send ("System: " ++ sp) ;; ret tt
   | None => ret tt
   end) ;;
  for_each (removelast messages)
           (fun msg => if String.eqb (cm_role msg) "user"
                       then send (cm_content msg) ;; ret tt
                       else ret tt) ;;
  match rev messages with
  | [] => raise (IndexError "list index out of range")
  | last_msg :: _ =>
      response <- send (cm_content last_msg) ;;
      ret (Unified
             (mkCompletion ("gemma-" ++ model) model
                (mkChatMessage "assistant" response) 0 "stop" []))
  end.

(** [AIClient.chat_completion] *)
Definition chat_completion (self : t) (model : string)
           (messages : list ChatMessage) (temperature : Q) (max_tokens : Z)
           (stream : bool) (system_prompt : option string)
           (use_extended_thinking : bool) : M Reply :=
  if startswith model "claude" then
    _claude_completion self model messages temperature max_tokens stream
                       system_prompt use_extended_thinking
  else if startswith model "gemini" then
    _gemini_completion self model messages temperature max_tokens stream
                       system_prompt
  else if startswith model "gemma" then
    _gemma_completion self model messages temperature max_tokens stream
                      system_prompt
  else
    raise (ValueError ("Unsupported model: " ++ model)).

(** [AIClient.generate_embedding] *)
Definition generate_embedding (self : t) (text : str) : M embedding :=
  w <- get ;;
  let model := EMBEDDING_MODEL (settings w) in
  external (GetEmbeddings model text)
           (fun p n => get_embeddings p n model text).

End AIClient.

(* ====================================================================== *)
(** * rag/service.py                                                       *)
(* ====================================================================== *)

Module RAGService.

Local Open Scope monad_scope.
Local Open Scope string_scope.

Record t := mkRAGService {
  ai_client : AIClient.t
}.

(** [RAGService.__init__] *)
Definition init : M t :=
  client <- AIClient.init ;;
  ret (mkRAGService client).

(** The body shared by the two chunk loops:
    [for idx, chunk_content in enumerate(chunks)].  The chunk object is
    added to the session and stays pending. *)
Definition add_chunk (self : t) (document_id : UUID)
           (item : Z * str) : M DocumentChunk :=
  let (idx, chunk_content) := item in
  embedding <-
    try_except
      (e <- AIClient.generate_embedding (ai_client self) chunk_content ;;
       ret (Some e))
      (fun e =>
         log WARNING "Failed to generate embedding for chunk" (Some idx)
             (Some e) ;;
         ret None) ;;
  id <- uuid4 ;;
  created_at <- utcnow ;;
  let chunk :=
    mkDocumentChunk id document_id idx chunk_content embedding
                    [("chunk_size", JInt (len chunk_content))] created_at in
  db_add_chunk chunk ;;
  ret chunk.

(** [create_document] *)
Definition create_document (self : t) (document_data : DocumentCreate)
           (chunk_size chunk_overlap : Z) : M DocumentResponse :=
  id <- uuid4 ;;
  created_at <- utcnow ;;
  updated_at <- utcnow ;;
  let document :=
    mkDocument id (dc_user_id document_data) (dc_title document_data)
               (dc_content document_data) None (dc_mime_type document_data)
               (Some (utf8_size (dc_content document_data)))
               (dc_metadata document_data) created_at updated_at in
  db_add_document document ;;
  db_flush ;;
  chunks <- lift (chunk_text (dc_content document_data) chunk_size
                             chunk_overlap) ;;
  pending <- for_each_pending (enumerate chunks)
                              (add_chunk self (doc_id document)) ;;
  db_commit_checked (vector_refusal (map chunk_embedding pending)) ;;
  document <- db_refresh_document document ;;
  ret (document_response document).

(** [_rechunk_document].  The statement under the comment
    [# Delete existing chunks] is a [select]: it reads the chunks of the
    document and its result is dropped.  The function returns nothing; the
    chunk objects that it adds stay pending in the session until the caller
    commits, and are given here as its result. *)
Definition _rechunk_document (self : t) (document : Document)
  : M (list DocumentChunk) :=
  _ <- select_chunks (doc_id document) ;;
  chunks <- lift (chunk_text (doc_content document) default_chunk_size
                             default_overlap) ;;
  for_each_pending (enumerate chunks) (add_chunk self (doc_id document)).

Definition set_title (d : Document) (title : string) : Document :=
  mkDocument (doc_id d) (doc_user_id d) title (doc_content d)
             (doc_file_path d) (doc_mime_type d) (doc_size_bytes d)
             (doc_metadata d) (doc_created_at d) (doc_updated_at d).

Definition set_content (d : Document) (content : str) : Document :=
  mkDocument (doc_id d) (doc_user_id d) (doc_title d) content
             (doc_file_path d) (doc_mime_type d) (Some (utf8_size content))
             (doc_metadata d) (doc_created_at d) (doc_updated_at d).

Definition set_metadata (d : Document) (metadata : json) : Document :=
  mkDocument (doc_id d) (doc_user_id d) (doc_title d) (doc_content d)
             (doc_file_path d) (doc_mime_type d) (doc_size_bytes d)
             metadata (doc_created_at d) (doc_updated_at d).

Definition set_updated_at (d : Document) (now : datetime) : Document :=
  mkDocument (doc_id d) (doc_user_id d) (doc_title d) (doc_content d)
             (doc_file_path d) (doc_mime_type d) (doc_size_bytes d)
             (doc_metadata d) (doc_created_at d) now.

(** [update_document] *)
Definition update_document (self : t) (document_id user_id : UUID)
           (document_data : DocumentUpdate) : M DocumentResponse :=
  rows <- select_documents document_id user_id ;;
  found <- scalar_one_or_none rows ;;
  match found with
  | None => raise (ValueError "Document not found")
  | Some document =>
      let document :=
        match du_title document_data with
        | Some title => set_title document title
        | None => document
        end in
      rechunked <-
        match du_content document_data with
        | Some content =>
            let document := set_content document content in
            pending <- _rechunk_document self document ;;
            ret (document, pending)
        | None => ret (document, [])
        end ;;
      let (document, pending) := rechunked in
      let document :=
        match du_metadata document_data with
        | Some metadata => set_metadata document metadata
        | None => document
        end in
      now <- utcnow ;;
      let document := set_updated_at document now in
      db_write_document document ;;
      db_commit_checked (vector_refusal (map chunk_embedding pending)) ;;
      document <- db_refresh_document document ;;
      ret (document_response document)
  end.

(** The embedding stored for a chunk: the provider's answer, or [None]
    when the call failed. *)
Definition stored_embedding (a : answer embedding) : option embedding :=
  match a with
  | Answer v => Some v
  | Failure _ => None
  end.

(** The answers that the provider gives to the embedding calls for
    [chunks], the first of which is call number [n]. *)
Fixpoint embedding_answers (p : Providers) (model : string) (n : nat)
         (chunks : list str) : list (answer embedding) :=
  match chunks with
  | [] => []
  | c :: rest =>
      get_embeddings p n model c :: embedding_answers p model (S n) rest
  end.



(** The chunks of a document in a table state, in table order. *)
Definition chunks_of (document_id : UUID) (tables : Tables)
  : list DocumentChunk :=
  filter (fun c => Nat.eqb (chunk_document_id c) document_id)
         (document_chunks tables).

End RAGService.

(* ====================================================================== *)
(** * memory/service.py, rag/service.py (search), grounding/service.py     *)
(* ====================================================================== *)

(** ["\n"] *)
Definition nl : string := String (ascii_of_nat 10) EmptyString.

(** [sep.join(parts)] *)
Definition join (sep : string) (parts : list string) : string :=
  String.concat sep parts.

(** [str(n)] for an [int]. *)
Definition str_of_int (n : Z) : string :=
  DecimalString.NilZero.string_of_int (Z.to_int n).

Module MemoryService.

Local Open Scope monad_scope.
Local Open Scope string_scope.

Section WithEngine.

Context {engine : OrderBy}.

Record t := mkMemoryService {
  ai_client : AIClient.t
}.

(** [MemoryService.__init__] *)
Definition init : M t :=
  client <- AIClient.init ;;
  ret (mkMemoryService client).

Definition eqb_chat (a : option UUID) (b : UUID) : bool :=
  match a with
  | Some x => Nat.eqb x b
  | None => false
  end.

(** The sort key [embedding <=> query_embedding]; NULL for a memory
    without embedding. *)
Definition distance_to (p : Providers) (query_embedding : embedding)
           (m : Memory) : option Q :=
  match mem_embedding m with
  | Some e => Some (cosine_distance p e query_embedding)
  | None => None
  end.

(** The rows that the [where] clauses of [search_memories] select. *)
Definition memory_scope (user_id : UUID)
           (search_request : MemorySearchRequest) (tables : Tables)
  : list Memory :=
  let rows := filter (fun m => Nat.eqb (mem_user_id m) user_id)
                     (memories tables) in
  let rows :=
    match msr_memory_type search_request with
    | Some ty =>
        if String.eqb ty "" then rows
        else filter (fun m => String.eqb (mem_memory_type m) ty) rows
    | None => rows
    end in
  match msr_chat_id search_request with
  | Some chat => filter (fun m => eqb_chat (mem_chat_id m) chat) rows
  | None => rows
  end.

(** The statement that [search_memories] builds and executes:
    [... ORDER BY embedding <=> '<query_embedding>' LIMIT <limit>]. *)
Definition memory_query (p : Providers) (user_id : UUID)
           (search_request : MemorySearchRequest)
           (query_embedding : embedding) (tables : Tables)
  : result (list Memory) :=
  nearest mem_embedding (distance_to p query_embedding) query_embedding
          (msr_limit search_request)
          (memory_scope user_id search_request tables).

(** The query embedding of a search, [None] when its generation failed
    (the failure is logged). *)
Definition query_embedding_of (client : AIClient.t) (query : string)
  : M (option embedding) :=
  try_except
    (e <- AIClient.generate_embedding client (list_ascii_of_string query) ;;
     ret (Some e))
    (fun e =>
       log ERROR "Failed to generate query embedding" None (Some e) ;;
       ret None).

(** [search_memories] up to [memories = result.scalars().all()]: the rows
    in the order the engine returned them, or no row when the query
    embedding could not be generated.  The statement runs outside the
    [try]: what it raises propagates. *)
Definition search_memories_rows (self : t) (user_id : UUID)
           (search_request : MemorySearchRequest) : M (list Memory) :=
  found <- query_embedding_of (ai_client self) (msr_query search_request) ;;
  match found with
  | None => ret []
  | Some query_embedding =>
      w <- get ;;
      lift (memory_query (providers w) user_id search_request
                         query_embedding (view (session w)))
  end.

(** [search_memories] *)
Definition search_memories (self : t) (user_id : UUID)
           (search_request : MemorySearchRequest)
  : M (list MemoryResponse) :=
  rows <- search_memories_rows self user_id search_request ;;
  lift (memory_responses rows).

(** One line of the memory context. *)
Definition memory_line (memory : MemoryResponse) : string :=
  "- " ++ mr_content memory ++ " (type: " ++ mr_memory_type memory ++ ")".

(** [get_relevant_memories_for_query] *)
Definition get_relevant_memories_for_query (self : t) (user_id : UUID)
           (query : string) (chat_id : option UUID) (limit : Z) : M string :=
  search_request <- lift (new_MemorySearchRequest query None chat_id limit 0) ;;
  found <- search_memories self user_id search_request ;;
  match found with
  | [] => ret ""
  | _ => ret (join nl (map memory_line found))
  end.

End WithEngine.

End MemoryService.

Module RAGSearch.

Local Open Scope monad_scope.
Local Open Scope string_scope.

Section WithEngine.

Context {engine : OrderBy}.

(** A row of the search statement. *)
Record Hit := mkHit {
  hit_chunk_id : UUID;
  hit_chunk_content : str;
  hit_chunk_index : Z;
  hit_document_id : UUID;
  hit_document_title : string;
  hit_document_metadata : json;
  hit_distance : Q
}.

(** [(1 - (dc.embedding <=> :query_embedding)) as similarity] *)
Definition hit_similarity (h : Hit) : Q := (1 - hit_distance h)%Q.

(** The join of chunks and documents restricted to the user's documents
    and to chunks with an embedding. *)
Definition document_scope (user_id : UUID) (tables : Tables)
  : list (DocumentChunk * Document) :=
  flat_map
    (fun dc =>
       match chunk_embedding dc with
       | None => []
       | Some _ =>
           map (fun d => (dc, d))
               (filter (fun d => Nat.eqb (chunk_document_id dc) (doc_id d)
                                 && Nat.eqb (doc_user_id d) user_id)
                       (documents tables))
       end)
    (document_chunks tables).

(** [dc.embedding <=> :query_embedding], NULL for a chunk without
    embedding. *)
Definition chunk_distance (p : Providers) (query_embedding : embedding)
           (row : DocumentChunk * Document) : option Q :=
  match chunk_embedding (fst row) with
  | Some e => Some (cosine_distance p e query_embedding)
  | None => None
  end.

(** The row that the statement returns for a chunk and its document. *)
Definition hit (p : Providers) (query_embedding : embedding)
           (row : DocumentChunk * Document) : Hit :=
  let (dc, d) := row in
  mkHit (chunk_id dc) (chunk_content dc) (chunk_index dc)
        (doc_id d) (doc_title d) (doc_metadata d)
        (match chunk_embedding dc with
         | Some e => cosine_distance p e query_embedding
         | None => 0
         end).

(** The statement of [search_documents]:
    [... ORDER BY dc.embedding <=> :query_embedding LIMIT :limit]. *)
Definition document_query (p : Providers) (user_id : UUID)
           (query_embedding : embedding) (n : Z) (tables : Tables)
  : result (list Hit) :=
  match nearest (fun row => chunk_embedding (fst row))
                (chunk_distance p query_embedding) query_embedding n
                (document_scope user_id tables) with
  | Ok rows => Ok (map (hit p query_embedding) rows)
  | Raise e => Raise e
  | Diverge => Diverge
  end.

(** [search_documents].  The statement runs outside the [try]: what it
    raises propagates. *)
Definition search_documents (self : RAGService.t) (user_id : UUID)
           (query : string) (n : Z) : M (list Hit) :=
  found <- MemoryService.query_embedding_of (RAGService.ai_client self)
                                            query ;;
  match found with
  | None => ret []
  | Some query_embedding =>
      w <- get ;;
      lift (document_query (providers w) user_id query_embedding n
                           (view (session w)))
  end.

(** [get_rag_context_for_query] *)
Definition get_rag_context_for_query (self : RAGService.t) (user_id : UUID)
           (query : string) (max_chunks : Z) : M string :=
  chunks <- search_documents self user_id query max_chunks ;;
  match chunks with
  | [] => ret ""
  | _ =>
      w <- get ;;
      ret (join (nl ++ nl)
             (map (fun chunk =>
                     "From '" ++ hit_document_title chunk
                       ++ "' (similarity: "
                       ++ format_2f (providers w) (hit_similarity chunk)
                       ++ "):" ++ nl
                       ++ string_of_list_ascii (hit_chunk_content chunk))
                  chunks))
  end.

End WithEngine.

End RAGSearch.

Module WebGroundingService.

Local Open Scope monad_scope.
Local Open Scope string_scope.

Record t := mkWebGroundingService {
  api_key : option string;
  search_engine_id : option string;
  base_url : string
}.

(** [WebGroundingService.__init__] *)
Definition init : M t :=
  w <- get ;;
  ret (mkWebGroundingService (GOOGLE_SEARCH_API_KEY (settings w))
                             (GOOGLE_SEARCH_ENGINE_ID (settings w))
                             "https://www.googleapis.com/customsearch/v1").

(** [search] *)
Definition search (self : t) (query : string) (num_results : Z)
  : M (list SearchItem) :=
  if negb (truthy (api_key self)) || negb (truthy (search_engine_id self))
  then
    log WARNING "Google Search API not configured" None None ;;
    ret []
  else
    let num := Z.min num_results 10 in
    try_except
      (external (HttpGet (base_url self) query num)
                (fun p n => http_get p n (base_url self) query num))
      (fun e =>
         match e with
         | HTTPError _ => log ERROR "Web search failed" None (Some e)
         | _ => log ERROR "Unexpected error during web search" None (Some e)
         end ;;
         ret []).

(** [get_grounding_context] *)
Definition get_grounding_context (self : t) (query : string)
           (num_results : Z) : M string :=
  results <- search self query num_results ;;
  match results with
  | [] => ret ""
  | _ =>
      let context_parts :=
        ("Web search results for '" ++ query ++ "':" ++ nl)
          :: map (fun item : Z * SearchItem =>
                    let (idx, result) := item in
                    str_of_int idx ++ ". " ++ si_title result ++ nl
                      ++ "   URL: " ++ si_link result ++ nl
                      ++ "   " ++ si_snippet result ++ nl)
                 (enumerate_from 1 results) in
      ret (join nl context_parts)
  end.

End WebGroundingService.

(* ====================================================================== *)
(** * chat/service.py                                                      *)
(* ====================================================================== *)

Module ChatService.

Local Open Scope monad_scope.
Local Open Scope string_scope.

Record ChatCompletionRequest := mkChatCompletionRequest {
  chat_id : option UUID;
  model : string;
  messages : list ChatMessage;
  temperature : Q;
  max_tokens : Z;
  stream : bool;
  use_web_grounding : bool;
  use_extended_thinking : bool;
  use_rag : bool;
  system_prompt : option string
}.

Record MessageCreate := mkMessageCreate {
  mc_chat_id : UUID;
  mc_role : string;
  mc_content : string;
  mc_model : option string;
  mc_metadata : json
}.

Record t := mkChatService {
  ai_client : AIClient.t
}.

(** [ChatService.__init__] *)
Definition init : M t :=
  client <- AIClient.init ;;
  ret (mkChatService client).

(** The headers of the three context sections. *)
Definition memory_header : string := nl ++ nl ++ "## User Memory Context" ++ nl.
Definition rag_header : string := nl ++ nl ++ "## Retrieved Documents" ++ nl.
Definition web_header : string := nl ++ nl ++ "## Web Search Results" ++ nl.

(** [if context: system_prompt += header + context] *)
Definition add_section (system_prompt header : string)
           (context : option string) : string :=
  match context with
  | Some c => if String.eqb c "" then system_prompt
              else system_prompt ++ header ++ c
  | None => system_prompt
  end.

(** The local [system_prompt] of [chat_completion] when the AI client is
    called. *)
Definition enhanced_system_prompt (request : ChatCompletionRequest)
           (memory_context rag_context web_context : option string) : string :=
  let system_prompt :=
    match system_prompt request with
    | Some s => if String.eqb s "" then "" else s
    | None => ""
    end in
  let system_prompt := add_section system_prompt memory_header memory_context in
  let system_prompt := add_section system_prompt rag_header rag_context in
  let system_prompt := add_section system_prompt web_header web_context in
  system_prompt.

(** [db.add(message)] *)
Definition db_add_message (m : Message) : M unit :=
  fun w =>
    let t := view (session w) in
    (Ok tt, with_view (mkTables (documents t) (document_chunks t)
                                (memories t)
                                (Effects.messages t ++ [m])%list
                                (chats t)) w).

(** The session writes a modified [Message] object back to its row. *)
Definition db_write_message (m : Message) : M unit :=
  fun w =>
    let t := view (session w) in
    (Ok tt,
     with_view
       (mkTables (documents t) (document_chunks t) (memories t)
          (map (fun m' => if Nat.eqb (msg_id m') (msg_id m) then m else m')
               (Effects.messages t))
          (chats t)) w).

(** [db.refresh(message)] *)
Definition db_refresh_message (m : Message) : M Message :=
  w <- get ;;
  match find (fun m' => Nat.eqb (msg_id m') (msg_id m))
             (Effects.messages (view (session w))) with
  | Some row => ret row
  | None => raise (DatabaseError "Could not refresh instance")
  end.

(** [select(Message).where(Message.id == id)] *)
Definition select_messages (id : UUID) : M (list Message) :=
  w <- get ;;
  ret (filter (fun m => Nat.eqb (msg_id m) id)
              (Effects.messages (view (session w)))).

(** [result.scalar_one()] *)
Definition scalar_one {A} (rows : list A) : M A :=
  match rows with
  | [] => raise (DatabaseError "No row was found when one was required")
  | [row] => ret row
  | _ => raise (DatabaseError "Multiple rows were found when exactly one was required")
  end.

Definition set_chat_updated_at (c : Chat) (now : datetime) : Chat :=
  mkChat (ch_id c) (ch_user_id c) (ch_title c) (ch_model c)
         (ch_system_prompt c) (ch_metadata c) (ch_is_archived c)
         (ch_created_at c) now.

Definition set_tokens_used (m : Message) (tokens : Z) : Message :=
  mkMessage (msg_id m) (msg_chat_id m) (msg_role m) (msg_content m)
            (msg_model m) (Some tokens) (msg_metadata m) (msg_created_at m).

(** [add_message].  Without the chat row the commit is refused: the
    message breaks the foreign key [messages.chat_id]. *)
Definition add_message (self : t) (message_data : MessageCreate) : M Message :=
  id <- uuid4 ;;
  created_at <- utcnow ;;
  let message :=
    mkMessage id (mc_chat_id message_data) (mc_role message_data)
              (mc_content message_data) (mc_model message_data) None
              (mc_metadata message_data) created_at in
  db_add_message message ;;
  rows <- select_chats (mc_chat_id message_data) ;;
  chat <- scalar_one_or_none rows ;;
  match chat with
  | Some chat =>
      now <- utcnow ;;
      db_write_chat (set_chat_updated_at chat now)
  | None => ret tt
  end ;;
  db_commit_checked
    (match chat with
     | Some _ => None
     | None => Some (DatabaseError "violates foreign key constraint")
     end) ;;
  message <- db_refresh_message message ;;
  lift (message_response message).

(** [ChatService.chat_completion] *)
Definition chat_completion (self : t) (user_id : UUID)
           (request : ChatCompletionRequest)
           (memory_context rag_context web_context : option string)
  : M AIClient.Reply :=
  let system_prompt :=
    enhanced_system_prompt request memory_context rag_context web_context in
  result <- AIClient.chat_completion (ai_client self) (model request)
              (messages request) (temperature request) (max_tokens request)
              (stream request)
              (if String.eqb system_prompt "" then None else Some system_prompt)
              (use_extended_thinking request) ;;
  if stream request then ret result
  else
    match result with
    | AIClient.EventStream _ =>
        (* no adapter answers a non-streaming call with a generator *)
        raise (ValueError "'async_generator' object is not subscriptable")
    | AIClient.Unified c =>
        match chat_id request with
        | None => ret result
        | Some chat =>
            match rev (messages request) with
            | [] => raise (IndexError "list index out of range")
            | last_msg :: _ =>
                add_message self
                  (mkMessageCreate chat "user" (cm_content last_msg) None []) ;;
                msg <- add_message self
                         (mkMessageCreate chat "assistant"
                            (cm_content (AIClient.c_message c))
                            (Some (AIClient.c_model c))
                            ([("tokens_used", JInt (AIClient.c_tokens_used c));
                              ("finish_reason",
                               JStr (AIClient.c_finish_reason c))]
                               ++ AIClient.c_metadata c)%list) ;;
                rows <- select_messages (msg_id msg) ;;
                saved_message <- scalar_one rows ;;
                db_write_message
                  (set_tokens_used saved_message
                                   (AIClient.c_tokens_used c)) ;;
                db_commit ;;
                ret result
            end
        end
    end.

End ChatService.

(* ====================================================================== *)
(** * api/main.py                                                          *)
(* ====================================================================== *)

Module Api.

Local Open Scope monad_scope.
Local Open Scope string_scope.

Import ChatService.

Section WithEngine.

Context {engine : OrderBy}.

(** [request.messages[-1]["content"] if request.messages else ""] *)
Definition last_message (request : ChatCompletionRequest) : string :=
  match rev (messages request) with
  | [] => ""
  | m :: _ => cm_content m
  end.

(** [if request.use_rag: rag_context = await ...] *)
Definition fetch_rag (rag_service : RAGService.t) (user_id : UUID)
           (request : ChatCompletionRequest) : M (option string) :=
  if use_rag request then
    c <- RAGSearch.get_rag_context_for_query rag_service user_id
                                             (last_message request) 5 ;;
    ret (Some c)
  else ret None.

(** [if request.use_web_grounding: web_context = await ...] *)
Definition fetch_web (grounding_service : WebGroundingService.t)
           (request : ChatCompletionRequest) : M (option string) :=
  if use_web_grounding request then
    c <- WebGroundingService.get_grounding_context grounding_service
                                                   (last_message request) 3 ;;
    ret (Some c)
  else ret None.

(** [memory_context = await ...], always *)
Definition fetch_memory (memory_service : MemoryService.t) (user_id : UUID)
           (request : ChatCompletionRequest) : M (option string) :=
  c <- MemoryService.get_relevant_memories_for_query
         memory_service user_id (last_message request) (chat_id request) 5 ;;
  ret (Some c).

(** The statements of the route that get the context: three awaits, one
    after the other, in the order RAG, web, memory.  The result is
    [(memory_context, rag_context, web_context)]. *)
Definition get_context (memory_service : MemoryService.t)
           (rag_service : RAGService.t)
           (grounding_service : WebGroundingService.t) (user_id : UUID)
           (request : ChatCompletionRequest)
  : M (option string * option string * option string) :=
  rag_context <- fetch_rag rag_service user_id request ;;
  web_context <- fetch_web grounding_service request ;;
  memory_context <- fetch_memory memory_service user_id request ;;
  ret (memory_context, rag_context, web_context).

(** The route [POST /chat/completions]. *)
Definition chat_completion (request : ChatCompletionRequest)
           (user_id : UUID) : M AIClient.Reply :=
  chat_service <- ChatService.init ;;
  memory_service <- MemoryService.init ;;
  rag_service <- RAGService.init ;;
  grounding_service <- WebGroundingService.init ;;
  contexts <- get_context memory_service rag_service grounding_service
                          user_id request ;;
  let '(memory_context, rag_context, web_context) := contexts in
  ChatService.chat_completion chat_service user_id request
                              memory_context rag_context web_context.

(** Time that a computation takes from world [w]. *)
Definition elapsed {A} (m : M A) (w : World) : Z :=
  Z.of_nat (clock (snd (m w))) - Z.of_nat (clock w).

End WithEngine.

End Api.

(* ====================================================================== *)
(** * Vocabulary of the stated properties                                  *)
(* ====================================================================== *)

(** Similarity of a memory to the query: [1 - (embedding <=> query)], NULL
    for a memory without embedding. *)
Definition similarity_to (p : Providers) (q : embedding) (m : Memory)
  : option Q :=
  match mem_embedding m with
  | Some e => Some (1 - cosine_distance p e q)%Q
  | None => None
  end.

(** Descending similarity, NULL last. *)
Definition similarity_ge (a b : option Q) : Prop :=
  match a, b with
  | Some x, Some y => (y <= x)%Q
  | _, None => True
  | None, Some _ => False
  end.

Definition by_similarity (p : Providers) (q : embedding) (m1 m2 : Memory)
  : Prop :=
  similarity_ge (similarity_to p q m1) (similarity_to p q m2).

(** [m1] may stand before [m2] in a list ordered by descending similarity,
    ties broken by descending importance, then by descending creation time. *)
Definition by_similarity_importance_recency (p : Providers) (q : embedding)
           (m1 m2 : Memory) : Prop :=
  by_similarity p q m1 m2 /\
  (by_similarity p q m2 m1 ->
   (mem_importance_score m2 <= mem_importance_score m1)%Q /\
   ((mem_importance_score m1 == mem_importance_score m2)%Q ->
    (mem_created_at m2 <= mem_created_at m1)%nat)).

(** The events of a stream that are terminal [done] events. *)
Definition is_done (ev : AIClient.StreamEvent) : bool :=
  match ev with
  | AIClient.DoneEvent _ => true
  | AIClient.ContentEvent _ => false
  end.

(** The content events of the chunks received from the provider: one for
    every chunk with a text. *)
Definition content_events (chunks : list GeminiChunk)
  : list AIClient.StreamEvent :=
  flat_map (fun chunk =>
              if String.eqb (gch_text chunk) "" then []
              else [AIClient.ContentEvent (gch_text chunk)]) chunks.

(** [tokens_used] of every terminal event of a stream. *)
Definition done_tokens (events : list AIClient.StreamEvent) : list Z :=
  flat_map (fun ev => match ev with
                      | AIClient.DoneEvent m => [AIClient.done_tokens_used m]
                      | AIClient.ContentEvent _ => []
                      end) events.

(** A labelled section of the prompt: the header and the context when the
    context is present and not empty, nothing otherwise. *)
Definition prompt_section (header : string) (context : option string)
  : string :=
  match context with
  | Some c => if String.eqb c "" then ""%string else (header ++ c)%string
  | None => ""%string
  end.

(** The base system prompt that the caller supplies. *)
Definition base_prompt (request : ChatService.ChatCompletionRequest) : string :=
  match ChatService.system_prompt request with
  | Some s => s
  | None => ""%string
  end.

(** Every stored vector has the dimension of its column, as the database
    guarantees of the rows it holds. *)
Definition vectors_fit (t : Tables) : bool :=
  forallb (fun c => fits_column (chunk_embedding c)) (document_chunks t)
  && forallb (fun m => fits_column (mem_embedding m)) (memories t).

(** Every stored memory passes the validation of [MemoryResponse]. *)
Definition memories_presentable (t : Tables) : bool :=
  forallb (fun m => valid_memory_fields (mem_memory_type m)
                                        (mem_importance_score m))
          (memories t).

(** The embedding model answers with vectors of the dimension of the
    columns, whenever it answers. *)
Definition embeds_in_dimension (p : Providers) : Prop :=
  forall n model text v,
    get_embeddings p n model text = Answer v ->
    List.length v = VECTOR_DIMENSION.

(** An answer of the embedding model that the vector columns take: a
    failure (stored as NULL) or a vector of their dimension. *)
Definition answer_fits (a : answer embedding) : bool :=
  fits_column (RAGService.stored_embedding a).

(** The chunk tables of two worlds differ by [rows] appended, and nothing
    else of the session changed. *)
Definition chunks_appended (w w' : World) (rows : list DocumentChunk) : Prop :=
  documents (view (session w')) = documents (view (session w)) /\
  document_chunks (view (session w')) =
    (document_chunks (view (session w)) ++ rows)%list /\
  memories (view (session w')) = memories (view (session w)) /\
  messages (view (session w')) = messages (view (session w)) /\
  chats (view (session w')) = chats (view (session w)) /\
  committed (session w') = committed (session w).

(** The collaborators and the counters after [n] embedding calls. *)
Definition after_calls (w w' : World) (n : nat) : Prop :=
  providers w' = providers w /\ settings w' = settings w /\
  calls w' = (calls w + n)%nat /\
  uuid_supply w' = (uuid_supply w + n)%nat.



(** The document row that [create_document] builds in world [w]. *)
Definition new_document (document_data : DocumentCreate) (w : World)
  : Document :=
  mkDocument (uuid_supply w) (dc_user_id document_data)
             (dc_title document_data) (dc_content document_data) None
             (dc_mime_type document_data)
             (Some (utf8_size (dc_content document_data)))
             (dc_metadata document_data) (clock w) (clock w).


(** The row of [document] replaced in a document table. *)
Definition written (document : Document) (docs : list Document)
  : list Document :=
  map (fun d' => if Nat.eqb (doc_id d') (doc_id document)
                 then document else d') docs.


(** The time that [n] external calls take when they are made one after
    the other, the first of them being call number [first]. *)
Definition latency_sum (p : Providers) (first n : nat) : nat :=
  fold_right Nat.add 0%nat
             (map (fun i => latency p (first + i)%nat) (seq 0 n)).

(** World [w'] is world [w] after the external calls [events], made one
    after the other and each awaited before the next is made: they are
    recorded in this order, they are numbered consecutively from [calls w],
    and the clock has advanced by the latency of each of them.  The store,
    the collaborators and the settings are as they were. *)
Definition after_events (w w' : World) (events : list Event) : Prop :=
  session w' = session w /\ providers w' = providers w /\
  settings w' = settings w /\ uuid_supply w' = uuid_supply w /\
  calls w' = (calls w + List.length events)%nat /\
  clock w' =
    (clock w + latency_sum (providers w) (calls w) (List.length events))%nat /\
  trace w' = (trace w ++ events)%list.

(** A computation that calls no collaborator: no event, no call, no time. *)
Definition offline {A} (m : M A) : Prop :=
  forall w,
    trace (snd (m w)) = trace w /\ calls (snd (m w)) = calls w /\
    clock (snd (m w)) = clock w /\ providers (snd (m w)) = providers w /\
    settings (snd (m w)) = settings w.

(** The system prompt that the claim describes: the base prompt of the
    caller followed by the sections of the contexts. *)
Definition augmented_prompt (request : ChatService.ChatCompletionRequest)
           (memory_context rag_context web_context : option string)
  : string :=
  (base_prompt request
     ++ prompt_section ChatService.memory_header memory_context
     ++ prompt_section ChatService.rag_header rag_context
     ++ prompt_section ChatService.web_header web_context)%string.

(** The call of the provider layer for a request, with [prompt] as system
    prompt (none when [prompt] is empty). *)
Definition provider_call (client : AIClient.t)
           (request : ChatService.ChatCompletionRequest) (prompt : string)
  : M AIClient.Reply :=
  AIClient.chat_completion
    client (ChatService.model request) (ChatService.messages request)
    (ChatService.temperature request) (ChatService.max_tokens request)
    (ChatService.stream request)
    (if String.eqb prompt "" then None else Some prompt)
    (ChatService.use_extended_thinking request).

(* ====================================================================== *)
(** * Concrete worlds                                                      *)
(* ====================================================================== *)

Module Scenario.

Local Open Scope nat_scope.
Local Open Scope string_scope.

Definition dot (a b : embedding) : Q :=
  fold_right Qplus 0%Q (map (fun xy => (fst xy * snd xy)%Q) (combine a b)).

(** Cosine distance of vectors of norm 1. *)
Definition unit_cosine_distance (a b : embedding) : Q := (1 - dot a b)%Q.

Definition unavailable {A} : answer A := Failure (ProviderError "unavailable").

(** Collaborators that answer embedding calls with [embed] and web searches
    with [web], take [lat] per call, and offer no chat model. *)
Definition providers_of (embed : nat -> str -> answer embedding)
           (web : list SearchItem) (lat : nat -> nat) : Providers :=
  mkProviders (fun n _ text => embed n text)
              (fun _ _ => unavailable)
              (fun _ _ => unavailable)
              (fun _ _ _ _ => unavailable)
              (fun _ _ _ _ => unavailable)
              (fun _ _ _ => unavailable)
              (fun _ _ _ _ => Answer web)
              lat
              unit_cosine_distance
              (fun _ => "0.00").

(** A unit vector of the dimension of the vector columns. *)
Definition east : embedding := 1%Q :: repeat 0%Q 1535.

(** Every embedding call succeeds. *)
Definition steady : Providers :=
  providers_of (fun _ _ => Answer east) [] (fun _ => 1).


(** Web search answers with one result. *)
Definition with_web : Providers :=
  providers_of (fun _ _ => Answer east)
               [mkSearchItem "title" "http://example.org" "snippet"
                             "example.org"]
               (fun _ => 1).

(** Gemini streams three chunks, one of them empty, and reports token
    counts with them. *)
Definition streaming : Providers :=
  mkProviders (fun _ _ _ => Answer east)
              (fun _ _ => unavailable)
              (fun _ _ => unavailable)
              (fun _ _ _ _ => unavailable)
              (fun _ _ _ _ =>
                 Answer ([mkGeminiChunk "Hel" (Some 5%Z);
                          mkGeminiChunk "" None;
                          mkGeminiChunk "lo" (Some 12%Z)], None))
              (fun _ _ _ => unavailable)
              (fun _ _ _ _ => Answer [])
              (fun _ => 1)
              unit_cosine_distance
              (fun _ => "0.00").

Definition vertex_only : Settings :=
  mkSettings None None (Some "project") "us-central1" "text-embedding-004"
             None None.

Definition vertex_and_search : Settings :=
  mkSettings None None (Some "project") "us-central1" "text-embedding-004"
             (Some "key") (Some "engine").

Definition no_tables : Tables := mkTables [] [] [] [] [].

Definition world_of (p : Providers) (s : Settings) (tables : Tables) : World :=
  mkWorld (mkSession tables tables) 100 0 0 [] [] p s.

Definition client : AIClient.t := AIClient.mkAIClient false.

(** A document whose content is "abc". *)
Definition abc : DocumentCreate :=
  mkDocumentCreate "letters" ["a"; "b"; "c"]%char None [] 7.

(** Ingest a document with content "a", then replace its content by "b". *)
Definition reingest : M DocumentResponse :=
  bind RAGService.init (fun service =>
  bind (RAGService.create_document service
          (mkDocumentCreate "note" ["a"]%char None [] 7) 1000%Z 200%Z)
       (fun created =>
  RAGService.update_document service (dr_id created) 7
    (mkDocumentUpdate None (Some ["b"]%char) None))).

(** Two memories of user 7 with the same embedding: the one stored first
    is the less important and the older one. *)
Definition minor : Memory :=
  mkMemory 1 7 None "user_fact" "likes tea" (Some east) (2 # 10) [] 10 10.
Definition major : Memory :=
  mkMemory 2 7 None "user_fact" "allergic to nuts" (Some east) (9 # 10) []
           20 20.

Definition two_memories : Tables := mkTables [] [] [minor; major] [] [].

Definition any_memory : MemorySearchRequest :=
  mkMemorySearchRequest "what to drink" None None 10%Z 0%Q.

(** A completion request with both optional sources switched on. *)
Definition all_sources : ChatService.ChatCompletionRequest :=
  ChatService.mkChatCompletionRequest
    None "gemini-2.5-flash" [mkChatMessage "user" "what to drink"]
    (7 # 10) 4000%Z false true false true None.

(** A completion request for a model of no known family. *)
Definition unknown_model : ChatService.ChatCompletionRequest :=
  ChatService.mkChatCompletionRequest
    None "gpt-4" [mkChatMessage "user" "hello"]
    (7 # 10) 4000%Z false false false false (Some "Be brief.").

(** The services of a request and a world in which RAG, web search and
    memory each make one external call of one time unit. *)
Definition rag_service : RAGService.t := RAGService.mkRAGService client.
Definition memory_service : MemoryService.t :=
  MemoryService.mkMemoryService client.
Definition grounding_service : WebGroundingService.t :=
  WebGroundingService.mkWebGroundingService (Some "key") (Some "engine") "url".
Definition unconfigured_grounding : WebGroundingService.t :=
  WebGroundingService.mkWebGroundingService None None "url".
Definition busy : World := world_of with_web vertex_and_search two_memories.
Definition quiet : World := world_of steady vertex_only two_memories.

End Scenario.

(* ====================================================================== *)
(** * More of shared/utils.py: text helpers and [sanitize_input]           *)
(* ====================================================================== *)

Module PyText.

(** [c.isspace()] for a character below U+0100: TAB to CR, FS to US and
    the space, NEL and the no-break space. *)
Definition isspace (c : ascii) : bool :=
  let n := nat_of_ascii c in
  ((9 <=? n) && (n <=? 13) || (28 <=? n) && (n <=? 32)
   || (n =? 133) || (n =? 160))%nat.

(** [s.lstrip()] *)
Fixpoint lstrip (s : str) : str :=
  match s with
  | [] => []
  | c :: rest => if isspace c then lstrip rest else s
  end.

(** [s.rstrip()] *)
Definition rstrip (s : str) : str := rev (lstrip (rev s)).

(** [s.strip()] *)
Definition strip (s : str) : str := rstrip (lstrip s).

(** [s.replace(c, '')] for a one-character [c] *)
Definition remove_char (c : ascii) (s : str) : str :=
  filter (fun x => negb (Ascii.eqb x c)) s.

(** [s.split(sep)] for a one-character [sep] *)
Fixpoint split (sep : ascii) (s : str) : list str :=
  match s with
  | [] => [[]]
  | c :: rest =>
      if Ascii.eqb c sep then [] :: split sep rest
      else match split sep rest with
           | [] => [[c]]
           | piece :: pieces => (c :: piece) :: pieces
           end
  end.

(** [s.startswith(p)] *)
Fixpoint startswith (s p : str) : bool :=
  match p, s with
  | [], _ => true
  | _ :: _, [] => false
  | x :: p', c :: s' => Ascii.eqb x c && startswith s' p'
  end.

(** [s[start:]] *)
Definition slice_from {A} (s : list A) (start : Z) : list A :=
  py_slice s start (len s).

(** [s[:stop]] *)
Definition slice_to {A} (s : list A) (stop : Z) : list A :=
  py_slice s 0 stop.

Definition NUL : ascii := ascii_of_nat 0.
Definition LF : ascii := ascii_of_nat 10.

(** [sanitize_input(text, max_length)] *)
Definition sanitize_input (text : str) (max_length : Z) : str :=
  let text := slice_to text max_length in
  let text := remove_char NUL text in
  let text := strip text in
  text.

End PyText.

(** A string that neither begins nor ends with whitespace. *)
Definition trimmed (s : str) : Prop :=
  (forall c rest, s = c :: rest -> PyText.isspace c = false) /\
  (forall c init, s = init ++ [c] -> PyText.isspace c = false).

(** The windows of [chunk_text], as positions: window [k] starts [k] strides
    after the beginning, and there are as many windows as strides needed to
    pass the end of the text. *)
Definition window_at (text : str) (size overlap : Z) (k : nat) : str :=
  py_slice text (Z.of_nat k * (size - overlap))
           (Z.of_nat k * (size - overlap) + size).

Definition window_count (text : str) (size overlap : Z) : nat :=
  Z.to_nat ((len text + (size - overlap) - 1) / (size - overlap)).

(* ====================================================================== *)
(** * More of rag/service.py: reading and deleting documents               *)
(* ====================================================================== *)

Module DocumentStore.

Local Open Scope monad_scope.
Local Open Scope string_scope.

(** [db.delete(document)]: the row goes, and with it the chunks that the
    relationship [Document.chunks] cascades to ([cascade="all,
    delete-orphan"], foreign key [ondelete="CASCADE"]). *)
Definition db_delete_document (d : Document) : M unit :=
  fun w =>
    let t := view (session w) in
    (Ok tt,
     with_view
       (mkTables
          (filter (fun d' => negb (Nat.eqb (doc_id d') (doc_id d)))
                  (documents t))
          (filter (fun c => negb (Nat.eqb (chunk_document_id c) (doc_id d)))
                  (document_chunks t))
          (memories t) (messages t) (chats t)) w).

(** [get_document] *)
Definition get_document (self : RAGService.t) (document_id user_id : UUID)
  : M DocumentResponse :=
  rows <- select_documents document_id user_id ;;
  found <- scalar_one_or_none rows ;;
  match found with
  | None => raise (ValueError "Document not found")
  | Some document => ret (document_response document)
  end.

(** [delete_document] *)
Definition delete_document (self : RAGService.t) (document_id user_id : UUID)
  : M unit :=
  rows <- select_documents document_id user_id ;;
  found <- scalar_one_or_none rows ;;
  match found with
  | None => raise (ValueError "Document not found")
  | Some document =>
      db_delete_document document ;;
      db_commit
  end.

Section WithEngine.

Context {engine : OrderBy}.

(** The sort key of [Document.created_at.desc()]. *)
Definition newest_first (d : Document) : option Q :=
  Some (- inject_Z (Z.of_nat (doc_created_at d)))%Q.

(** [get_user_documents]: [.order_by(created_at.desc()).limit(limit)
    .offset(offset)] skips [offset] rows and keeps [limit]; the engine
    refuses a negative offset or limit. *)
Definition get_user_documents (self : RAGService.t) (user_id : UUID)
           (limit offset : Z) : M (list DocumentResponse) :=
  w <- get ;;
  let rows := filter (fun d => Nat.eqb (doc_user_id d) user_id)
                     (documents (view (session w))) in
  let rows := order_by newest_first rows in
  rows <- lift (Storage.offset offset rows) ;;
  rows <- lift (Storage.limit limit rows) ;;
  ret (map document_response rows).

End WithEngine.

End DocumentStore.

(** The rows that the search statement may return: a chunk with an
    embedding joined to its document, which belongs to the user. *)
Definition hit_of (p : Providers) (user_id : UUID) (q : embedding)
           (tables : Tables) (h : RAGSearch.Hit) : Prop :=
  exists dc d e,
    In dc (document_chunks tables) /\ In d (documents tables) /\
    chunk_document_id dc = doc_id d /\ doc_user_id d = user_id /\
    chunk_embedding dc = Some e /\
    RAGSearch.hit_chunk_id h = chunk_id dc /\
    RAGSearch.hit_chunk_content h = chunk_content dc /\
    RAGSearch.hit_document_id h = doc_id d /\
    RAGSearch.hit_document_title h = doc_title d /\
    RAGSearch.hit_distance h = cosine_distance p e q.

(* ====================================================================== *)
(** * More of memory/service.py                                            *)
(* ====================================================================== *)

Module MemoryStore.

Local Open Scope monad_scope.
Local Open Scope string_scope.

Record MemoryCreate := mkMemoryCreate {
  mc_content : string;
  mc_memory_type : string;
  mc_importance_score : Q;
  mc_metadata : json;
  mc_user_id : UUID;
  mc_chat_id : option UUID
}.

Record MemoryUpdate := mkMemoryUpdate {
  mu_content : option string;
  mu_importance_score : option Q;
  mu_metadata : option json
}.

(** [db.add(memory)]; the row is as the database keeps it. *)
Definition db_add_memory (m : Memory) : M unit :=
  fun w =>
    let t := view (session w) in
    (Ok tt, with_view (mkTables (documents t) (document_chunks t)
                                (memories t ++ [as_stored m])%list
                                (messages t) (chats t)) w).

(** The session writes a modified [Memory] object back to its row. *)
Definition db_write_memory (m : Memory) : M unit :=
  fun w =>
    let t := view (session w) in
    (Ok tt,
     with_view (mkTables (documents t) (document_chunks t)
                  (map (fun m' => if Nat.eqb (mem_id m') (mem_id m)
                                  then as_stored m else m') (memories t))
                  (messages t) (chats t)) w).

(** [db.delete(memory)] *)
Definition db_delete_memory (m : Memory) : M unit :=
  fun w =>
    let t := view (session w) in
    (Ok tt,
     with_view (mkTables (documents t) (document_chunks t)
                  (filter (fun m' => negb (Nat.eqb (mem_id m') (mem_id m)))
                          (memories t))
                  (messages t) (chats t)) w).

(** [db.refresh(memory)] *)
Definition db_refresh_memory (m : Memory) : M Memory :=
  w <- get ;;
  match find (fun m' => Nat.eqb (mem_id m') (mem_id m))
             (memories (view (session w))) with
  | Some row => ret row
  | None => raise (DatabaseError "Could not refresh instance")
  end.

(** [select(Memory).where(Memory.id == memory_id,
    Memory.user_id == user_id)] *)
Definition select_memories (memory_id user_id : UUID) : M (list Memory) :=
  w <- get ;;
  ret (filter (fun m => Nat.eqb (mem_id m) memory_id
                        && Nat.eqb (mem_user_id m) user_id)
              (memories (view (session w)))).

(** What the INSERT of a new memory meets, given the rows stored before
    it: pgvector refuses a vector of the wrong dimension, the engine a score
    that does not fit [DECIMAL(3,2)], an identifier that is already a
    primary key and a chat that does not exist.  The owner is a row of the
    table of users, which no service writes and which is left out here. *)
Definition insert_refusal (m : Memory) (t : Tables) : option exn :=
  if negb (fits_column (mem_embedding m)) then
    Some (DatabaseError "expected 1536 dimensions")
  else if negb (fits_decimal_3_2 (mem_importance_score m)) then
    Some (DatabaseError "numeric field overflow")
  else if existsb (fun m' => Nat.eqb (mem_id m') (mem_id m)) (memories t) then
    Some (DatabaseError "duplicate key value violates unique constraint")
  else
    match mem_chat_id m with
    | Some chat =>
        if chat_exists chat t then None
        else Some (DatabaseError "violates foreign key constraint")
    | None => None
    end.

(** [create_memory] *)
Definition create_memory (self : MemoryService.t) (memory_data : MemoryCreate)
  : M MemoryResponse :=
  embedding <-
    try_except
      (e <- AIClient.generate_embedding (MemoryService.ai_client self)
              (list_ascii_of_string (mc_content memory_data)) ;;
       ret (Some e))
      (fun e => log WARNING "Failed to generate embedding" None (Some e) ;;
                ret None) ;;
  id <- uuid4 ;;
  created_at <- utcnow ;;
  updated_at <- utcnow ;;
  let memory :=
    mkMemory id (mc_user_id memory_data) (mc_chat_id memory_data)
             (mc_memory_type memory_data) (mc_content memory_data) embedding
             (mc_importance_score memory_data) (mc_metadata memory_data)
             created_at updated_at in
  w <- get ;;
  let refusal := insert_refusal memory (view (session w)) in
  db_add_memory memory ;;
  db_commit_checked refusal ;;
  memory <- db_refresh_memory memory ;;
  lift (memory_response memory).

(** [get_memory] *)
Definition get_memory (self : MemoryService.t) (memory_id user_id : UUID)
  : M MemoryResponse :=
  rows <- select_memories memory_id user_id ;;
  found <- scalar_one_or_none rows ;;
  match found with
  | None => raise (ValueError "Memory not found")
  | Some memory => lift (memory_response memory)
  end.

Definition set_content (m : Memory) (content : string) : Memory :=
  mkMemory (mem_id m) (mem_user_id m) (mem_chat_id m) (mem_memory_type m)
           content (mem_embedding m) (mem_importance_score m)
           (mem_metadata m) (mem_created_at m) (mem_updated_at m).

Definition set_embedding (m : Memory) (e : embedding) : Memory :=
  mkMemory (mem_id m) (mem_user_id m) (mem_chat_id m) (mem_memory_type m)
           (mem_content m) (Some e) (mem_importance_score m)
           (mem_metadata m) (mem_created_at m) (mem_updated_at m).

Definition set_importance_score (m : Memory) (score : Q) : Memory :=
  mkMemory (mem_id m) (mem_user_id m) (mem_chat_id m) (mem_memory_type m)
           (mem_content m) (mem_embedding m) score
           (mem_metadata m) (mem_created_at m) (mem_updated_at m).

Definition set_metadata (m : Memory) (metadata : json) : Memory :=
  mkMemory (mem_id m) (mem_user_id m) (mem_chat_id m) (mem_memory_type m)
           (mem_content m) (mem_embedding m) (mem_importance_score m)
           metadata (mem_created_at m) (mem_updated_at m).

Definition set_updated_at (m : Memory) (now : datetime) : Memory :=
  mkMemory (mem_id m) (mem_user_id m) (mem_chat_id m) (mem_memory_type m)
           (mem_content m) (mem_embedding m) (mem_importance_score m)
           (mem_metadata m) (mem_created_at m) now.

(** What the flush of a changed memory meets: of the columns that were
    assigned, a vector of the wrong dimension or a score that does not fit
    [DECIMAL(3,2)]. *)
Definition update_refusal (assigned_embedding : option embedding)
           (assigned_score : option Q) : option exn :=
  if negb (fits_column assigned_embedding) then
    Some (DatabaseError "expected 1536 dimensions")
  else
    match assigned_score with
    | Some score =>
        if fits_decimal_3_2 score then None
        else Some (DatabaseError "numeric field overflow")
    | None => None
    end.

(** [update_memory] *)
Definition update_memory (self : MemoryService.t) (memory_id user_id : UUID)
           (memory_data : MemoryUpdate) : M MemoryResponse :=
  rows <- select_memories memory_id user_id ;;
  found <- scalar_one_or_none rows ;;
  match found with
  | None => raise (ValueError "Memory not found")
  | Some memory =>
      regenerated <-
        match mu_content memory_data with
        | Some content =>
            let memory := set_content memory content in
            try_except
              (e <- AIClient.generate_embedding (MemoryService.ai_client self)
                      (list_ascii_of_string content) ;;
               ret (set_embedding memory e, Some e))
              (fun e =>
                 log WARNING "Failed to generate embedding" None (Some e) ;;
                 ret (memory, None))
        | None => ret (memory, None)
        end ;;
      let (memory, assigned_embedding) := regenerated in
      let memory :=
        match mu_importance_score memory_data with
        | Some score => set_importance_score memory score
        | None => memory
        end in
      let memory :=
        match mu_metadata memory_data with
        | Some metadata => set_metadata memory metadata
        | None => memory
        end in
      now <- utcnow ;;
      let memory := set_updated_at memory now in
      db_write_memory memory ;;
      db_commit_checked
        (update_refusal assigned_embedding
                        (mu_importance_score memory_data)) ;;
      memory <- db_refresh_memory memory ;;
      lift (memory_response memory)
  end.

(** [delete_memory] *)
Definition delete_memory (self : MemoryService.t) (memory_id user_id : UUID)
  : M unit :=
  rows <- select_memories memory_id user_id ;;
  found <- scalar_one_or_none rows ;;
  match found with
  | None => raise (ValueError "Memory not found")
  | Some memory =>
      db_delete_memory memory ;;
      db_commit
  end.

(** The body of the loop of [extract_memories_from_conversation] up to the
    test [if content and len(content) > 10]: the memory type and content of
    a line of the model's answer, [None] when the line is skipped. *)
Definition parse_line (line : str) : option (string * str) :=
  let line := PyText.strip line in
  match line with
  | [] => None
  | _ =>
      let '(memory_type, content) :=
        if PyText.startswith line (list_ascii_of_string "[FACT]") then
          ("user_fact", PyText.strip (PyText.slice_from line 6))
        else if PyText.startswith line (list_ascii_of_string "[PREFERENCE]") then
          ("preference", PyText.strip (PyText.slice_from line 12))
        else if PyText.startswith line (list_ascii_of_string "[CONTEXT]") then
          ("chat", PyText.strip (PyText.slice_from line 9))
        else ("user_fact", line) in
      match content with
      | [] => None
      | _ => if (10 <? len content)%Z then Some (memory_type, content)
             else None
      end
  end.

(** The prompt of the extraction. *)
Definition extraction_prompt (conversation_text : string) : string :=
  "Analyze this conversation and extract important information about the user that should be remembered for future conversations."
    ++ nl ++ "Extract:"
    ++ nl ++ "1. User facts (personal information, background)"
    ++ nl ++ "2. User preferences (likes, dislikes, settings)"
    ++ nl ++ "3. Important context (projects, goals, concerns)"
    ++ nl
    ++ nl ++ "Format each memory as a separate line starting with the type [FACT], [PREFERENCE], or [CONTEXT]:"
    ++ nl
    ++ nl ++ "Conversation:"
    ++ nl ++ conversation_text
    ++ nl
    ++ nl ++ "Memories:".

(** [for line in memories_text.split('\n'): ...], with the list of the
    memories created so far. *)
Fixpoint extract_lines (self : MemoryService.t) (user_id chat_id : UUID)
         (lines : list str) (extracted_memories : list MemoryResponse)
  : M (list MemoryResponse) :=
  match lines with
  | [] => ret extracted_memories
  | line :: rest =>
      match parse_line line with
      | None => extract_lines self user_id chat_id rest extracted_memories
      | Some (memory_type, content) =>
          memory <- create_memory self
                      (mkMemoryCreate (string_of_list_ascii content)
                         memory_type (7 # 10) [("auto_extracted", JBool true)]
                         user_id (Some chat_id)) ;;
          extract_lines self user_id chat_id rest
                        (extracted_memories ++ [memory])%list
      end
  end.

(** [extract_memories_from_conversation] *)
Definition extract_memories_from_conversation (self : MemoryService.t)
           (user_id chat_id : UUID) (messages : list ChatMessage)
  : M (list MemoryResponse) :=
  let conversation_text :=
    join nl (map (fun msg => cm_role msg ++ ": " ++ cm_content msg)
                 (PyText.slice_from messages (-10))) in
  try_except
    (result <- AIClient.chat_completion (MemoryService.ai_client self)
                 "gemini-2.5-flash"
                 [mkChatMessage "user" (extraction_prompt conversation_text)]
                 (3 # 10) 500 false None false ;;
     match result with
     | AIClient.EventStream _ =>
         raise (ValueError "'async_generator' object is not subscriptable")
     | AIClient.Unified c =>
         let memories_text := cm_content (AIClient.c_message c) in
         extract_lines self user_id chat_id
                       (PyText.split PyText.LF
                                     (list_ascii_of_string memories_text)) []
     end)
    (fun e => log ERROR "Failed to extract memories" None (Some e) ;; ret []).

End MemoryStore.

(** The row that [create_memory] stores in world [w]: the embedding call is
    call number [calls w], the identifier and the times are read after it,
    and the score is kept to the scale of its column. *)
Definition new_memory (memory_data : MemoryStore.MemoryCreate) (w : World)
  : Memory :=
  let text := list_ascii_of_string (MemoryStore.mc_content memory_data) in
  let now := (clock w + latency (providers w) (calls w))%nat in
  mkMemory (uuid_supply w) (MemoryStore.mc_user_id memory_data)
           (MemoryStore.mc_chat_id memory_data)
           (MemoryStore.mc_memory_type memory_data)
           (MemoryStore.mc_content memory_data)
           (RAGService.stored_embedding
              (get_embeddings (providers w) (calls w)
                              (EMBEDDING_MODEL (settings w)) text))
           (round_2 (MemoryStore.mc_importance_score memory_data))
           (MemoryStore.mc_metadata memory_data)
           now now.




(** The memories that the lines of an answer give, in order. *)
Definition parsed_lines (lines : list str) : list (string * str) :=
  flat_map (fun line => match MemoryStore.parse_line line with
                        | Some parsed => [parsed]
                        | None => []
                        end) lines.

(** What the filters of a search request let through. *)
Definition in_scope (user_id : UUID) (search_request : MemorySearchRequest)
           (m : Memory) : Prop :=
  mem_user_id m = user_id /\
  (forall ty, msr_memory_type search_request = Some ty -> ty <> ""%string ->
              mem_memory_type m = ty) /\
  (forall chat, msr_chat_id search_request = Some chat ->
                mem_chat_id m = Some chat).

(* ---------------------------------------------------------------------- *)
(** ** What a computation leaves alone                                     *)
(* ---------------------------------------------------------------------- *)

(** The store is left alone: same session, same identifier supply, same
    collaborators and settings. *)
Definition same_store (w w' : World) : Prop :=
  session w' = session w /\ uuid_supply w' = uuid_supply w /\
  providers w' = providers w /\ settings w' = settings w.

(** A computation that always comes back, returning or raising, and leaves
    the store alone. *)
Definition harmless {A} (m : M A) : Prop :=
  forall w, same_store w (snd (m w)) /\ fst (m w) <> Diverge.

(** What a reply of the Gemma adapter looks like. *)
Definition gemma_outcome (model : string) (r : result AIClient.Reply) : Prop :=
  match r with
  | Ok (AIClient.Unified c) =>
      AIClient.c_tokens_used c = 0 /\ AIClient.c_model c = model
  | Ok (AIClient.EventStream _) => False
  | Raise _ => True
  | Diverge => False
  end.


(** [self.api_key] and [self.search_engine_id] are both set. *)
Definition configured (self : WebGroundingService.t) : bool :=
  truthy (WebGroundingService.api_key self)
  && truthy (WebGroundingService.search_engine_id self).

(* ---------------------------------------------------------------------- *)
(** ** More concrete worlds                                                *)
(* ---------------------------------------------------------------------- *)

Module Stored.

Local Open Scope nat_scope.
Local Open Scope string_scope.

(** No row at all; every embedding call succeeds. *)
Definition blank : World :=
  Scenario.world_of Scenario.steady Scenario.vertex_only Scenario.no_tables.

(** The world after the ingestion of the document "abc" of user 7, one
    character per chunk: the document has identifier 100. *)
Definition library : World :=
  snd (RAGService.create_document Scenario.rag_service Scenario.abc 1%Z 0%Z
                                  blank).

Definition letters : Document := new_document Scenario.abc blank.

(** A Gemma chat model that answers "hi" to everything. *)
Definition talkative : Providers :=
  mkProviders (fun _ _ _ => Answer Scenario.east)
              (fun _ _ => Scenario.unavailable)
              (fun _ _ => Scenario.unavailable)
              (fun _ _ _ _ => Scenario.unavailable)
              (fun _ _ _ _ => Scenario.unavailable)
              (fun _ _ _ => Answer "hi")
              (fun _ _ _ _ => Answer [])
              (fun _ => 1)
              Scenario.unit_cosine_distance
              (fun _ => "0.00").

(** Chat 3 of user 7, and a store that holds this chat only. *)
Definition chat_3 : Chat :=
  mkChat 3 7 None "gemma-7b" None [] false 5 5.

Definition one_chat : Tables := mkTables [] [] [] [] [chat_3].

Definition chatty : World :=
  Scenario.world_of talkative Scenario.vertex_only one_chat.

(** A Gemini model that answers every request with two lines, the first
    of which is usable as a memory. *)
Definition noting : Providers :=
  mkProviders (fun _ _ _ => Answer Scenario.east)
              (fun _ _ => Scenario.unavailable)
              (fun _ _ => Scenario.unavailable)
              (fun _ _ _ _ =>
                 Answer (mkGeminiResponse
                           ("[FACT] likes green tea" ++ nl ++ "ok")
                           None None))
              (fun _ _ _ _ => Scenario.unavailable)
              (fun _ _ _ => Scenario.unavailable)
              (fun _ _ _ _ => Answer [])
              (fun _ => 1)
              Scenario.unit_cosine_distance
              (fun _ => "0.00").

Definition notebook : World :=
  Scenario.world_of noting Scenario.vertex_only one_chat.

(** An embedding model that answers with vectors of two numbers. *)
Definition short_vectors : Providers :=
  Scenario.providers_of (fun _ _ => Answer [1%Q; 0%Q]) [] (fun _ => 1).

Definition short_sighted : World :=
  Scenario.world_of short_vectors Scenario.vertex_only
                    Scenario.two_memories.

(** A memory to create for user 7. *)
Definition coffee : MemoryStore.MemoryCreate :=
  MemoryStore.mkMemoryCreate "likes coffee" "preference" (1 # 2) [] 7 None.

(** A request of chat 3 to a Gemma model, not streamed. *)
Definition hello_gemma : ChatService.ChatCompletionRequest :=
  ChatService.mkChatCompletionRequest
    (Some 3) "gemma-7b" [mkChatMessage "user" "hello"]
    (7 # 10) 4000%Z false false false false None.


Definition chat_service : ChatService.t :=
  ChatService.mkChatService Scenario.client.

End Stored.

(* ====================================================================== *)
(** * Theorems                                                             *)
(* ====================================================================== *)

Section ChunkerFacts.

Lemma len_nonneg {A} (s : list A) : 0 <= len s.
Proof. unfold len; lia. Qed.

Lemma chunk_text_loop_exit fuel text size overlap start chunks :
  len text <= start ->
  chunk_text_loop fuel text size overlap start chunks = Some chunks.
Proof.
  intros H. destruct fuel; simpl;
    destruct (Z.ltb_spec start (len text)); try lia; reflexivity.
Qed.

Lemma chunk_text_loop_step fuel text size overlap start chunks :
  start < len text ->
  chunk_text_loop (S fuel) text size overlap start chunks =
  chunk_text_loop fuel text size overlap (start + size - overlap)
                  (chunks ++ [py_slice text start (start + size)]).
Proof.
  intros H. simpl.
  destruct (Z.ltb_spec start (len text)); try lia; reflexivity.
Qed.

(** More fuel never changes a result already reached. *)
Lemma chunk_text_loop_more fuel k text size overlap :
  forall start chunks res,
    chunk_text_loop fuel text size overlap start chunks = Some res ->
    chunk_text_loop (fuel + k) text size overlap start chunks = Some res.
Proof.
  induction fuel as [|fuel IH]; intros start chunks res H.
  - simpl in H. destruct (Z.ltb_spec start (len text)); try discriminate.
    rewrite chunk_text_loop_exit by lia. exact H.
  - destruct (Z.ltb_spec start (len text)) as [Hlt|Hge].
    + rewrite chunk_text_loop_step in H by assumption.
      change (S fuel + k)%nat with (S (fuel + k)).
      rewrite chunk_text_loop_step by assumption. now apply IH.
    + rewrite chunk_text_loop_exit in H by lia.
      rewrite chunk_text_loop_exit by lia. exact H.
Qed.

(** With a positive stride the loop exits within [len text - start]
    iterations. *)
Lemma chunk_text_loop_total text size overlap :
  overlap < size ->
  forall fuel start chunks,
    len text - start <= Z.of_nat fuel ->
    exists res, chunk_text_loop fuel text size overlap start chunks = Some res.
Proof.
  intros Hstep. induction fuel as [|fuel IH]; intros start chunks Hfuel.
  - exists chunks. apply chunk_text_loop_exit. lia.
  - destruct (Z.ltb_spec start (len text)) as [Hlt|Hge].
    + rewrite chunk_text_loop_step by assumption. apply IH. lia.
    + exists chunks. apply chunk_text_loop_exit. lia.
Qed.

(** Without a positive stride the loop never leaves a start position that
    is at or before the beginning of a non-empty text. *)
Lemma chunk_text_loop_stuck text size overlap :
  size <= overlap ->
  forall fuel start chunks,
    start <= 0 -> 0 < len text ->
    chunk_text_loop fuel text size overlap start chunks = None.
Proof.
  intros Hstep. induction fuel as [|fuel IH]; intros start chunks Hs Hl.
  - simpl. destruct (Z.ltb_spec start (len text)); try lia; reflexivity.
  - rewrite chunk_text_loop_step by lia. apply IH; lia.
Qed.

End ChunkerFacts.

Section SliceFacts.

Context {A : Type}.
Implicit Types (s l : list A).

Lemma firstn_clamp n l : firstn (Nat.min n (List.length l)) l = firstn n l.
Proof.
  destruct (Nat.le_ge_cases n (List.length l)) as [H|H].
  - now rewrite Nat.min_l.
  - rewrite Nat.min_r by assumption.
    now rewrite !firstn_all2 by lia.
Qed.

Lemma firstn_then_firstn_skipn a b l :
  firstn a l ++ firstn b (skipn a l) = firstn (a + b) l.
Proof.
  revert l. induction a as [|a IH]; intros l; simpl.
  - reflexivity.
  - destruct l as [|x l]; simpl.
    + now rewrite firstn_nil.
    + now rewrite IH.
Qed.

(** A window [s[start : start + size]] with a non-negative start and size
    is [size] characters taken after skipping [start]. *)
Lemma py_slice_window s start size :
  0 <= start -> 0 <= size ->
  py_slice s start (start + size) =
  firstn (Z.to_nat size) (skipn (Z.to_nat start) s).
Proof.
  intros Hs Hz. unfold py_slice, adjust_index, len.
  pose proof (length_skipn (Z.to_nat start) s) as Hlen.
  destruct (Z.ltb_spec start 0); try lia.
  destruct (Z.ltb_spec (start + size) 0); try lia.
  destruct (Z.ltb_spec (Z.of_nat (List.length s)) start) as [Hbig|Hin].
  - (* the start lies beyond the end *)
    rewrite (@skipn_all2 _ (Z.to_nat start) s) by lia. rewrite firstn_nil.
    destruct (Z.ltb_spec (Z.of_nat (List.length s)) (start + size)); try lia.
    rewrite Z.ltb_irrefl. reflexivity.
  - destruct (Z.ltb_spec (Z.of_nat (List.length s)) (start + size)) as [Hcut|Hfit].
    + destruct (Z.ltb_spec start (Z.of_nat (List.length s))) as [Hlt|Hge].
      * rewrite <- (firstn_clamp (Z.to_nat size)).
        f_equal. rewrite Hlen. lia.
      * rewrite (@skipn_all2 _ (Z.to_nat start) s) by lia.
        now rewrite firstn_nil.
    + destruct (Z.ltb_spec start (start + size)) as [Hlt|Hge].
      * f_equal. lia.
      * replace size with 0 by lia. reflexivity.
Qed.

Lemma py_slice_length s start size :
  0 <= start -> 0 <= size ->
  len (py_slice s start (start + size)) =
  Z.max 0 (Z.min size (len s - start)).
Proof.
  intros Hs Hz. rewrite py_slice_window by assumption.
  unfold len. rewrite length_firstn, length_skipn. lia.
Qed.

End SliceFacts.

Section ChunkerReassembly.

Variables (text : str) (size overlap : Z).
Hypothesis Hoverlap : 0 <= overlap < size.

Lemma reconstruct_snoc chunks c :
  chunks <> [] ->
  reconstruct overlap (chunks ++ [c]) =
  reconstruct overlap chunks ++ drop_overlap overlap c.
Proof.
  destruct chunks as [|c0 rest]; [congruence|]. intros _. simpl.
  rewrite map_app, concat_app. simpl.
  now rewrite app_nil_r, app_assoc.
Qed.

(** What is left of a window once its overlap is dropped. *)
Lemma drop_overlap_window start :
  0 <= start ->
  drop_overlap overlap (py_slice text start (start + size)) =
  firstn (Z.to_nat (size - overlap))
         (skipn (Z.to_nat (start + overlap)) text).
Proof.
  intros Hs. unfold drop_overlap. rewrite py_slice_window by lia.
  rewrite skipn_firstn_comm, skipn_skipn.
  f_equal; [lia | f_equal; lia].
Qed.

(** Loop invariant: the chunks collected so far reassemble to the prefix
    of the text that ends where the last window ended. *)
Lemma chunk_text_loop_reconstruct :
  forall fuel start chunks res,
    0 <= start -> chunks <> [] ->
    reconstruct overlap chunks = firstn (Z.to_nat (start + overlap)) text ->
    chunk_text_loop fuel text size overlap start chunks = Some res ->
    reconstruct overlap res = text.
Proof.
  induction fuel as [|fuel IH]; intros start chunks res Hs Hne Hinv Hrun.
  - simpl in Hrun.
    destruct (Z.ltb_spec start (len text)) as [Hlt|Hge]; [discriminate|].
    injection Hrun as <-. rewrite Hinv. apply firstn_all2.
    unfold len in Hge. lia.
  - destruct (Z.ltb_spec start (len text)) as [Hlt|Hge].
    + rewrite chunk_text_loop_step in Hrun by assumption.
      apply IH in Hrun; [exact Hrun | lia | |].
      * intros Habs. now apply app_eq_nil in Habs as [_ ?].
      * rewrite reconstruct_snoc by assumption.
        rewrite Hinv, drop_overlap_window by assumption.
        rewrite firstn_then_firstn_skipn. f_equal. lia.
    + rewrite chunk_text_loop_exit in Hrun by lia.
      injection Hrun as <-. rewrite Hinv. apply firstn_all2.
      unfold len in Hge. lia.
Qed.

Lemma chunk_text_fuel_reconstruct fuel res :
  chunk_text_fuel fuel text size overlap = Some res ->
  reconstruct overlap res = text.
Proof.
  unfold chunk_text_fuel. intros Hrun.
  destruct fuel as [|fuel].
  - simpl in Hrun.
    destruct (Z.ltb_spec 0 (len text)) as [Hlt|Hge]; [discriminate|].
    injection Hrun as <-. simpl.
    destruct text; [reflexivity | unfold len in Hge; simpl in Hge; lia].
  - destruct (Z.ltb_spec 0 (len text)) as [Hlt|Hge].
    + rewrite chunk_text_loop_step in Hrun by assumption.
      eapply chunk_text_loop_reconstruct; [ | | | exact Hrun].
      * lia.
      * discriminate.
      * assert (Hw : py_slice text 0 size = firstn (Z.to_nat size) text)
          by (apply (py_slice_window text 0 size); lia).
        simpl. rewrite app_nil_r, Hw. f_equal. lia.
    + rewrite chunk_text_loop_exit in Hrun by lia.
      injection Hrun as <-. simpl.
      destruct text; [reflexivity | unfold len in Hge; simpl in Hge; lia].
Qed.

End ChunkerReassembly.

(* ---------------------------------------------------------------------- *)
(** ** The chunker                                                         *)
(* ---------------------------------------------------------------------- *)

Local Open Scope char_scope.

Lemma chunk_text_never_raises text size overlap e :
  chunk_text text size overlap <> Raise e.
Proof.
  unfold chunk_text.
  destruct (chunk_text_fuel (List.length text) text size overlap); discriminate.
Qed.

Lemma chunk_text_empty size overlap : chunk_text [] size overlap = Ok [].
Proof. reflexivity. Qed.

(** With [overlap >= size] and a non-empty text the loop does not exit,
    whatever the number of iterations allowed. *)
Lemma chunk_text_no_progress text size overlap :
  size <= overlap -> text <> [] ->
  chunk_text text size overlap = Diverge /\
  forall fuel, chunk_text_fuel fuel text size overlap = None.
Proof.
  intros Hstep Hne.
  assert (Hlen : 0 < len text).
  { destruct text; [congruence | unfold len; simpl; lia]. }
  assert (Hall : forall fuel, chunk_text_fuel fuel text size overlap = None).
  { intros fuel. apply chunk_text_loop_stuck; [assumption | lia | assumption]. }
  split; [|exact Hall]. unfold chunk_text. now rewrite Hall.
Qed.

(** With [overlap < size] the function returns, and every larger iteration
    bound gives the same list. *)
Lemma chunk_text_fuel_stable text size overlap :
  overlap < size ->
  exists chunks,
    chunk_text text size overlap = Ok chunks /\
    forall k, chunk_text_fuel (List.length text + k) text size overlap
              = Some chunks.
Proof.
  intros Hstep.
  destruct (chunk_text_loop_total text size overlap Hstep
              (List.length text) 0 []) as [res Hres].
  { unfold len. lia. }
  exists res. split.
  - unfold chunk_text, chunk_text_fuel. now rewrite Hres.
  - intros k. now apply chunk_text_loop_more.
Qed.

(** C1 on the code: [chunk_text] checks nothing of its configuration and
    has no [raise].  With [overlap >= size] a call on a non-empty text never
    returns: every turn of the loop takes a window and moves its start by
    [size - overlap <= 0], never past the end of the text, so that the loop
    has not exited after any number of turns.  No exception is raised. *)
Theorem chunk_text_hangs_on_invalid_configuration text size overlap :
  size <= overlap -> text <> [] ->
  chunk_text text size overlap = Diverge /\
  (forall fuel, chunk_text_fuel fuel text size overlap = None) /\
  (forall e, chunk_text text size overlap <> Raise e).
Proof.
  intros Hstep Hne.
  destruct (chunk_text_no_progress text size overlap Hstep Hne) as [Hd Hfuel].
  split; [exact Hd|]. split; [exact Hfuel|].
  intros e. apply chunk_text_never_raises.
Qed.

Lemma chunk_text_hangs_on_invalid_configuration_witness :
  chunk_text ["a"] 1 1 = Diverge /\
  (forall fuel, chunk_text_fuel fuel ["a"] 1 1 = None) /\
  (forall e, chunk_text ["a"] 1 1 <> Raise e).
Proof.
  apply (chunk_text_hangs_on_invalid_configuration ["a"] 1 1).
  - lia.
  - discriminate.
Defined.

(** The same configuration on the empty text: the loop is not entered and
    the call returns the empty chunk list; nothing is raised. *)
Example chunk_text_equal_overlap_returns :
  5 <= 5 /\
  chunk_text [] 5 5 = Ok [] /\
  ~ (exists e, chunk_text [] 5 5 = Raise e).
Proof.
  split; [lia|]. split; [reflexivity|]. intros [e He]. discriminate He.
Qed.

(** C3, as the code has it: a text of 2500 characters chunked with size 1000
    and overlap 200 gives four windows that start at 0, 800, 1600 and 2400,
    of lengths 1000, 1000, 900 and 100. *)
Theorem chunk_text_2500_boundaries text :
  len text = 2500 ->
  chunk_text text 1000 200 =
    Ok [py_slice text 0 1000; py_slice text 800 1800;
        py_slice text 1600 2600; py_slice text 2400 3400] /\
  map len [py_slice text 0 1000; py_slice text 800 1800;
           py_slice text 1600 2600; py_slice text 2400 3400]
  = [1000; 1000; 900; 100].
Proof.
  intros H. split.
  - assert (Hrun : chunk_text_loop 4 text 1000 200 0 [] =
                   Some [py_slice text 0 1000; py_slice text 800 1800;
                         py_slice text 1600 2600; py_slice text 2400 3400]).
    { do 4 (rewrite chunk_text_loop_step by lia).
      rewrite chunk_text_loop_exit by lia. reflexivity. }
    unfold chunk_text, chunk_text_fuel.
    replace (List.length text) with (4 + 2496)%nat by (unfold len in H; lia).
    now rewrite (chunk_text_loop_more 4 2496 _ _ _ _ _ _ Hrun).
  - assert (Hwin : forall start, 0 <= start ->
              len (py_slice text start (start + 1000)) =
              Z.max 0 (Z.min 1000 (2500 - start))).
    { intros start Hs. rewrite py_slice_length by lia. now rewrite H. }
    pose proof (Hwin 0) as H0. pose proof (Hwin 800) as H1.
    pose proof (Hwin 1600) as H2. pose proof (Hwin 2400) as H3.
    cbv [map]. simpl Z.add in H0, H1, H2, H3.
    rewrite H0, H1, H2, H3 by lia. reflexivity.
Qed.

Lemma chunk_text_2500_boundaries_witness :
  chunk_text text2500 1000 200 =
    Ok [py_slice text2500 0 1000; py_slice text2500 800 1800;
        py_slice text2500 1600 2600; py_slice text2500 2400 3400] /\
  map len [py_slice text2500 0 1000; py_slice text2500 800 1800;
           py_slice text2500 1600 2600; py_slice text2500 2400 3400]
  = [1000; 1000; 900; 100].
Proof. apply (chunk_text_2500_boundaries text2500). vm_compute. reflexivity. Defined.

(** C3 fails as stated: the four chunks of a 2500-character text do not have
    the lengths 1000, 1000, 1000, 300. *)
Lemma chunk_text_2500_lengths_differ :
  len text2500 = 2500 /\
  exists chunks,
    chunk_text text2500 1000 200 = Ok chunks /\
    map len chunks = [1000; 1000; 900; 100] /\
    map len chunks <> [1000; 1000; 1000; 300].
Proof.
  split; [vm_compute; reflexivity|].
  eexists. split; [vm_compute; reflexivity|].
  split; [vm_compute; reflexivity|]. vm_compute. discriminate.
Qed.

(** C4, as the code has it: for every text and every configuration with
    [0 <= overlap < size] the chunker returns, and its chunks, concatenated
    after dropping the leading [overlap] characters of every chunk but the
    first, give back the text; there is no chunk exactly when the text is
    empty. *)
Theorem chunk_text_reconstructs text size overlap :
  0 <= overlap < size ->
  exists chunks,
    chunk_text text size overlap = Ok chunks /\
    reconstruct overlap chunks = text /\
    (chunks = [] <-> text = []).
Proof.
  intros Hcfg.
  destruct (chunk_text_loop_total text size overlap (proj2 Hcfg)
              (List.length text) 0 []) as [res Hres].
  { unfold len. lia. }
  pose proof (chunk_text_fuel_reconstruct text size overlap Hcfg _ _ Hres)
    as Hrec.
  exists res. split; [|split].
  - unfold chunk_text, chunk_text_fuel. now rewrite Hres.
  - exact Hrec.
  - split.
    + intros ->. now rewrite <- Hrec.
    + intros ->. simpl in Hres. now injection Hres as <-.
Qed.

Lemma chunk_text_reconstructs_witness :
  exists chunks,
    chunk_text ["a"; "b"; "c"; "d"; "e"] 3 1 = Ok chunks /\
    reconstruct 1 chunks = ["a"; "b"; "c"; "d"; "e"] /\
    (chunks = [] <-> ["a"; "b"; "c"; "d"; "e"] = []).
Proof. apply (chunk_text_reconstructs ["a"; "b"; "c"; "d"; "e"] 3 1). lia. Defined.

(** C4 fails as stated: [-1 < 1] is a configuration with overlap below size,
    and the chunks of "abc" skip the "b". *)
Lemma chunk_text_negative_overlap_loses_text :
  -1 < 1 /\
  chunk_text ["a"; "b"; "c"] 1 (-1) = Ok [["a"]; ["c"]] /\
  reconstruct (-1) [["a"]; ["c"]] <> ["a"; "b"; "c"].
Proof. split; [lia|]. split; [reflexivity|discriminate]. Qed.

Local Close Scope char_scope.

(* ---------------------------------------------------------------------- *)
(** ** The document store                                                  *)
(* ---------------------------------------------------------------------- *)

Section DocumentStoreFacts.

Import RAGService.
Local Open Scope monad_scope.

Variable self : RAGService.t.

Lemma for_each_cons {A} (x : A) xs body w w1 :
  body x w = (Ok tt, w1) ->
  for_each (x :: xs) body w = for_each xs body w1.
Proof. intros H. simpl. unfold bind. now rewrite H. Qed.

Lemma bind_ok {A B} (m : M A) (k : A -> M B) w a w1 :
  m w = (Ok a, w1) -> bind m k w = k a w1.
Proof. intros H. unfold bind. now rewrite H. Qed.

Lemma for_each_pending_cons {A B} (x : A) xs (body : A -> M B) w b w1 bs w2 :
  body x w = (Ok b, w1) ->
  for_each_pending xs body w1 = (Ok bs, w2) ->
  for_each_pending (x :: xs) body w = (Ok (b :: bs), w2).
Proof.
  intros H1 H2. simpl.
  erewrite bind_ok by exact H1. erewrite bind_ok by exact H2. reflexivity.
Qed.

(** One turn of the loop: the embedding call is made, a failure is logged
    and swallowed, and the chunk row is added. *)
Lemma add_chunk_spec document_id idx c w :
  exists w' row,
    add_chunk self document_id (idx, c) w = (Ok row, w') /\
    chunks_appended w w' [row] /\
    after_calls w w' 1 /\
    chunk_content row = c /\
    chunk_index row = idx /\
    chunk_document_id row = document_id /\
    chunk_embedding row =
      stored_embedding (get_embeddings (providers w) (calls w)
                                       (EMBEDDING_MODEL (settings w)) c).
Proof.
  unfold add_chunk, bind, try_except, AIClient.generate_embedding, get,
    external, ask_external, ret, log, uuid4, utcnow, db_add_chunk.
  simpl.
  destruct (get_embeddings (providers w) (calls w)
                           (EMBEDDING_MODEL (settings w)) c) as [v|e];
    simpl; eexists _, _; (split; [reflexivity|]);
    unfold chunks_appended, after_calls; simpl;
    repeat split; reflexivity || lia.
Qed.

(** The loop over the chunks always completes: it adds one row per chunk,
    in order, and a failed embedding call leaves the embedding empty.  The
    rows added are the objects left pending. *)
Lemma add_chunks_spec document_id chunks :
  forall idx w,
  exists w' rows,
    for_each_pending (enumerate_from idx chunks) (add_chunk self document_id) w
      = (Ok rows, w') /\
    chunks_appended w w' rows /\
    after_calls w w' (List.length chunks) /\
    map chunk_content rows = chunks /\
    map chunk_index rows = map fst (enumerate_from idx chunks) /\
    map chunk_document_id rows = map (fun _ => document_id) chunks /\
    map chunk_embedding rows =
      map stored_embedding
          (embedding_answers (providers w) (EMBEDDING_MODEL (settings w))
                             (calls w) chunks).
Proof.
  induction chunks as [|c rest IH]; intros idx w.
  - exists w, []. unfold chunks_appended, after_calls. simpl.
    rewrite app_nil_r, !Nat.add_0_r. repeat split; reflexivity.
  - destruct (add_chunk_spec document_id idx c w)
      as (w1 & row & Hstep & Happ1 & Hcalls1 & Hc1 & Hi1 & Hd1 & He1).
    destruct (IH (idx + 1) w1)
      as (w' & rows & Hrun & Happ & Hcalls & Hc & Hi & Hd & He).
    exists w', (row :: rows).
    unfold chunks_appended, after_calls in *.
    destruct Happ1 as (A1 & A2 & A3 & A4 & A5 & A6).
    destruct Happ as (B1 & B2 & B3 & B4 & B5 & B6).
    destruct Hcalls1 as (P1 & S1 & N1 & U1).
    destruct Hcalls as (P2 & S2 & N2 & U2).
    split.
    { change (enumerate_from idx (c :: rest))
        with ((idx, c) :: enumerate_from (idx + 1) rest).
      exact (for_each_pending_cons _ _ _ _ _ _ _ _ Hstep Hrun). }
    simpl. rewrite Hc1, Hi1, Hd1, He1, Hc, Hi, Hd, He.
    rewrite B1, B2, B3, B4, B5, B6, A1, A2, A3, A4, A5, A6.
    rewrite P2, S2, N2, U2, P1, S1, N1, U1.
    rewrite <- app_assoc. simpl.
    replace (calls w + 1)%nat with (S (calls w)) by lia.
    repeat split; reflexivity || lia.
Qed.


Lemma forallb_of_map {A B} (f : B -> bool) (g : A -> B) l :
  forallb f (map g l) = forallb (fun x => f (g x)) l.
Proof. induction l as [|x l IH]; simpl; [reflexivity | now rewrite IH]. Qed.

(** The pending vectors are accepted exactly when every answer of the
    embedding model fits the column. *)
Lemma vector_refusal_answers (rows : list DocumentChunk) answers :
  map chunk_embedding rows = map stored_embedding answers ->
  vector_refusal (map chunk_embedding rows) =
  if forallb answer_fits answers then None
  else Some (DatabaseError "expected 1536 dimensions").
Proof.
  intros ->. unfold vector_refusal. now rewrite forallb_of_map.
Qed.


(** Ingestion when a vector received has not the dimension of the column:
    every embedding call is made, then the commit is refused, the
    transaction is rolled back and nothing of the document is stored. *)
Lemma create_document_refused document_data chunk_size chunk_overlap w chunks :
  chunk_text (dc_content document_data) chunk_size chunk_overlap = Ok chunks ->
  forallb answer_fits
          (embedding_answers (providers w) (EMBEDDING_MODEL (settings w))
                             (calls w) chunks) = false ->
  exists w',
    create_document self document_data chunk_size chunk_overlap w
      = (Raise (DatabaseError "expected 1536 dimensions"), w') /\
    view (session w') = committed (session w) /\
    committed (session w') = committed (session w) /\
    calls w' = (calls w + List.length chunks)%nat.
Proof.
  intros Hchunks Hfit. unfold create_document.
  do 5 (erewrite bind_ok by reflexivity).
  unfold lift at 1. erewrite bind_ok by (rewrite Hchunks; reflexivity).
  match goal with
  | |- exists _, bind (for_each_pending _ (add_chunk _ ?d)) _ ?w0 = _ /\ _ =>
      destruct (add_chunks_spec d chunks 0 w0)
        as (w1 & rows & Hrun & Happ & Hcalls & Hc & Hi & Hd & He)
  end.
  unfold enumerate. erewrite bind_ok by exact Hrun.
  destruct Happ as (A1 & A2 & A3 & A4 & A5 & A6).
  destruct Hcalls as (P1 & S1 & N1 & U1).
  simpl in A1, A2, A3, A4, A5, A6, N1.
  simpl in He. rewrite (vector_refusal_answers _ _ He), Hfit.
  unfold db_commit_checked, db_rollback, bind, raise. simpl.
  eexists. split; [reflexivity|]. simpl.
  rewrite A6, N1. repeat split; reflexivity.
Qed.


Lemma find_written document docs d :
  In d docs -> doc_id d = doc_id document ->
  exists row,
    find (fun d' => Nat.eqb (doc_id d') (doc_id document))
         (written document docs) = Some row.
Proof.
  intros Hin Hid.
  destruct (find (fun d' => Nat.eqb (doc_id d') (doc_id document))
                 (written document docs)) as [row|] eqn:Hfind.
  - now exists row.
  - exfalso.
    pose proof (find_none _ _ Hfind document) as Hnone. simpl in Hnone.
    rewrite Nat.eqb_refl in Hnone.
    assert (Hmem : In document (written document docs)).
    { unfold written. apply in_map_iff. exists d.
      rewrite Hid, Nat.eqb_refl. now split. }
    specialize (Hnone Hmem). discriminate Hnone.
Qed.

(** Re-chunking adds the chunks of the current content, chunked with the
    default size and overlap, and removes no row. *)
Lemma _rechunk_document_spec document w :
  exists w' rows chunks,
    _rechunk_document self document w = (Ok rows, w') /\
    chunk_text (doc_content document) default_chunk_size default_overlap
      = Ok chunks /\
    chunks_appended w w' rows /\
    after_calls w w' (List.length chunks) /\
    map chunk_content rows = chunks /\
    map chunk_index rows = map fst (enumerate chunks) /\
    map chunk_document_id rows = map (fun _ => doc_id document) chunks /\
    map chunk_embedding rows =
      map stored_embedding
          (embedding_answers (providers w) (EMBEDDING_MODEL (settings w))
                             (calls w) chunks).
Proof.
  destruct (chunk_text_fuel_stable (doc_content document)
              default_chunk_size default_overlap) as (chunks & Hchunks & _);
    [reflexivity|].
  unfold _rechunk_document.
  erewrite bind_ok by reflexivity.
  unfold lift at 1. erewrite bind_ok by (rewrite Hchunks; reflexivity).
  destruct (add_chunks_spec (doc_id document) chunks 0 w)
    as (w1 & rows & Hrun & Happ & Hcalls & Hc & Hi & Hd & He).
  exists w1, rows, chunks. unfold enumerate.
  exact (conj Hrun (conj Hchunks (conj Happ (conj Hcalls
          (conj Hc (conj Hi (conj Hd He))))))).
Qed.


(** Replacing the content of a stored document, when the vectors received
    have the dimension of the column: the call succeeds and the committed
    chunk table is the former one followed by the chunks of the new content;
    no former row is removed. *)
Lemma update_document_spec document_id user_id document_data w
      document content :
  filter (fun d => Nat.eqb (doc_id d) document_id
                   && Nat.eqb (doc_user_id d) user_id)
         (documents (view (session w))) = [document] ->
  du_content document_data = Some content ->
  (forall chunks,
      chunk_text content default_chunk_size default_overlap = Ok chunks ->
      forallb answer_fits
              (embedding_answers (providers w) (EMBEDDING_MODEL (settings w))
                                 (calls w) chunks) = true) ->
  exists resp w' rows chunks,
    update_document self document_id user_id document_data w
      = (Ok resp, w') /\
    chunk_text content default_chunk_size default_overlap = Ok chunks /\
    document_chunks (committed (session w')) =
      (document_chunks (view (session w)) ++ rows)%list /\
    map chunk_content rows = chunks /\
    map chunk_index rows = map fst (enumerate chunks) /\
    map chunk_document_id rows = map (fun _ => document_id) chunks.
Proof.
  intros Hsel Hcontent Hfit.
  assert (Hin : In document (documents (view (session w))) /\
                doc_id document = document_id).
  { assert (Hmem : In document [document]) by now left.
    rewrite <- Hsel in Hmem. apply filter_In in Hmem as [Hin Hb].
    apply andb_prop in Hb as [Hb _]. apply Nat.eqb_eq in Hb. now split. }
  destruct Hin as [Hin Hid].
  unfold update_document.
  erewrite bind_ok by reflexivity. rewrite Hsel.
  erewrite bind_ok by reflexivity. rewrite Hcontent.
  set (d1 := match du_title document_data with
             | Some title => set_title document title
             | None => document
             end).
  assert (Hid1 : doc_id d1 = document_id).
  { unfold d1. destruct (du_title document_data); exact Hid. }
  destruct (_rechunk_document_spec (set_content d1 content) w)
    as (w1 & rows & chunks & Hrun & Hchunks & Happ & Hcalls & Hc & Hi & Hd
        & He).
  erewrite (bind_ok (pending <- _rechunk_document self (set_content d1 content) ;; _))
    by (erewrite bind_ok by exact Hrun; reflexivity).
  cbv beta iota.
  set (d2 := match du_metadata document_data with
             | Some metadata => set_metadata (set_content d1 content) metadata
             | None => set_content d1 content
             end).
  assert (Hid2 : doc_id d2 = document_id).
  { unfold d2. destruct (du_metadata document_data); exact Hid1. }
  destruct Happ as (A1 & A2 & A3 & A4 & A5 & A6).
  simpl in Hchunks.
  rewrite (vector_refusal_answers _ _ He), (Hfit _ Hchunks).
  unfold db_commit_checked.
  do 3 (erewrite bind_ok by reflexivity).
  unfold db_refresh_document, bind, get, ret, raise. simpl.
  rewrite A1.
  assert (Hfind : exists row,
             find (fun d' => Nat.eqb (doc_id d') (doc_id d2))
                  (written (set_updated_at d2 (clock w1))
                           (documents (view (session w)))) = Some row).
  { apply (find_written (set_updated_at d2 (clock w1)) _ document).
    - exact Hin.
    - simpl. now rewrite Hid, Hid2. }
  destruct Hfind as (row & Hfind).
  unfold written in Hfind. simpl in Hfind. rewrite Hfind.
  exists (document_response row). eexists. exists rows, chunks.
  split; [reflexivity|]. simpl. rewrite A2.
  simpl in Hd. rewrite Hid1 in Hd.
  repeat split; assumption.
Qed.

End DocumentStoreFacts.

Section DocumentStoreScenarios.

Import RAGService Scenario.
Local Open Scope char_scope.


(** C2 on the code: a document is ingested with content "a" and its
    content is then replaced by "b".  The update succeeds, and the committed
    chunks of the document are the old chunk "a" followed by the new chunk
    "b", both with index 0: the old chunk is not discarded and the indexes
    are not unique. *)
Theorem update_document_keeps_old_chunks :
  exists resp w',
    reingest (world_of steady vertex_only no_tables) = (Ok resp, w') /\
    dr_content resp = ["b"] /\
    chunk_text ["b"] default_chunk_size default_overlap = Ok [["b"]] /\
    map (fun c => (chunk_index c, chunk_content c))
        (chunks_of (dr_id resp) (committed (session w')))
    = [(0, ["a"]); (0, ["b"])].
Proof.
  eexists. eexists. split; [vm_compute; reflexivity|].
  split; [reflexivity|]. split; [reflexivity|]. vm_compute. reflexivity.
Qed.

End DocumentStoreScenarios.

(* ---------------------------------------------------------------------- *)
(** ** The memory store                                                    *)
(* ---------------------------------------------------------------------- *)

Section MemoryStoreFacts.

Import MemoryService.

Lemma StronglySorted_impl {A} (R R' : A -> A -> Prop) l :
  (forall a b, R a b -> R' a b) ->
  StronglySorted R l -> StronglySorted R' l.
Proof.
  intros Himp. induction 1 as [|x l Hl IH Hall]; constructor.
  - exact IH.
  - eapply Forall_impl; [|exact Hall]. intros b. apply Himp.
Qed.

Lemma StronglySorted_firstn {A} (R : A -> A -> Prop) n l :
  StronglySorted R l -> StronglySorted R (firstn n l).
Proof.
  intros Hl. revert n. induction Hl as [|x l Hl IH Hall]; intros n.
  - rewrite firstn_nil. constructor.
  - destruct n as [|n]; simpl; constructor.
    + apply IH.
    + apply Forall_forall. intros y Hy.
      rewrite Forall_forall in Hall. apply Hall.
      revert Hy. clear. revert n. induction l as [|z l IHl]; intros n Hy.
      * now rewrite firstn_nil in Hy.
      * destruct n; simpl in Hy; [easy|].
        destruct Hy as [->|Hy]; [now left | right; eauto].
Qed.

(** Ascending distance is descending similarity. *)
Lemma distance_le_similarity_ge p q m1 m2 :
  key_le (distance_to p q m1) (distance_to p q m2) ->
  by_similarity p q m1 m2.
Proof.
  unfold by_similarity, similarity_to, distance_to.
  destruct (mem_embedding m1), (mem_embedding m2); simpl; try easy.
  intros H. apply Qplus_le_r. now apply Qopp_le_compat.
Qed.

Variable engine : OrderBy.

(** The statement with [ORDER BY embedding <=> q LIMIT n] is answered when
    [q] has the dimension of the column, [n] is not negative and the
    selected rows hold vectors of that dimension. *)
Lemma nearest_answered {A} (embedding_of : A -> option embedding)
      (key : A -> option Q) q n (rows : list A) :
  List.length q = VECTOR_DIMENSION -> 0 <= n ->
  Forall (fun r => fits_column (embedding_of r) = true) rows ->
  @nearest engine A embedding_of key q n rows
  = Ok (take n (order_by key rows)).
Proof.
  intros Hq Hn Hrows. unfold nearest, vector_literal_ok, len.
  rewrite Hq. change (Z.of_nat VECTOR_DIMENSION) with 1536. simpl negb.
  cbv iota.
  destruct (Z.ltb_spec n 0) as [Hneg|_]; [lia|].
  destruct (Z.eqb_spec n 0) as [->|_]; [reflexivity|].
  replace (forallb (fun r => comparable q (embedding_of r)) rows) with true;
    [reflexivity|].
  symmetry. apply forallb_forall. intros r Hr.
  rewrite Forall_forall in Hrows. specialize (Hrows r Hr).
  unfold comparable, fits_column in *.
  destruct (embedding_of r) as [v|]; [|reflexivity].
  now rewrite Hq.
Qed.

Lemma memory_scope_stored user_id search_request tables m :
  In m (memory_scope user_id search_request tables) -> In m (memories tables).
Proof.
  unfold memory_scope. intros H.
  destruct (msr_chat_id search_request);
    [apply filter_In in H as [H _]|];
    (destruct (msr_memory_type search_request) as [ty|];
     [destruct (String.eqb ty ""); [|apply filter_In in H as [H _]]|]);
    now apply filter_In in H as [H _].
Qed.

Lemma memory_scope_fits user_id search_request tables :
  vectors_fit tables = true ->
  Forall (fun m => fits_column (mem_embedding m) = true)
         (memory_scope user_id search_request tables).
Proof.
  intros Hfit. apply andb_prop in Hfit as [_ Hfit].
  rewrite forallb_forall in Hfit.
  apply Forall_forall. intros m Hm. apply Hfit.
  eapply memory_scope_stored; exact Hm.
Qed.

Lemma In_take {A} n (l : list A) x : In x (take n l) -> In x l.
Proof.
  unfold take. intros H. rewrite <- (firstn_skipn (Z.to_nat n) l).
  apply in_or_app. now left.
Qed.

(** The statement of the search, when it is answered: the rows are in the
    scope of the request, at most [limit] of them, in order of descending
    similarity. *)
Lemma memory_query_answered p user_id search_request q tables :
  List.length q = VECTOR_DIMENSION -> 0 <= msr_limit search_request ->
  vectors_fit tables = true ->
  exists rows,
    @memory_query engine p user_id search_request q tables = Ok rows /\
    rows = take (msr_limit search_request)
                (order_by (distance_to p q)
                          (memory_scope user_id search_request tables)) /\
    StronglySorted (by_similarity p q) rows /\
    (forall m, In m rows -> In m (memories tables)).
Proof.
  intros Hq Hn Hfit. eexists. split; [|split; [reflexivity|split]].
  - unfold memory_query. apply nearest_answered; try assumption.
    now apply memory_scope_fits.
  - apply StronglySorted_firstn.
    eapply StronglySorted_impl; [|apply order_by_sorted].
    intros a b. apply distance_le_similarity_ge.
  - intros m Hm. apply In_take in Hm.
    eapply Permutation_in in Hm;
      [|apply Permutation_sym, order_by_permutation].
    eapply memory_scope_stored; exact Hm.
Qed.

(** Rows that pass the validation of the response are copied. *)
Lemma memory_responses_valid rows :
  Forall (fun m => valid_memory_fields (mem_memory_type m)
                                       (mem_importance_score m) = true) rows ->
  memory_responses rows = Ok (map memory_fields rows).
Proof.
  induction 1 as [|m rows Hm _ IH]; [reflexivity|].
  simpl. unfold memory_response. now rewrite Hm, IH.
Qed.

Lemma presentable_rows tables rows :
  memories_presentable tables = true ->
  (forall m, In m rows -> In m (memories tables)) ->
  Forall (fun m => valid_memory_fields (mem_memory_type m)
                                       (mem_importance_score m) = true) rows.
Proof.
  intros Hvalid Hin. unfold memories_presentable in Hvalid.
  rewrite forallb_forall in Hvalid.
  apply Forall_forall. intros m Hm. apply Hvalid, Hin, Hm.
Qed.

Lemma valid_search_request_limit search_request :
  valid_search_request search_request = true ->
  1 <= msr_limit search_request <= 100.
Proof.
  unfold valid_search_request. intros H.
  apply andb_prop in H as [H _]. apply andb_prop in H as [H H100].
  apply andb_prop in H as [_ H1]. lia.
Qed.

(** What a search does in a world where the stored rows are sound and the
    embedding model answers, if it answers, with a vector of the dimension
    of the column. *)
Lemma search_memories_spec (self : MemoryService.t) user_id search_request w :
  0 <= msr_limit search_request ->
  vectors_fit (view (session w)) = true ->
  memories_presentable (view (session w)) = true ->
  answer_fits (get_embeddings (providers w) (calls w)
                 (EMBEDDING_MODEL (settings w))
                 (list_ascii_of_string (msr_query search_request))) = true ->
  exists rows w',
    @search_memories_rows engine self user_id search_request w
      = (Ok rows, w') /\
    @search_memories engine self user_id search_request w
      = (Ok (map memory_fields rows), w') /\
    session w' = session w /\ providers w' = providers w /\
    settings w' = settings w /\ uuid_supply w' = uuid_supply w /\
    calls w' = S (calls w) /\
    clock w' = (clock w + latency (providers w) (calls w))%nat /\
    trace w' =
      (trace w ++ [GetEmbeddings (EMBEDDING_MODEL (settings w))
                     (list_ascii_of_string (msr_query search_request))])%list /\
    match get_embeddings (providers w) (calls w)
                         (EMBEDDING_MODEL (settings w))
                         (list_ascii_of_string (msr_query search_request)) with
    | Answer q =>
        rows = take (msr_limit search_request)
                    (order_by (distance_to (providers w) q)
                       (memory_scope user_id search_request
                                     (view (session w)))) /\
        StronglySorted (by_similarity (providers w) q) rows
    | Failure _ => rows = []
    end.
Proof.
  intros Hn Hfit Hvalid Hanswer.
  unfold search_memories, search_memories_rows, query_embedding_of,
    AIClient.generate_embedding, try_except, bind, get, external,
    ask_external, ret, log, lift.
  simpl.
  destruct (get_embeddings (providers w) (calls w)
                           (EMBEDDING_MODEL (settings w))
                           (list_ascii_of_string (msr_query search_request)))
    as [q|e]; simpl.
  - unfold answer_fits, fits_column in Hanswer. simpl in Hanswer.
    apply Nat.eqb_eq in Hanswer.
    destruct (memory_query_answered (providers w) user_id search_request q
                (view (session w)) Hanswer Hn Hfit)
      as (rows & Hrows & Heq & Hsorted & Hin).
    rewrite Hrows.
    rewrite (memory_responses_valid rows)
      by (eapply presentable_rows; eassumption).
    eexists _, _. split; [reflexivity|]. split; [reflexivity|]. simpl.
    repeat split; assumption.
  - eexists _, _. split; [reflexivity|]. split; [reflexivity|]. simpl.
    repeat split.
Qed.

(** C5, as the code has it: for a valid request, in a world whose stored
    vectors have the dimension of their column and whose memories pass the
    validation of the response, and when the embedding model answers, if it
    answers, with a vector of that dimension, the search returns; the rows
    behind the returned list are ordered by descending similarity to the
    query embedding (a memory without embedding last), whatever the engine
    does with rows of equal similarity; when the query embedding cannot be
    generated, the list is empty. *)
Theorem search_memories_by_similarity
        (self : MemoryService.t) user_id search_request w :
  valid_search_request search_request = true ->
  vectors_fit (view (session w)) = true ->
  memories_presentable (view (session w)) = true ->
  answer_fits (get_embeddings (providers w) (calls w)
                 (EMBEDDING_MODEL (settings w))
                 (list_ascii_of_string (msr_query search_request))) = true ->
  exists rows w',
    @search_memories_rows engine self user_id search_request w
      = (Ok rows, w') /\
    @search_memories engine self user_id search_request w
      = (Ok (map memory_fields rows), w') /\
    match get_embeddings (providers w) (calls w)
                         (EMBEDDING_MODEL (settings w))
                         (list_ascii_of_string (msr_query search_request)) with
    | Answer q => StronglySorted (by_similarity (providers w) q) rows
    | Failure _ => rows = []
    end.
Proof.
  intros Hrequest Hfit Hvalid Hanswer.
  apply valid_search_request_limit in Hrequest.
  destruct (search_memories_spec self user_id search_request w)
    as (rows & w' & Hrows & Hrun & _ & _ & _ & _ & _ & _ & _ & Hcase);
    try assumption; [lia|].
  exists rows, w'. split; [exact Hrows|]. split; [exact Hrun|].
  destruct (get_embeddings _ _ _ _); [apply Hcase | exact Hcase].
Qed.

End MemoryStoreFacts.

Section MemoryStoreScenarios.

Import MemoryService Scenario.

Lemma search_memories_by_similarity_witness :
  exists rows w',
    @search_memories_rows TableOrder (mkMemoryService client) 7%nat
      any_memory (world_of steady vertex_only two_memories)
      = (Ok rows, w') /\
    @search_memories TableOrder (mkMemoryService client) 7%nat
      any_memory (world_of steady vertex_only two_memories)
      = (Ok (map memory_fields rows), w') /\
    StronglySorted (by_similarity steady east) rows.
Proof.
  apply (search_memories_by_similarity
           TableOrder (mkMemoryService client) 7%nat any_memory
           (world_of steady vertex_only two_memories)).
  - vm_compute. reflexivity.
  - vm_compute. reflexivity.
  - vm_compute. reflexivity.
  - vm_compute. reflexivity.
Defined.

(** C5 fails as stated: two memories of one user are equally similar to
    the query; an engine that keeps ties in table order returns the less
    important, older one first. *)
Lemma search_memories_tie_in_table_order :
  exists w',
    @search_memories TableOrder (mkMemoryService client) 7%nat
      any_memory (world_of steady vertex_only two_memories)
      = (Ok (map memory_fields [minor; major]), w') /\
    ~ StronglySorted (by_similarity_importance_recency steady east)
                     [minor; major].
Proof.
  eexists. split; [vm_compute; reflexivity|].
  intros Hsorted. inversion Hsorted as [|? ? _ Hall]; subst.
  inversion Hall as [|? ? [_ Htie] _]; subst.
  destruct Htie as [Himp _]; [vm_compute; discriminate|].
  vm_compute in Himp. now apply Himp.
Qed.

End MemoryStoreScenarios.
(* ---------------------------------------------------------------------- *)
(** ** The provider adapter layer                                          *)
(* ---------------------------------------------------------------------- *)

Section AdapterFacts.

Import AIClient.
Local Open Scope string_scope.

(** C6: a model identifier that starts with none of "claude", "gemini",
    "gemma" makes [chat_completion] raise [ValueError("Unsupported model:
    ...")] in an unchanged world: no event is recorded (no client object is
    built, no collaborator is called) and nothing is stored.  The same
    holds for the chat service's [chat_completion], which calls it first. *)
Theorem chat_completion_unsupported_model
        (self : AIClient.t) (service : ChatService.t)
        (request : ChatService.ChatCompletionRequest)
        messages temperature max_tokens stream system_prompt
        use_extended_thinking user_id memory_context rag_context web_context
        w :
  let model := ChatService.model request in
  startswith model "claude" = false ->
  startswith model "gemini" = false ->
  startswith model "gemma" = false ->
  AIClient.chat_completion self model messages temperature max_tokens stream
                           system_prompt use_extended_thinking w
    = (Raise (ValueError ("Unsupported model: " ++ model)), w) /\
  ChatService.chat_completion service user_id request memory_context
                              rag_context web_context w
    = (Raise (ValueError ("Unsupported model: " ++ model)), w).
Proof.
  intros model Hclaude Hgemini Hgemma. split.
  - unfold chat_completion. now rewrite Hclaude, Hgemini, Hgemma.
  - unfold ChatService.chat_completion, chat_completion, bind.
    fold model. now rewrite Hclaude, Hgemini, Hgemma.
Qed.

Lemma chat_completion_unsupported_model_witness :
  AIClient.chat_completion Scenario.client "gpt-4" [] (7 # 10) 4000 false
                           None false
                           (Scenario.world_of Scenario.steady
                              Scenario.vertex_only Scenario.no_tables)
    = (Raise (ValueError "Unsupported model: gpt-4"),
       Scenario.world_of Scenario.steady Scenario.vertex_only
                         Scenario.no_tables) /\
  ChatService.chat_completion (ChatService.mkChatService Scenario.client)
                              7%nat Scenario.unknown_model (Some "- likes tea")
                              None None
                              (Scenario.world_of Scenario.steady
                                 Scenario.vertex_only Scenario.no_tables)
    = (Raise (ValueError "Unsupported model: gpt-4"),
       Scenario.world_of Scenario.steady Scenario.vertex_only
                         Scenario.no_tables).
Proof.
  apply (chat_completion_unsupported_model
           Scenario.client (ChatService.mkChatService Scenario.client)
           Scenario.unknown_model [] (7 # 10) 4000 false None false 7%nat
           (Some "- likes tea") None None); reflexivity.
Defined.

Lemma done_tokens_app l1 l2 :
  done_tokens (l1 ++ l2) = (done_tokens l1 ++ done_tokens l2)%list.
Proof. unfold done_tokens. apply flat_map_app. Qed.

(** Content events carry no terminal event. *)
Lemma gemini_contents_no_done (chunks : list GeminiChunk) :
  done_tokens (content_events chunks) = [].
Proof.
  unfold content_events.
  induction chunks as [|c chunks IH]; [reflexivity|].
  simpl. rewrite done_tokens_app, IH.
  destruct (String.eqb (gch_text c) ""); reflexivity.
Qed.

Lemma gemini_is_not_claude model :
  startswith model "gemini" = true -> startswith model "claude" = false.
Proof.
  intros Hgemini.
  unfold startswith in *. destruct model as [|c rest]; [discriminate|].
  change (prefix "gemini" (String c rest))
    with (if Ascii.ascii_dec "g"%char c then prefix "emini" rest else false)
    in Hgemini.
  change (prefix "claude" (String c rest))
    with (if Ascii.ascii_dec "c"%char c then prefix "laude" rest else false).
  destruct (Ascii.ascii_dec "g"%char c) as [<-|]; [|discriminate].
  destruct (Ascii.ascii_dec "c"%char "g"%char); [discriminate|reflexivity].
Qed.

(** C10: a streaming completion for a model whose identifier starts with
    "gemini" is answered with the Gemini generator.  The generator asks the
    provider for a stream, with a model object without system instruction,
    the messages of the caller and the caller's generation settings.  When
    the provider answers with a stream that ends normally, the events are
    the content events of the chunks with a text, followed by one terminal
    event, whose [tokens_used] is 0 whatever the chunks report. *)
Theorem gemini_stream_reports_zero_tokens
        (self : AIClient.t) model messages temperature max_tokens
        system_prompt use_extended_thinking w :
  startswith model "gemini" = true ->
  exists g w' gm gmessages,
    AIClient.chat_completion self model messages temperature max_tokens true
                             system_prompt use_extended_thinking w
      = (Ok (EventStream g), w') /\
    gm_system_instruction gm = None /\
    map gmsg_parts gmessages = map (fun m => [cm_content m]) messages /\
    forall w2 chunks,
      generate_content_stream (providers w2) (calls w2) gm gmessages
                              (mkGenerationConfig temperature max_tokens)
        = Answer (chunks, None) ->
      fst (g w2)
        = ((content_events chunks
              ++ [DoneEvent (mkDoneMessage "gemini-stream" None 0 "stop")])%list,
           None) /\
      done_tokens (fst (fst (g w2))) = [0] /\
      trace (snd (g w2))
        = (trace w2
             ++ [GenerateContent gm gmessages
                   (mkGenerationConfig temperature max_tokens) true])%list.
Proof.
  intros Hgemini.
  unfold chat_completion. rewrite (gemini_is_not_claude model Hgemini), Hgemini.
  unfold _gemini_completion, bind, emit, ret. cbv beta iota zeta.
  eexists _, _,
    (mkGenerativeModel
       (model_map_get [("gemini-2.5-flash", "gemini-2.5-flash");
                       ("gemini-2.5-pro", "gemini-2.5-pro")] model) None),
    (map (fun msg =>
            mkGeminiMessage
              (if String.eqb (cm_role msg) "user" then "user" else "model")
              [cm_content msg]) messages).
  split; [reflexivity|].
  split; [reflexivity|]. split.
  { rewrite map_map. reflexivity. }
  intros w2 chunks Hstream.
  unfold _gemini_stream, ask_external. cbv beta iota zeta.
  rewrite Hstream. cbn [fst snd trace].
  split; [reflexivity|]. split; [|reflexivity].
  rewrite done_tokens_app.
  change (flat_map _ chunks) with (content_events chunks).
  rewrite gemini_contents_no_done. reflexivity.
Qed.

Lemma gemini_stream_reports_zero_tokens_witness :
  exists g w' gm gmessages,
    AIClient.chat_completion Scenario.client "gemini-2.5-flash"
      [mkChatMessage "user" "hello"] (7 # 10) 4000 true None false
      (Scenario.world_of Scenario.streaming Scenario.vertex_only
                         Scenario.no_tables)
      = (Ok (EventStream g), w') /\
    gm_system_instruction gm = None /\
    map gmsg_parts gmessages = [["hello"]] /\
    forall w2 chunks,
      generate_content_stream (providers w2) (calls w2) gm gmessages
                              (mkGenerationConfig (7 # 10) 4000)
        = Answer (chunks, None) ->
      fst (g w2)
        = ((content_events chunks
              ++ [DoneEvent (mkDoneMessage "gemini-stream" None 0 "stop")])%list,
           None) /\
      done_tokens (fst (fst (g w2))) = [0] /\
      trace (snd (g w2))
        = (trace w2
             ++ [GenerateContent gm gmessages
                   (mkGenerationConfig (7 # 10) 4000) true])%list.
Proof.
  apply (gemini_stream_reports_zero_tokens
           Scenario.client "gemini-2.5-flash" [mkChatMessage "user" "hello"]
           (7 # 10) 4000 None false
           (Scenario.world_of Scenario.streaming Scenario.vertex_only
                              Scenario.no_tables)).
  reflexivity.
Defined.

(** The provider streams "Hel", an empty chunk and "lo", and reports 5 and
    12 tokens with them: the terminal event reports 0. *)
Example gemini_stream_scenario :
  fst (_gemini_stream (mkGenerativeModel "gemini-2.5-flash" None)
         [mkGeminiMessage "user" ["hello"]]
         (mkGenerationConfig (7 # 10) 4000) None
         (Scenario.world_of Scenario.streaming Scenario.vertex_only
                            Scenario.no_tables))
  = ([ContentEvent "Hel"; ContentEvent "lo";
      DoneEvent (mkDoneMessage "gemini-stream" None 0 "stop")], None).
Proof. reflexivity. Qed.

End AdapterFacts.

(* ---------------------------------------------------------------------- *)
(** ** The context assembler and the completion route                      *)
(* ---------------------------------------------------------------------- *)

Section PromptFacts.

Import ChatService.
Local Open Scope string_scope.

Lemma append_assoc (a b c : string) : (a ++ b) ++ c = a ++ (b ++ c).
Proof. induction a as [|x a IH]; simpl; [reflexivity | now rewrite IH]. Qed.

Lemma append_empty_r (a : string) : a ++ "" = a.
Proof. induction a as [|x a IH]; simpl; [reflexivity | now rewrite IH]. Qed.

Lemma add_section_prompt_section system_prompt header context :
  add_section system_prompt header context =
  system_prompt ++ prompt_section header context.
Proof.
  unfold add_section, prompt_section.
  destruct context as [c|]; [destruct (String.eqb c "")|];
    now rewrite ?append_empty_r.
Qed.

(** The prompt is the base prompt followed by the sections of the present,
    non-empty contexts, in the order memory, documents, web. *)
Lemma enhanced_system_prompt_layout request memory_context rag_context
      web_context :
  enhanced_system_prompt request memory_context rag_context web_context =
  base_prompt request
    ++ prompt_section memory_header memory_context
    ++ prompt_section rag_header rag_context
    ++ prompt_section web_header web_context.
Proof.
  unfold enhanced_system_prompt.
  rewrite !add_section_prompt_section, !append_assoc.
  f_equal. unfold base_prompt.
  destruct (system_prompt request) as [s|]; [|reflexivity].
  destruct (String.eqb_spec s ""); congruence.
Qed.

End PromptFacts.

Section RouteFacts.

Import ChatService Api.
Local Open Scope string_scope.

Variable engine : OrderBy.

(** *** Calls made one after the other *)

Lemma latency_sum_0 p first : latency_sum p first 0 = 0%nat.
Proof. reflexivity. Qed.

Lemma latency_sum_1 p first : latency_sum p first 1 = latency p first.
Proof. unfold latency_sum. simpl. now rewrite !Nat.add_0_r. Qed.

Lemma map_seq_from {A} (f : nat -> A) n m :
  map f (seq n m) = map (fun i => f (n + i)%nat) (seq 0 m).
Proof.
  revert f n. induction m as [|m IH]; intros f n; [reflexivity|].
  simpl. rewrite Nat.add_0_r. f_equal.
  rewrite <- !seq_shift, !map_map, (IH (fun i => f (S i)) n).
  apply map_ext. intros i. f_equal. lia.
Qed.

Lemma latency_sum_app p first n m :
  latency_sum p first (n + m) =
  (latency_sum p first n + latency_sum p (first + n) m)%nat.
Proof.
  unfold latency_sum. rewrite seq_app, map_app, fold_right_app. simpl.
  assert (Hshift : map (fun i => latency p (first + i)%nat) (seq n m)
                   = map (fun i => latency p (first + n + i)%nat) (seq 0 m)).
  { rewrite map_seq_from. apply map_ext. intros i. f_equal. lia. }
  rewrite Hshift.
  generalize (map (fun i => latency p (first + n + i)%nat) (seq 0 m)) as tail.
  intros tail.
  induction (map (fun i => latency p (first + i)%nat) (seq 0 n)) as [|x l IH];
    simpl; [reflexivity | rewrite IH; lia].
Qed.

Lemma after_events_nil w w' :
  session w' = session w -> providers w' = providers w ->
  settings w' = settings w -> uuid_supply w' = uuid_supply w ->
  calls w' = calls w -> clock w' = clock w -> trace w' = trace w ->
  after_events w w' [].
Proof.
  intros. unfold after_events. simpl.
  rewrite app_nil_r, !Nat.add_0_r. now repeat split.
Qed.

Lemma after_events_one w w' ev :
  session w' = session w -> providers w' = providers w ->
  settings w' = settings w -> uuid_supply w' = uuid_supply w ->
  calls w' = S (calls w) ->
  clock w' = (clock w + latency (providers w) (calls w))%nat ->
  trace w' = (trace w ++ [ev])%list ->
  after_events w w' [ev].
Proof.
  intros. unfold after_events. rewrite latency_sum_1. simpl.
  repeat split; try assumption. lia.
Qed.

Lemma after_events_app w w1 w2 e1 e2 :
  after_events w w1 e1 -> after_events w1 w2 e2 ->
  after_events w w2 (e1 ++ e2).
Proof.
  intros (A1 & A2 & A3 & A4 & A5 & A6 & A7) (B1 & B2 & B3 & B4 & B5 & B6 & B7).
  unfold after_events. rewrite length_app, latency_sum_app.
  rewrite B1, B2, B3, B4, B5, B6, B7, A1, A2, A3, A4, A5, A6, A7.
  rewrite app_assoc. repeat split; lia.
Qed.

Lemma embeds_answer_fits p n model text :
  embeds_in_dimension p -> answer_fits (get_embeddings p n model text) = true.
Proof.
  intros Hp. unfold answer_fits, fits_column.
  destruct (get_embeddings p n model text) as [v|e] eqn:Hanswer;
    [|reflexivity].
  simpl. apply Nat.eqb_eq. eapply Hp; exact Hanswer.
Qed.

(** *** The three fetches *)

Lemma document_scope_fits user_id tables :
  vectors_fit tables = true ->
  Forall (fun row : DocumentChunk * Document =>
            fits_column (chunk_embedding (fst row)) = true)
         (RAGSearch.document_scope user_id tables).
Proof.
  intros Hfit. apply andb_prop in Hfit as [Hfit _].
  rewrite forallb_forall in Hfit.
  apply Forall_forall. intros [dc d] Hrow.
  unfold RAGSearch.document_scope in Hrow.
  apply in_flat_map in Hrow as (dc' & Hdc & Hrow).
  destruct (chunk_embedding dc'); [|contradiction].
  apply in_map_iff in Hrow as (d' & [= <- <-] & _).
  now apply Hfit.
Qed.

(** A document search in a world whose stored vectors have the dimension
    of their column, when the embedding model answers, if it answers, with a
    vector of that dimension: one embedding call, then the statement. *)
Lemma search_documents_spec (self : RAGService.t) user_id query n w :
  0 <= n ->
  vectors_fit (view (session w)) = true ->
  answer_fits (get_embeddings (providers w) (calls w)
                 (EMBEDDING_MODEL (settings w))
                 (list_ascii_of_string query)) = true ->
  exists hits w',
    @RAGSearch.search_documents engine self user_id query n w
      = (Ok hits, w') /\
    after_events w w' [GetEmbeddings (EMBEDDING_MODEL (settings w))
                                     (list_ascii_of_string query)] /\
    match get_embeddings (providers w) (calls w)
                         (EMBEDDING_MODEL (settings w))
                         (list_ascii_of_string query) with
    | Answer q =>
        hits = map (RAGSearch.hit (providers w) q)
                   (take n (order_by (RAGSearch.chunk_distance (providers w) q)
                                     (RAGSearch.document_scope
                                        user_id (view (session w)))))
    | Failure _ => hits = []
    end.
Proof.
  intros Hn Hfit Hanswer.
  unfold RAGSearch.search_documents, MemoryService.query_embedding_of,
    AIClient.generate_embedding, try_except, bind, get, external,
    ask_external, ret, log, lift.
  simpl.
  destruct (get_embeddings (providers w) (calls w)
                           (EMBEDDING_MODEL (settings w))
                           (list_ascii_of_string query)) as [q|e]; simpl.
  - unfold answer_fits, fits_column in Hanswer. simpl in Hanswer.
    apply Nat.eqb_eq in Hanswer.
    unfold RAGSearch.document_query.
    rewrite (nearest_answered engine _ _ q n _ Hanswer Hn
               (document_scope_fits user_id _ Hfit)).
    eexists _, _. split; [reflexivity|]. split; [|reflexivity].
    now apply after_events_one.
  - eexists _, _. split; [reflexivity|]. split; [|reflexivity].
    now apply after_events_one.
Qed.

Lemma fetch_rag_spec rag_service user_id request w :
  vectors_fit (view (session w)) = true ->
  embeds_in_dimension (providers w) ->
  exists context w',
    @fetch_rag engine rag_service user_id request w = (Ok context, w') /\
    after_events w w'
      (if use_rag request
       then [GetEmbeddings (EMBEDDING_MODEL (settings w))
                           (list_ascii_of_string (last_message request))]
       else []) /\
    (use_rag request = false -> context = None).
Proof.
  intros Hfit Hp. unfold fetch_rag. destruct (use_rag request).
  - destruct (search_documents_spec rag_service user_id
                (last_message request) 5 w)
      as (hits & w1 & Hrun & Hafter & _);
      [lia | exact Hfit | now apply embeds_answer_fits |].
    assert (Hcontext : exists context,
               @RAGSearch.get_rag_context_for_query
                 engine rag_service user_id (last_message request) 5 w
               = (Ok context, w1)).
    { unfold RAGSearch.get_rag_context_for_query.
      erewrite bind_ok by exact Hrun.
      destruct hits; eexists; unfold bind, get, ret; reflexivity. }
    destruct Hcontext as (context & Hcontext).
    erewrite bind_ok by exact Hcontext.
    exists (Some context), w1.
    split; [reflexivity|]. split; [exact Hafter|discriminate].
  - exists None, w. split; [reflexivity|].
    split; [now apply after_events_nil | reflexivity].
Qed.

(** A web search never raises: without configuration it calls nobody;
    otherwise it makes one request, and a failure of the request leaves no
    result. *)
Lemma search_spec (self : WebGroundingService.t) query num_results w :
  exists items w',
    WebGroundingService.search self query num_results w = (Ok items, w') /\
    after_events w w'
      (if configured self
       then [HttpGet (WebGroundingService.base_url self) query
                     (Z.min num_results 10)]
       else []) /\
    items =
      (if configured self
       then match http_get (providers w) (calls w)
                           (WebGroundingService.base_url self) query
                           (Z.min num_results 10) with
            | Answer found => found
            | Failure _ => []
            end
       else []).
Proof.
  unfold WebGroundingService.search, configured.
  destruct (truthy (WebGroundingService.api_key self)); simpl.
  2: { eexists _, _. split; [reflexivity|].
       split; [now apply after_events_nil | reflexivity]. }
  destruct (truthy (WebGroundingService.search_engine_id self)); simpl.
  2: { eexists _, _. split; [reflexivity|].
       split; [now apply after_events_nil | reflexivity]. }
  unfold try_except, external, ask_external. simpl.
  destruct (http_get _ _ _ _ _) as [items|e]; simpl.
  - eexists _, _. split; [reflexivity|].
    split; [now apply after_events_one | reflexivity].
  - destruct e; eexists _, _; (split; [reflexivity|]);
      (split; [now apply after_events_one | reflexivity]).
Qed.

Lemma fetch_web_spec (grounding_service : WebGroundingService.t) request w :
  exists context w',
    fetch_web grounding_service request w = (Ok context, w') /\
    after_events w w'
      (if use_web_grounding request && configured grounding_service
       then [HttpGet (WebGroundingService.base_url grounding_service)
                     (last_message request) 3]
       else []) /\
    (use_web_grounding request = false -> context = None).
Proof.
  unfold fetch_web. destruct (use_web_grounding request); simpl.
  - destruct (search_spec grounding_service (last_message request) 3 w)
      as (items & w1 & Hrun & Hafter & _).
    assert (Hcontext : exists context,
               WebGroundingService.get_grounding_context
                 grounding_service (last_message request) 3 w
               = (Ok context, w1)).
    { unfold WebGroundingService.get_grounding_context.
      erewrite bind_ok by exact Hrun.
      destruct items; eexists; reflexivity. }
    destruct Hcontext as (context & Hcontext).
    erewrite bind_ok by exact Hcontext.
    exists (Some context), w1.
    split; [reflexivity|]. split; [exact Hafter|discriminate].
  - exists None, w. split; [reflexivity|].
    split; [now apply after_events_nil | reflexivity].
Qed.

Lemma fetch_memory_spec (memory_service : MemoryService.t) user_id request w :
  vectors_fit (view (session w)) = true ->
  memories_presentable (view (session w)) = true ->
  embeds_in_dimension (providers w) ->
  exists context w',
    @fetch_memory engine memory_service user_id request w
      = (Ok (Some context), w') /\
    after_events w w'
      [GetEmbeddings (EMBEDDING_MODEL (settings w))
                     (list_ascii_of_string (last_message request))].
Proof.
  intros Hfit Hvalid Hp.
  destruct (search_memories_spec engine memory_service user_id
              (mkMemorySearchRequest (last_message request) None
                                     (chat_id request) 5 0) w)
    as (rows & w1 & _ & Hrun & S1 & S2 & S3 & S4 & S5 & S6 & S7 & _);
    [simpl; lia | exact Hfit | exact Hvalid
     | now apply embeds_answer_fits |].
  assert (Hcontext : exists context,
             @MemoryService.get_relevant_memories_for_query
               engine memory_service user_id (last_message request)
               (chat_id request) 5 w
             = (Ok context, w1)).
  { unfold MemoryService.get_relevant_memories_for_query.
    unfold new_MemorySearchRequest.
    change (valid_search_request
              (mkMemorySearchRequest (last_message request) None
                                     (chat_id request) 5 0)) with true.
    cbv iota. unfold lift. erewrite bind_ok by reflexivity.
    erewrite bind_ok by exact Hrun.
    destruct (map memory_fields rows); eexists; reflexivity. }
  destruct Hcontext as (context & Hcontext).
  unfold fetch_memory. erewrite bind_ok by exact Hcontext.
  exists context, w1. split; [reflexivity|].
  simpl in S7. now apply after_events_one.
Qed.

(** The contexts of a request, in a world whose stored rows are sound and
    whose embedding model answers in the dimension of the columns: the
    three fetches are made one after the other, RAG first, then web
    grounding, then memory, each in the world that the one before left. *)
Lemma get_context_spec memory_service rag_service grounding_service user_id
      request w :
  vectors_fit (view (session w)) = true ->
  memories_presentable (view (session w)) = true ->
  embeds_in_dimension (providers w) ->
  exists memory_context rag_context web_context w',
    @get_context engine memory_service rag_service grounding_service user_id
                 request w
      = (Ok (Some memory_context, rag_context, web_context), w') /\
    after_events w w'
      ((if use_rag request
        then [GetEmbeddings (EMBEDDING_MODEL (settings w))
                            (list_ascii_of_string (last_message request))]
        else [])
       ++ (if use_web_grounding request && configured grounding_service
           then [HttpGet (WebGroundingService.base_url grounding_service)
                         (last_message request) 3]
           else [])
       ++ [GetEmbeddings (EMBEDDING_MODEL (settings w))
                         (list_ascii_of_string (last_message request))]) /\
    (use_rag request = false -> rag_context = None) /\
    (use_web_grounding request = false -> web_context = None).
Proof.
  intros Hfit Hvalid Hp.
  destruct (fetch_rag_spec rag_service user_id request w Hfit Hp)
    as (r & w1 & Hr & A1 & Hrnone).
  destruct (fetch_web_spec grounding_service request w1)
    as (g & w2 & Hg & A2 & Hgnone).
  assert (S1 : session w2 = session w).
  { destruct A1 as (E1 & _), A2 as (E2 & _). congruence. }
  assert (P1 : providers w2 = providers w).
  { destruct A1 as (_ & E1 & _), A2 as (_ & E2 & _). congruence. }
  assert (T1 : settings w2 = settings w).
  { destruct A1 as (_ & _ & E1 & _), A2 as (_ & _ & E2 & _). congruence. }
  destruct (fetch_memory_spec memory_service user_id request w2)
    as (m & w3 & Hm & A3); [now rewrite S1 | now rewrite S1 | now rewrite P1|].
  rewrite T1 in A3.
  exists m, r, g, w3. split.
  - unfold get_context.
    erewrite bind_ok by exact Hr. erewrite bind_ok by exact Hg.
    erewrite bind_ok by exact Hm. reflexivity.
  - split; [|split; assumption].
    eapply after_events_app; [exact A1|].
    eapply after_events_app; [exact A2 | exact A3].
Qed.

(** *** What is handed to the provider layer *)

Lemma offline_ret {A} (a : A) : offline (ret a).
Proof. intros w. now repeat split. Qed.

Lemma offline_raise {A} e : offline (@raise A e).
Proof. intros w. now repeat split. Qed.

Lemma offline_lift {A} (r : result A) : offline (lift r).
Proof. intros w. now repeat split. Qed.

Lemma offline_bind {A B} (m : M A) (k : A -> M B) :
  offline m -> (forall a, offline (k a)) -> offline (bind m k).
Proof.
  intros Hm Hk w. unfold bind.
  destruct (Hm w) as (T & C & K & P & S).
  destruct (m w) as [[a| e |] w1]; simpl in *.
  - destruct (Hk a w1) as (T' & C' & K' & P' & S').
    repeat split; congruence.
  - now repeat split.
  - now repeat split.
Qed.

Lemma offline_session {A} (f : World -> result A * Tables) :
  offline (fun w => (fst (f w), with_view (snd (f w)) w)).
Proof. intros w. now repeat split. Qed.

Ltac offline_step :=
  first [ apply offline_ret | apply offline_raise | apply offline_lift
        | (intros w; now repeat split) ].

Lemma offline_scalar_one_or_none {A} (rows : list A) :
  offline (scalar_one_or_none rows).
Proof. destruct rows as [|? [|? ?]]; offline_step. Qed.

Lemma offline_scalar_one {A} (rows : list A) : offline (scalar_one rows).
Proof. destruct rows as [|? [|? ?]]; offline_step. Qed.

Lemma offline_db_commit_checked refusal : offline (db_commit_checked refusal).
Proof.
  destruct refusal; simpl; [|offline_step].
  apply offline_bind; [|intros]; offline_step.
Qed.

Lemma offline_add_message self message_data :
  offline (add_message self message_data).
Proof.
  unfold add_message.
  apply offline_bind; [offline_step|]. intros id.
  apply offline_bind; [offline_step|]. intros created_at.
  apply offline_bind; [offline_step|]. intros _.
  apply offline_bind; [unfold select_chats; apply offline_bind;
                       [|intros]; offline_step|].
  intros rows.
  apply offline_bind; [apply offline_scalar_one_or_none|]. intros chat.
  apply offline_bind.
  { destruct chat; [|offline_step].
    apply offline_bind; [|intros]; offline_step. }
  intros _. apply offline_bind; [apply offline_db_commit_checked|]. intros _.
  apply offline_bind; [|intros; offline_step].
  unfold db_refresh_message. apply offline_bind; [offline_step|].
  intros w0. destruct (find _ _); offline_step.
Qed.

(** The service calls the provider layer first, and calls no collaborator
    after it. *)
Lemma chat_completion_after_provider self user_id request memory_context
      rag_context web_context :
  exists k,
    (forall reply, offline (k reply)) /\
    (stream request = true -> k = ret) /\
    forall w,
      ChatService.chat_completion self user_id request memory_context
                                  rag_context web_context w
      = bind (provider_call (ai_client self) request
                (augmented_prompt request memory_context rag_context
                                  web_context)) k w.
Proof.
  unfold ChatService.chat_completion, provider_call, augmented_prompt.
  rewrite <- enhanced_system_prompt_layout.
  destruct (stream request) eqn:Hstream.
  - exists ret. split; [intros; apply offline_ret|].
    split; [reflexivity|]. reflexivity.
  - eexists. split; [|split; [discriminate|reflexivity]].
    intros [c|g]; [|apply offline_raise].
    destruct (chat_id request) as [chat|]; [|apply offline_ret].
    destruct (rev (messages request)) as [|last_msg ?];
      [apply offline_raise|].
    apply offline_bind; [apply offline_add_message|]. intros _.
    apply offline_bind; [apply offline_add_message|]. intros msg.
    apply offline_bind; [unfold select_messages; apply offline_bind;
                         [|intros]; offline_step|].
    intros rows.
    apply offline_bind; [apply offline_scalar_one|]. intros saved.
    apply offline_bind; [offline_step|]. intros _.
    apply offline_bind; [|intros]; offline_step.
Qed.

Lemma AIClient_init_spec w :
  exists client w',
    AIClient.init w = (Ok client, w') /\
    session w' = session w /\ providers w' = providers w /\
    settings w' = settings w /\ calls w' = calls w /\ clock w' = clock w.
Proof.
  unfold AIClient.init, bind, get, emit, ret. simpl.
  destruct (truthy (ANTHROPIC_API_KEY (settings w)));
    destruct (truthy (GOOGLE_AI_API_KEY (settings w)));
    destruct (truthy (VERTEX_AI_PROJECT (settings w)));
    simpl; eexists _, _; (split; [reflexivity|]); now repeat split.
Qed.

(** The route builds its four services, which calls nobody, and then gets
    the contexts. *)
Lemma route_services request user_id w :
  exists chat_service memory_service rag_service grounding_service w0,
    session w0 = session w /\ providers w0 = providers w /\
    settings w0 = settings w /\ calls w0 = calls w /\ clock w0 = clock w /\
    @Api.chat_completion engine request user_id w
    = bind (@get_context engine memory_service rag_service grounding_service
                         user_id request)
           (fun contexts =>
              let '(memory_context, rag_context, web_context) := contexts in
              ChatService.chat_completion chat_service user_id request
                memory_context rag_context web_context) w0.
Proof.
  unfold Api.chat_completion, ChatService.init, MemoryService.init,
    RAGService.init, WebGroundingService.init.
  destruct (AIClient_init_spec w) as (c1 & w1 & H1 & S1 & P1 & T1 & C1 & K1).
  destruct (AIClient_init_spec w1) as (c2 & w2 & H2 & S2 & P2 & T2 & C2 & K2).
  destruct (AIClient_init_spec w2) as (c3 & w3 & H3 & S3 & P3 & T3 & C3 & K3).
  erewrite bind_ok by (erewrite bind_ok by exact H1; reflexivity).
  erewrite bind_ok by (erewrite bind_ok by exact H2; reflexivity).
  erewrite bind_ok by (erewrite bind_ok by exact H3; reflexivity).
  erewrite bind_ok by reflexivity.
  eexists _, _, _, _, w3.
  repeat split; try reflexivity; congruence.
Qed.

(** With RAG and web grounding switched off the contexts are a memory
    context only. *)
Lemma get_context_memory_only memory_service rag_service grounding_service
      user_id request w memory_context rag_context web_context w1 :
  use_rag request = false -> use_web_grounding request = false ->
  @get_context engine memory_service rag_service grounding_service user_id
               request w
    = (Ok (memory_context, rag_context, web_context), w1) ->
  rag_context = None /\ web_context = None /\
  exists context, memory_context = Some context.
Proof.
  intros Hrag Hweb Hcontexts.
  unfold get_context, fetch_rag, fetch_web, fetch_memory in Hcontexts.
  rewrite Hrag, Hweb in Hcontexts.
  erewrite !bind_ok in Hcontexts by reflexivity.
  unfold bind, ret in Hcontexts.
  destruct (MemoryService.get_relevant_memories_for_query _ _ _ _ _ w)
    as [[context| e |] w3]; try discriminate Hcontexts.
  injection Hcontexts as <- <- <- <-.
  split; [reflexivity|]. split; [reflexivity|]. now exists context.
Qed.

(** C8: the system prompt is the base prompt of the caller followed by the
    labelled sections of the non-empty contexts in the order "User Memory
    Context", "Retrieved Documents", "Web Search Results".  The chat service
    hands this prompt to the provider layer: the collaborators see of its
    completion what they see of the provider call with this prompt, and a
    streamed completion is that call.  The route hands to the chat service
    the contexts that it fetched; with RAG and web grounding switched off
    these are a memory context only, and with a non-empty memory context the
    prompt is the base prompt followed by the one section "User Memory
    Context".  In a world whose stored rows are sound and whose embedding
    model answers in the dimension of the columns the contexts are
    fetched. *)
Theorem enhanced_system_prompt_sections request user_id w :
  (forall memory_context rag_context web_context,
      enhanced_system_prompt request memory_context rag_context web_context =
      base_prompt request
        ++ prompt_section memory_header memory_context
        ++ prompt_section rag_header rag_context
        ++ prompt_section web_header web_context) /\
  (forall self memory_context rag_context web_context w1,
      let call :=
        provider_call (ai_client self) request
          (augmented_prompt request memory_context rag_context web_context) in
      trace (snd (ChatService.chat_completion
                    self user_id request memory_context rag_context
                    web_context w1))
        = trace (snd (call w1)) /\
      (stream request = true ->
       ChatService.chat_completion self user_id request memory_context
                                   rag_context web_context w1
         = call w1)) /\
  exists chat_service memory_service rag_service grounding_service w0,
    session w0 = session w /\ providers w0 = providers w /\
    settings w0 = settings w /\ calls w0 = calls w /\
    (forall memory_context rag_context web_context w1,
        @get_context engine memory_service rag_service grounding_service
                     user_id request w0
          = (Ok (memory_context, rag_context, web_context), w1) ->
        @Api.chat_completion engine request user_id w
          = ChatService.chat_completion chat_service user_id request
              memory_context rag_context web_context w1 /\
        (use_rag request = false -> use_web_grounding request = false ->
         rag_context = None /\ web_context = None /\
         exists context,
           memory_context = Some context /\
           (context <> "" ->
            augmented_prompt request memory_context rag_context web_context
              = base_prompt request ++ memory_header ++ context))) /\
    (vectors_fit (view (session w)) = true ->
     memories_presentable (view (session w)) = true ->
     embeds_in_dimension (providers w) ->
     exists memory_context rag_context web_context w1,
       @get_context engine memory_service rag_service grounding_service
                    user_id request w0
         = (Ok (Some memory_context, rag_context, web_context), w1)).
Proof.
  split; [intros; apply enhanced_system_prompt_layout|]. split.
  { intros self memory_context rag_context web_context w1 call.
    destruct (chat_completion_after_provider
                self user_id request memory_context rag_context web_context)
      as (k & Hoffline & Hstream & Hrun).
    rewrite Hrun. fold call. split.
    - unfold bind. destruct (call w1) as [[reply| e |] w2]; try reflexivity.
      simpl. now destruct (Hoffline reply w2) as (-> & _).
    - intros Hs. rewrite (Hstream Hs). unfold bind, ret.
      now destruct (call w1) as [[reply| e |] w2]. }
  destruct (route_services request user_id w)
    as (cs & ms & rs & gs & w0 & S0 & P0 & T0 & C0 & _ & Hroute).
  exists cs, ms, rs, gs, w0.
  split; [exact S0|]. split; [exact P0|]. split; [exact T0|].
  split; [exact C0|]. split.
  - intros memory_context rag_context web_context w1 Hcontexts. split.
    + rewrite Hroute. erewrite bind_ok by exact Hcontexts. reflexivity.
    + intros Hrag Hweb.
      destruct (get_context_memory_only _ _ _ _ _ _ _ _ _ _ Hrag Hweb
                                        Hcontexts)
        as (-> & -> & context & ->).
      split; [reflexivity|]. split; [reflexivity|].
      exists context. split; [reflexivity|].
      intros Hne. unfold augmented_prompt, prompt_section.
      destruct (String.eqb_spec context ""); [contradiction|].
      now rewrite !append_empty_r.
  - intros Hfit Hvalid Hp.
    destruct (get_context_spec ms rs gs user_id request w0)
      as (m & r & g & w1 & Hrun & _);
      [now rewrite S0 | now rewrite S0 | now rewrite P0|].
    now exists m, r, g, w1.
Qed.

(** C9, as the code has it: in a world whose stored rows are sound and
    whose embedding model answers in the dimension of the columns, the route
    gets its contexts by awaiting the fetches one after the other, RAG
    first (when requested), then web grounding (when requested and
    configured), then memory: the calls are recorded in this order and
    numbered consecutively, and the time that getting the contexts takes is
    the sum of the latencies of these calls. *)
Theorem get_context_latency_is_sum
        memory_service rag_service grounding_service user_id request w :
  vectors_fit (view (session w)) = true ->
  memories_presentable (view (session w)) = true ->
  embeds_in_dimension (providers w) ->
  let embed :=
    GetEmbeddings (EMBEDDING_MODEL (settings w))
                  (list_ascii_of_string (last_message request)) in
  let events :=
    ((if use_rag request then [embed] else [])
     ++ (if use_web_grounding request && configured grounding_service
         then [HttpGet (WebGroundingService.base_url grounding_service)
                       (last_message request) 3]
         else [])
     ++ [embed])%list in
  exists contexts w',
    @get_context engine memory_service rag_service grounding_service
                 user_id request w = (Ok contexts, w') /\
    trace w' = (trace w ++ events)%list /\
    calls w' = (calls w + List.length events)%nat /\
    elapsed (@get_context engine memory_service rag_service grounding_service
                          user_id request) w
      = Z.of_nat (latency_sum (providers w) (calls w) (List.length events)).
Proof.
  intros Hfit Hvalid Hp embed events.
  destruct (get_context_spec memory_service rag_service grounding_service
                             user_id request w Hfit Hvalid Hp)
    as (m & r & g & w' & Hrun & Hafter & _).
  fold embed in Hafter. fold events in Hafter.
  destruct Hafter as (_ & _ & _ & _ & Hcalls & Hclock & Htrace).
  exists (Some m, r, g), w'.
  split; [exact Hrun|]. split; [exact Htrace|]. split; [exact Hcalls|].
  unfold elapsed. rewrite Hrun. simpl. lia.
Qed.

End RouteFacts.

Section RouteScenarios.

Import ChatService Api Scenario.
Local Open Scope string_scope.

Lemma steady_embeds_in_dimension : embeds_in_dimension steady.
Proof. intros n model text v [= <-]. reflexivity. Qed.

Lemma with_web_embeds_in_dimension : embeds_in_dimension with_web.
Proof. intros n model text v [= <-]. reflexivity. Qed.

(** The prompt of the scenario: two memories match, RAG and web grounding
    are off. *)
Example memory_only_prompt :
  exists w',
    @get_context TableOrder memory_service rag_service unconfigured_grounding
                 7%nat unknown_model quiet
      = (Ok (Some ("- likes tea (type: user_fact)" ++ nl
                     ++ "- allergic to nuts (type: user_fact)"),
             None, None), w') /\
    enhanced_system_prompt unknown_model
      (Some ("- likes tea (type: user_fact)" ++ nl
               ++ "- allergic to nuts (type: user_fact)")) None None
    = "Be brief." ++ nl ++ nl ++ "## User Memory Context" ++ nl
        ++ "- likes tea (type: user_fact)" ++ nl
        ++ "- allergic to nuts (type: user_fact)".
Proof.
  eexists. split; [vm_compute; reflexivity | reflexivity].
Qed.

Lemma get_context_latency_is_sum_witness :
  exists contexts w',
    @get_context TableOrder memory_service rag_service grounding_service
                 7%nat all_sources busy = (Ok contexts, w') /\
    trace w' =
      (trace busy
         ++ [GetEmbeddings "text-embedding-004"
                           (list_ascii_of_string "what to drink");
             HttpGet "url" "what to drink" 3;
             GetEmbeddings "text-embedding-004"
                           (list_ascii_of_string "what to drink")])%list /\
    calls w' = (calls busy + 3)%nat /\
    elapsed (@get_context TableOrder memory_service rag_service
                          grounding_service 7%nat all_sources) busy
      = Z.of_nat (latency_sum (providers busy) (calls busy) 3).
Proof.
  apply (get_context_latency_is_sum
           TableOrder memory_service rag_service grounding_service 7%nat
           all_sources busy).
  - vm_compute. reflexivity.
  - vm_compute. reflexivity.
  - exact with_web_embeds_in_dimension.
Defined.

(** C9 fails as stated: with RAG and web grounding requested and every
    external call taking one unit of time, each of the three sources alone
    takes one unit, and getting the context takes three, more than the
    slowest single source. *)
Lemma get_context_slower_than_slowest_source :
  elapsed (@fetch_rag TableOrder rag_service 7%nat all_sources) busy = 1 /\
  elapsed (fetch_web grounding_service all_sources) busy = 1 /\
  elapsed (@fetch_memory TableOrder memory_service 7%nat all_sources) busy = 1 /\
  elapsed (@get_context TableOrder memory_service rag_service
                        grounding_service 7%nat all_sources) busy = 3 /\
  ~ (elapsed (@get_context TableOrder memory_service rag_service
                           grounding_service 7%nat all_sources) busy
     <= Z.max (elapsed (@fetch_rag TableOrder rag_service 7%nat all_sources)
                       busy)
              (Z.max (elapsed (fetch_web grounding_service all_sources) busy)
                     (elapsed (@fetch_memory TableOrder memory_service 7%nat
                                             all_sources) busy))).
Proof.
  vm_compute. repeat split; try reflexivity. intros H. now apply H.
Qed.

End RouteScenarios.

(* ---------------------------------------------------------------------- *)
(** ** More on the chunker                                                 *)
(* ---------------------------------------------------------------------- *)

Section ChunkerWindows.

Variables (text : str) (size overlap : Z).
Hypothesis Hstride : overlap < size.

(** Number of windows that start at or after [start]. *)
Let remaining (start : Z) : nat :=
  Z.to_nat ((len text - start + (size - overlap) - 1) / (size - overlap)).

Let window (start : Z) (j : nat) : str :=
  py_slice text (start + Z.of_nat j * (size - overlap))
           (start + Z.of_nat j * (size - overlap) + size).

Lemma remaining_done start : len text <= start -> remaining start = 0%nat.
Proof.
  intros H. unfold remaining.
  assert ((len text - start + (size - overlap) - 1) / (size - overlap) <= 0).
  { apply Z.lt_succ_r. apply Z.div_lt_upper_bound; lia. }
  lia.
Qed.

Lemma remaining_step start :
  start < len text ->
  remaining start = S (remaining (start + size - overlap)).
Proof.
  intros H. unfold remaining.
  replace (len text - start + (size - overlap) - 1)
    with ((len text - (start + size - overlap) + (size - overlap) - 1)
          + 1 * (size - overlap)) by lia.
  rewrite Z.div_add by lia.
  assert (0 <= (len text - (start + size - overlap) + (size - overlap) - 1)
               / (size - overlap)).
  { apply Z.div_pos; lia. }
  lia.
Qed.

Lemma chunk_text_loop_windows :
  forall fuel start chunks,
    len text - start <= Z.of_nat fuel ->
    chunk_text_loop fuel text size overlap start chunks =
    Some (chunks ++ map (window start) (seq 0 (remaining start))).
Proof.
  induction fuel as [|fuel IH]; intros start chunks Hfuel.
  - rewrite chunk_text_loop_exit by lia.
    rewrite remaining_done by lia. simpl. now rewrite app_nil_r.
  - destruct (Z.ltb_spec start (len text)) as [Hlt|Hge].
    + rewrite chunk_text_loop_step by assumption.
      rewrite IH by lia. rewrite (remaining_step start) by assumption.
      rewrite <- app_assoc. f_equal. f_equal. simpl. f_equal.
      * unfold window. simpl. f_equal; lia.
      * rewrite <- seq_shift, map_map. apply map_ext. intros j.
        unfold window. f_equal; lia.
    + rewrite chunk_text_loop_exit by lia.
      rewrite remaining_done by lia. simpl. now rewrite app_nil_r.
Qed.

Lemma chunk_text_as_windows :
  chunk_text text size overlap =
  Ok (map (window_at text size overlap)
          (seq 0 (window_count text size overlap))).
Proof.
  unfold chunk_text, chunk_text_fuel.
  rewrite chunk_text_loop_windows by (unfold len; lia).
  simpl. f_equal. unfold remaining, window_count.
  replace (len text - 0 + (size - overlap) - 1)
    with (len text + (size - overlap) - 1) by lia.
  apply map_ext. intros k. unfold window, window_at. f_equal; lia.
Qed.

(** A window that is counted starts inside the text. *)
Lemma window_starts_inside k :
  (k < window_count text size overlap)%nat ->
  Z.of_nat k * (size - overlap) < len text.
Proof.
  unfold window_count. intros Hk.
  set (stride := size - overlap) in *.
  assert (Hpos : 0 < stride) by (unfold stride; lia).
  pose proof (Z.mul_div_le (len text + stride - 1) stride Hpos) as Hle.
  assert (Z.of_nat k + 1 <= (len text + stride - 1) / stride) by lia.
  nia.
Qed.

End ChunkerWindows.

(** X1: with overlap below size (of any sign), [chunk_text] returns the
    windows [text[k*stride : k*stride + size]] for [k = 0 .. n-1], where the
    stride is [size - overlap] and [n] is the length of the text divided by
    the stride, rounded up. *)
Theorem chunk_text_is_sliding_window text size overlap :
  overlap < size ->
  chunk_text text size overlap =
    Ok (map (window_at text size overlap)
            (seq 0 (window_count text size overlap))) /\
  Z.of_nat (window_count text size overlap) =
    (len text + (size - overlap) - 1) / (size - overlap).
Proof.
  intros Hstride. split; [now apply chunk_text_as_windows|].
  unfold window_count. apply Z2Nat.id. apply Z.div_pos; unfold len; lia.
Qed.

Lemma chunk_text_is_sliding_window_witness :
  chunk_text text2500 1000 200 =
    Ok (map (window_at text2500 1000 200)
            (seq 0 (window_count text2500 1000 200))) /\
  Z.of_nat (window_count text2500 1000 200) =
    (len text2500 + (1000 - 200) - 1) / (1000 - 200).
Proof. apply (chunk_text_is_sliding_window text2500 1000 200). lia. Defined.

(** X2: with a positive size and overlap below size, window [k] has
    [min(size, len(text) - k * stride)] characters: a chunk has exactly
    [size] characters, or the fewer that are left when it reaches the end of
    the text; every chunk is non-empty and at most [size] characters
    long. *)
Theorem chunk_text_chunk_lengths text size overlap :
  0 < size -> overlap < size ->
  exists chunks,
    chunk_text text size overlap = Ok chunks /\
    map len chunks =
      map (fun k => Z.min size (len text - Z.of_nat k * (size - overlap)))
          (seq 0 (window_count text size overlap)) /\
    Forall (fun c => 1 <= len c <= size) chunks.
Proof.
  intros Hsize Hstride. eexists. split; [now apply chunk_text_as_windows|].
  assert (Hlen : forall k,
             (k < window_count text size overlap)%nat ->
             len (window_at text size overlap k)
             = Z.min size (len text - Z.of_nat k * (size - overlap)) /\
             1 <= len (window_at text size overlap k) <= size).
  { intros k Hk.
    pose proof (window_starts_inside text size overlap Hstride k Hk) as Hin.
    unfold window_at.
    assert (0 <= Z.of_nat k * (size - overlap)) by nia.
    rewrite py_slice_length by lia. lia. }
  split.
  - rewrite map_map. apply map_ext_in. intros k Hk.
    apply in_seq in Hk. apply Hlen. lia.
  - apply Forall_forall. intros c Hc.
    apply in_map_iff in Hc as (k & <- & Hk). apply in_seq in Hk.
    apply Hlen. lia.
Qed.

Lemma chunk_text_chunk_lengths_witness :
  exists chunks,
    chunk_text text2500 1000 200 = Ok chunks /\
    map len chunks =
      map (fun k => Z.min 1000 (len text2500 - Z.of_nat k * (1000 - 200)))
          (seq 0 (window_count text2500 1000 200)) /\
    Forall (fun c => 1 <= len c <= 1000) chunks.
Proof. apply (chunk_text_chunk_lengths text2500 1000 200); lia. Defined.

(* ---------------------------------------------------------------------- *)
(** ** Text helpers and [sanitize_input]                                   *)
(* ---------------------------------------------------------------------- *)

Section TextFacts.

Import PyText.

Lemma lstrip_fixed s :
  lstrip s = s <-> (forall c rest, s = c :: rest -> isspace c = false).
Proof.
  split.
  - intros Hfix c rest ->. simpl in Hfix.
    destruct (isspace c) eqn:Hc; [|reflexivity]. exfalso.
    assert (Hlen : forall t, (List.length (lstrip t) <= List.length t)%nat).
    { induction t as [|x t IH]; simpl; [lia|].
      destruct (isspace x); simpl; lia. }
    specialize (Hlen rest). rewrite Hfix in Hlen. simpl in Hlen. lia.
  - intros H. destruct s as [|c rest]; [reflexivity|].
    simpl. now rewrite (H c rest eq_refl).
Qed.

Lemma lstrip_idempotent s : lstrip (lstrip s) = lstrip s.
Proof.
  induction s as [|c s IH]; [reflexivity|]. simpl.
  destruct (isspace c) eqn:Hc; [exact IH|]. simpl. now rewrite Hc.
Qed.

(** What [lstrip] removes is a run of whitespace at the front. *)
Lemma lstrip_split s :
  exists spaces, s = spaces ++ lstrip s /\ forallb isspace spaces = true.
Proof.
  induction s as [|c s (spaces & Hs & Hall)].
  - now exists [].
  - simpl. destruct (isspace c) eqn:Hc.
    + exists (c :: spaces). simpl. rewrite Hc, Hall. split; [|reflexivity].
      now rewrite <- Hs.
    + now exists [].
Qed.

Lemma rstrip_split s :
  exists spaces, s = rstrip s ++ spaces /\ forallb isspace spaces = true.
Proof.
  destruct (lstrip_split (rev s)) as (spaces & Hs & Hall).
  exists (rev spaces). split.
  - unfold rstrip. rewrite <- rev_app_distr, <- Hs. now rewrite rev_involutive.
  - rewrite forallb_forall in *. intros c Hc. apply Hall. now apply in_rev.
Qed.

Lemma rstrip_keeps_front s :
  lstrip s = s -> lstrip (rstrip s) = rstrip s.
Proof.
  intros Hfix. apply lstrip_fixed. intros c rest Heq.
  destruct (rstrip_split s) as (spaces & Hs & _).
  rewrite Heq in Hs. simpl in Hs.
  apply (proj1 (lstrip_fixed s) Hfix c (rest ++ spaces)). exact Hs.
Qed.

Lemma strip_trimmed s : trimmed (strip s).
Proof.
  split.
  - apply lstrip_fixed. unfold strip. apply rstrip_keeps_front.
    apply lstrip_idempotent.
  - intros c init Heq.
    assert (Hrev : lstrip (rev (strip s)) = rev (strip s)).
    { unfold strip, rstrip. rewrite rev_involutive. apply lstrip_idempotent. }
    rewrite Heq, rev_app_distr in Hrev.
    change (rev [c] ++ rev init) with (c :: rev init) in Hrev.
    exact (proj1 (lstrip_fixed (c :: rev init)) Hrev c (rev init) eq_refl).
Qed.

Lemma trimmed_strip s : trimmed s -> strip s = s.
Proof.
  intros [Hfront Hback]. unfold strip.
  rewrite (proj2 (lstrip_fixed s) Hfront). unfold rstrip.
  assert (Hrev : lstrip (rev s) = rev s).
  { apply lstrip_fixed. intros c rest Heq.
    apply (Hback c (rev rest)).
    rewrite <- (rev_involutive s), Heq. reflexivity. }
  rewrite Hrev. apply rev_involutive.
Qed.

(** [strip] keeps a contiguous part of the string. *)
Lemma strip_split s :
  exists front back,
    s = front ++ strip s ++ back /\
    forallb isspace front = true /\ forallb isspace back = true.
Proof.
  destruct (lstrip_split s) as (front & Hs & Hfront).
  destruct (rstrip_split (lstrip s)) as (back & Hl & Hback).
  exists front, back. unfold strip. now rewrite <- Hl, <- Hs.
Qed.

Lemma strip_length s : (List.length (strip s) <= List.length s)%nat.
Proof.
  destruct (strip_split s) as (front & back & Hs & _).
  rewrite Hs at 2. rewrite !length_app. lia.
Qed.

Lemma strip_In s c : In c (strip s) -> In c s.
Proof.
  destruct (strip_split s) as (front & back & Hs & _).
  intros Hc. rewrite Hs. apply in_or_app. right. apply in_or_app. now left.
Qed.

Lemma remove_char_absent c s : ~ In c s -> remove_char c s = s.
Proof.
  intros Hc. unfold remove_char. induction s as [|x s IH]; [reflexivity|].
  simpl. destruct (Ascii.eqb_spec x c) as [->|Hne].
  - exfalso. apply Hc. now left.
  - simpl. f_equal. apply IH. intros H. apply Hc. now right.
Qed.

Lemma slice_to_length {A} (s : list A) n :
  0 <= n -> len (slice_to s n) <= n /\ len (slice_to s n) <= len s.
Proof.
  intros Hn. unfold slice_to.
  change n with (0 + n) at 1 3. rewrite py_slice_length by lia.
  pose proof (len_nonneg s). lia.
Qed.

Lemma slice_to_all {A} (s : list A) n : len s <= n -> slice_to s n = s.
Proof.
  intros Hn. unfold slice_to. pose proof (len_nonneg s).
  change n with (0 + n). rewrite py_slice_window by lia.
  simpl. apply firstn_all2. unfold len in *. lia.
Qed.

Lemma sanitize_input_no_nul text max_length :
  ~ In NUL (sanitize_input text max_length).
Proof.
  unfold sanitize_input. intros Hin. apply strip_In in Hin.
  unfold remove_char in Hin. apply filter_In in Hin as [_ Hne].
  now rewrite Ascii.eqb_refl in Hne.
Qed.

Lemma sanitize_input_length text max_length :
  0 <= max_length -> len (sanitize_input text max_length) <= max_length.
Proof.
  intros Hmax. unfold sanitize_input.
  pose proof (strip_length (remove_char NUL (slice_to text max_length))) as H1.
  pose proof (filter_length_le (fun x => negb (Ascii.eqb x NUL))
                               (slice_to text max_length)) as H2.
  destruct (slice_to_length text max_length Hmax) as [H3 _].
  unfold remove_char, len in *. lia.
Qed.

End TextFacts.

(** X3: the result of [sanitize_input] holds no NUL character, neither
    begins nor ends with whitespace, consists of characters of the input,
    and, for a non-negative [max_length], is at most [max_length] long. *)
Theorem sanitize_input_clean text max_length :
  0 <= max_length ->
  let clean := PyText.sanitize_input text max_length in
  ~ In PyText.NUL clean /\
  trimmed clean /\
  len clean <= max_length /\
  (forall c, In c clean -> In c text).
Proof.
  intros Hmax clean. split; [apply sanitize_input_no_nul|].
  split; [apply strip_trimmed|].
  split; [now apply sanitize_input_length|].
  intros c Hc. unfold clean, PyText.sanitize_input in Hc.
  apply strip_In in Hc. unfold PyText.remove_char in Hc.
  apply filter_In in Hc as [Hc _].
  unfold PyText.slice_to in Hc. change max_length with (0 + max_length) in Hc.
  pose proof (py_slice_window text 0 max_length) as Hw.
  rewrite Hw in Hc by lia. simpl in Hc.
  rewrite <- (firstn_skipn (Z.to_nat max_length) text).
  apply in_or_app. now left.
Qed.

(** X4: for a non-negative [max_length], sanitizing a second time changes
    nothing. *)
Theorem sanitize_input_idempotent text max_length :
  0 <= max_length ->
  PyText.sanitize_input (PyText.sanitize_input text max_length) max_length =
  PyText.sanitize_input text max_length.
Proof.
  intros Hmax.
  set (clean := PyText.sanitize_input text max_length).
  unfold PyText.sanitize_input at 1.
  rewrite slice_to_all by (now apply sanitize_input_length).
  rewrite remove_char_absent by apply sanitize_input_no_nul.
  apply trimmed_strip. apply strip_trimmed.
Qed.

Lemma sanitize_input_clean_witness :
  ~ In PyText.NUL
       (PyText.sanitize_input [" "; "a"; PyText.NUL; "b"; " "]%char 4) /\
  trimmed (PyText.sanitize_input [" "; "a"; PyText.NUL; "b"; " "]%char 4) /\
  len (PyText.sanitize_input [" "; "a"; PyText.NUL; "b"; " "]%char 4) <= 4 /\
  (forall c,
      In c (PyText.sanitize_input [" "; "a"; PyText.NUL; "b"; " "]%char 4) ->
      In c [" "; "a"; PyText.NUL; "b"; " "]%char).
Proof.
  apply (sanitize_input_clean [" "; "a"; PyText.NUL; "b"; " "]%char 4). lia.
Defined.

Lemma sanitize_input_idempotent_witness :
  PyText.sanitize_input
    (PyText.sanitize_input [" "; "a"; PyText.NUL; "b"; " "]%char 4) 4 =
  PyText.sanitize_input [" "; "a"; PyText.NUL; "b"; " "]%char 4.
Proof.
  apply (sanitize_input_idempotent [" "; "a"; PyText.NUL; "b"; " "]%char 4).
  lia.
Defined.

Example sanitize_input_example :
  PyText.sanitize_input [" "; "a"; PyText.NUL; "b"; " "]%char 4
  = ["a"; "b"]%char.
Proof. reflexivity. Qed.

(* ---------------------------------------------------------------------- *)
(** ** More on the document store                                          *)
(* ---------------------------------------------------------------------- *)

Section DocumentStoreMore.

Import RAGService DocumentStore.
Local Open Scope monad_scope.
Local Open Scope string_scope.

Variable self : RAGService.t.


(** No stored document has this identifier and this owner. *)
Lemma no_owned_document document_id user_id (docs : list Document) :
  (forall d, In d docs -> doc_id d = document_id ->
             doc_user_id d <> user_id) ->
  filter (fun d => Nat.eqb (doc_id d) document_id
                   && Nat.eqb (doc_user_id d) user_id) docs = [].
Proof.
  intros Hnone. induction docs as [|d docs IH]; [reflexivity|]. simpl.
  destruct (Nat.eqb_spec (doc_id d) document_id) as [Hid|_]; simpl.
  - destruct (Nat.eqb_spec (doc_user_id d) user_id) as [Hu|_].
    + exfalso. now apply (Hnone d (or_introl eq_refl) Hid).
    + apply IH. intros d' Hd'. apply Hnone. now right.
  - apply IH. intros d' Hd'. apply Hnone. now right.
Qed.

Lemma find_app_fresh {A} (f : A -> bool) l x :
  (forall y, In y l -> f y = false) -> f x = true ->
  find f (l ++ [x]) = Some x.
Proof.
  intros Hl Hx. induction l as [|a l IH]; simpl.
  - now rewrite Hx.
  - rewrite (Hl a (or_introl eq_refl)). apply IH.
    intros y Hy. apply Hl. now right.
Qed.




(** X7: a document identifier that belongs to no document of the user makes
    [get_document], [update_document] and [delete_document] raise
    [ValueError("Document not found")] and leave the world as it was,
    whether the document is absent or owned by someone else. *)
Theorem document_not_found document_id user_id document_data w :
  (forall d, In d (documents (view (session w))) ->
             doc_id d = document_id -> doc_user_id d <> user_id) ->
  get_document self document_id user_id w
    = (Raise (ValueError "Document not found"), w) /\
  update_document self document_id user_id document_data w
    = (Raise (ValueError "Document not found"), w) /\
  delete_document self document_id user_id w
    = (Raise (ValueError "Document not found"), w).
Proof.
  intros Hnone. apply no_owned_document in Hnone.
  unfold get_document, update_document, delete_document.
  repeat split.
  all: erewrite bind_ok by reflexivity; rewrite Hnone;
    erewrite bind_ok by reflexivity; reflexivity.
Qed.

Lemma filter_filter_none {A} (f g : A -> bool) l :
  (forall x, f x = true -> g x = false) ->
  filter f (filter g l) = [].
Proof.
  intros H. induction l as [|x l IH]; [reflexivity|]. simpl.
  destruct (g x) eqn:Hg; [|exact IH]. simpl.
  destruct (f x) eqn:Hf; [|exact IH].
  rewrite (H x Hf) in Hg. discriminate.
Qed.

Lemma filter_filter_same {A} (f g : A -> bool) l :
  (forall x, f x = true -> g x = true) ->
  filter f (filter g l) = filter f l.
Proof.
  intros H. induction l as [|x l IH]; [reflexivity|]. simpl.
  destruct (g x) eqn:Hg; simpl.
  - destruct (f x); [now rewrite IH | exact IH].
  - destruct (f x) eqn:Hf; [|exact IH].
    rewrite (H x Hf) in Hg. discriminate.
Qed.

(** X8: deleting a document of the user commits a state without the
    document row and without any chunk of the document; the chunks of every
    other document are as before, and the document can no longer be read. *)
Theorem delete_document_cascades document_id user_id w document :
  filter (fun d => Nat.eqb (doc_id d) document_id
                   && Nat.eqb (doc_user_id d) user_id)
         (documents (view (session w))) = [document] ->
  exists w',
    delete_document self document_id user_id w = (Ok tt, w') /\
    committed (session w') = view (session w') /\
    (forall d, In d (documents (committed (session w'))) ->
               doc_id d <> document_id) /\
    chunks_of document_id (committed (session w')) = [] /\
    (forall other, other <> document_id ->
                   chunks_of other (committed (session w')) =
                   chunks_of other (view (session w))) /\
    get_document self document_id user_id w'
      = (Raise (ValueError "Document not found"), w').
Proof.
  intros Hsel.
  assert (Hid : doc_id document = document_id).
  { assert (Hmem : In document [document]) by now left.
    rewrite <- Hsel in Hmem. apply filter_In in Hmem as [_ Hb].
    apply andb_prop in Hb as [Hb _]. now apply Nat.eqb_eq in Hb. }
  unfold delete_document.
  erewrite bind_ok by reflexivity. rewrite Hsel.
  erewrite bind_ok by reflexivity. cbv beta iota.
  erewrite bind_ok by reflexivity.
  eexists. split; [reflexivity|]. simpl. rewrite Hid.
  assert (Hgone : forall d,
             In d (filter (fun d' => negb (Nat.eqb (doc_id d') document_id))
                          (documents (view (session w)))) ->
             doc_id d <> document_id).
  { intros d Hd. apply filter_In in Hd as [_ Hd].
    now destruct (Nat.eqb_spec (doc_id d) document_id). }
  split; [reflexivity|]. split; [exact Hgone|]. split.
  { unfold chunks_of. simpl. apply filter_filter_none.
    intros c Hc. now rewrite Hc. }
  split.
  { intros other Hother. unfold chunks_of. simpl. apply filter_filter_same.
    intros c Hc. apply Nat.eqb_eq in Hc.
    destruct (Nat.eqb_spec (chunk_document_id c) document_id); [lia|reflexivity]. }
  unfold get_document.
  erewrite bind_ok by reflexivity. simpl.
  rewrite no_owned_document; [reflexivity|].
  intros d Hd Heq. exfalso. now apply (Hgone d Hd).
Qed.



End DocumentStoreMore.

Section DocumentQueries.

Import RAGService DocumentStore RAGSearch.
Local Open Scope monad_scope.
Local Open Scope string_scope.

Variable engine : OrderBy.
Variable self : RAGService.t.

Lemma StronglySorted_skipn {A} (R : A -> A -> Prop) n l :
  StronglySorted R l -> StronglySorted R (skipn n l).
Proof.
  intros Hl. revert n. induction Hl as [|x l Hl IH Hall]; intros n.
  - rewrite skipn_nil. constructor.
  - destruct n as [|n]; simpl; [now constructor | apply IH].
Qed.

Lemma StronglySorted_map {A B} (f : A -> B) (R : B -> B -> Prop) l :
  StronglySorted (fun a b => R (f a) (f b)) l -> StronglySorted R (map f l).
Proof.
  induction 1 as [|x l Hl IH Hall]; simpl; constructor.
  - exact IH.
  - apply Forall_map. exact Hall.
Qed.

Lemma StronglySorted_impl_in {A} (R R' : A -> A -> Prop) l :
  (forall a b, In a l -> In b l -> R a b -> R' a b) ->
  StronglySorted R l -> StronglySorted R' l.
Proof.
  intros Himpl Hl. induction Hl as [|x l Hl IH Hall]; constructor.
  - apply IH. intros a b Ha Hb. apply Himpl; now right.
  - apply Forall_forall. intros y Hy.
    apply Himpl; [now left | now right |].
    rewrite Forall_forall in Hall. now apply Hall.
Qed.

Lemma In_skipn {A} n (l : list A) x : In x (skipn n l) -> In x l.
Proof.
  intros H. rewrite <- (firstn_skipn n l). apply in_or_app. now right.
Qed.

Lemma take_length {A} n (l : list A) : 0 <= n -> len (take n l) <= n.
Proof.
  intros Hn. unfold take, len. rewrite length_firstn. lia.
Qed.

(** X11: for a limit and an offset that are not negative, the listing of a
    user's documents changes nothing and returns documents of that user
    only, each of them stored, newest first, and at most [limit] of them. *)
Theorem get_user_documents_listing user_id limit offset w :
  0 <= limit -> 0 <= offset ->
  exists listed,
    @get_user_documents engine self user_id limit offset w = (Ok listed, w) /\
    len listed <= limit /\
    Forall (fun r => dr_user_id r = user_id /\
                     exists d, In d (documents (view (session w))) /\
                               r = document_response d) listed /\
    StronglySorted (fun r1 r2 => (dr_created_at r2 <= dr_created_at r1)%nat)
                   listed.
Proof.
  intros Hlimit Hoffset.
  unfold get_user_documents, Storage.offset, Storage.limit.
  destruct (Z.ltb_spec offset 0) as [|_]; [lia|].
  destruct (Z.ltb_spec limit 0) as [|_]; [lia|].
  eexists. split; [reflexivity|]. split; [|split].
  - unfold len. rewrite length_map. now apply take_length.
  - apply Forall_forall. intros r Hr.
    apply in_map_iff in Hr as (d & <- & Hd).
    apply In_take, In_skipn in Hd.
    eapply Permutation_in in Hd;
      [|apply Permutation_sym, order_by_permutation].
    apply filter_In in Hd as [Hd Hu]. apply Nat.eqb_eq in Hu.
    split; [exact Hu | now exists d].
  - apply StronglySorted_map. unfold take.
    apply StronglySorted_firstn, StronglySorted_skipn.
    eapply StronglySorted_impl; [|apply order_by_sorted].
    intros a b. unfold newest_first, key_le. simpl.
    intros H. apply Qopp_le_compat in H. rewrite !Qopp_involutive in H.
    rewrite <- Zle_Qle in H. lia.
Qed.

(** A negative limit or offset is refused by the engine: the listing
    raises and changes nothing. *)
Lemma get_user_documents_refused user_id limit offset w :
  limit < 0 \/ offset < 0 ->
  exists e,
    @get_user_documents engine self user_id limit offset w = (Raise e, w).
Proof.
  intros Hneg.
  unfold get_user_documents, Storage.offset, Storage.limit.
  destruct (Z.ltb_spec offset 0) as [|Hoffset]; [eexists; reflexivity|].
  destruct (Z.ltb_spec limit 0) as [|Hlimit]; [eexists; reflexivity|].
  lia.
Qed.

(** A row of the join of the search statement. *)
Lemma document_scope_row user_id tables dc d :
  In (dc, d) (document_scope user_id tables) ->
  In dc (document_chunks tables) /\ In d (documents tables) /\
  chunk_document_id dc = doc_id d /\ doc_user_id d = user_id /\
  exists e, chunk_embedding dc = Some e.
Proof.
  intros Hrow. unfold document_scope in Hrow.
  apply in_flat_map in Hrow as (dc' & Hdc & Hrow).
  destruct (chunk_embedding dc') as [e|] eqn:He; [|contradiction].
  apply in_map_iff in Hrow as (d' & [= <- <-] & Hd).
  apply filter_In in Hd as [Hd Hb]. apply andb_prop in Hb as [Hb1 Hb2].
  apply Nat.eqb_eq in Hb1, Hb2.
  repeat split; try assumption. now exists e.
Qed.

Lemma nearest_rows_in_scope p q n user_id tables row :
  In row (take n (order_by (chunk_distance p q)
                           (document_scope user_id tables))) ->
  In row (document_scope user_id tables).
Proof.
  intros Hrow. apply In_take in Hrow.
  eapply Permutation_in; [apply Permutation_sym, order_by_permutation|].
  exact Hrow.
Qed.

Lemma nearest_rows_hits p user_id q n tables :
  Forall (hit_of p user_id q tables)
         (map (hit p q)
              (take n (order_by (chunk_distance p q)
                                (document_scope user_id tables)))).
Proof.
  apply Forall_forall. intros h Hh.
  apply in_map_iff in Hh as ([dc d] & <- & Hrow).
  apply nearest_rows_in_scope, document_scope_row in Hrow
    as (Hdc & Hd & Hjoin & Howner & e & He).
  exists dc, d, e. simpl. rewrite He. repeat split; assumption.
Qed.

Lemma nearest_rows_sorted p user_id q n tables :
  StronglySorted (fun h1 h2 => (hit_similarity h2 <= hit_similarity h1)%Q)
                 (map (hit p q)
                      (take n (order_by (chunk_distance p q)
                                        (document_scope user_id tables)))).
Proof.
  apply StronglySorted_map.
  eapply StronglySorted_impl_in;
    [|unfold take; apply StronglySorted_firstn, order_by_sorted].
  intros [dc1 d1] [dc2 d2] H1 H2.
  apply nearest_rows_in_scope, document_scope_row in H1
    as (_ & _ & _ & _ & e1 & He1).
  apply nearest_rows_in_scope, document_scope_row in H2
    as (_ & _ & _ & _ & e2 & He2).
  unfold key_le, chunk_distance, hit_similarity, hit. simpl.
  rewrite He1, He2. intros H.
  apply Qplus_le_r. now apply Qopp_le_compat.
Qed.

(** X12: a document search over stored vectors of the dimension of their
    column, for a limit that is not negative and a query embedding that is
    generated with that dimension or not at all: the search returns and
    stores nothing.  When the query embedding is generated it returns at
    most [limit] hits, each the join of a stored chunk that has an
    embedding with its document, owned by the user, in order of descending
    similarity; when the embedding call fails it returns no hit. *)
Theorem search_documents_hits user_id query n w :
  0 <= n ->
  vectors_fit (view (session w)) = true ->
  answer_fits (get_embeddings (providers w) (calls w)
                 (EMBEDDING_MODEL (settings w))
                 (list_ascii_of_string query)) = true ->
  exists hits w',
    @search_documents engine self user_id query n w = (Ok hits, w') /\
    session w' = session w /\
    len hits <= n /\
    StronglySorted (fun h1 h2 => (hit_similarity h2 <= hit_similarity h1)%Q)
                   hits /\
    match get_embeddings (providers w) (calls w) (EMBEDDING_MODEL (settings w))
                         (list_ascii_of_string query) with
    | Answer q => Forall (hit_of (providers w) user_id q (view (session w)))
                         hits
    | Failure _ => hits = []
    end.
Proof.
  intros Hn Hfit Hanswer.
  destruct (search_documents_spec engine self user_id query n w
                                  Hn Hfit Hanswer)
    as (hits & w' & Hrun & Hafter & Hhits).
  exists hits, w'. split; [exact Hrun|].
  split; [apply Hafter|].
  destruct (get_embeddings (providers w) (calls w)
                           (EMBEDDING_MODEL (settings w))
                           (list_ascii_of_string query)) as [q|e];
    subst hits.
  - split; [|split].
    + unfold len. rewrite length_map. now apply take_length.
    + apply nearest_rows_sorted.
    + apply nearest_rows_hits.
  - split; [exact Hn|]. split; [constructor | reflexivity].
Qed.

(** The statement of a document search is refused, and the search raises,
    when the limit is negative or a chunk within reach holds a vector of
    another dimension than the query embedding. *)
Lemma search_documents_refused user_id query n w q :
  get_embeddings (providers w) (calls w) (EMBEDDING_MODEL (settings w))
                 (list_ascii_of_string query) = Answer q ->
  n < 0 \/
  (0 < n /\
   forallb (fun row : DocumentChunk * Document =>
              comparable q (chunk_embedding (fst row)))
           (document_scope user_id (view (session w))) = false) ->
  exists e w',
    @search_documents engine self user_id query n w = (Raise e, w').
Proof.
  intros Hanswer Hbad.
  unfold search_documents, MemoryService.query_embedding_of,
    AIClient.generate_embedding, try_except, bind, get, external,
    ask_external, ret, log, lift.
  simpl. rewrite Hanswer. simpl.
  unfold document_query, nearest.
  destruct (negb (vector_literal_ok q)); [eexists _, _; reflexivity|].
  destruct Hbad as [Hneg | [Hpos Hrows]].
  - destruct (Z.ltb_spec n 0) as [_|]; [|lia]. eexists _, _; reflexivity.
  - destruct (Z.ltb_spec n 0) as [|_]; [lia|].
    destruct (Z.eqb_spec n 0) as [|_]; [lia|].
    rewrite Hrows. eexists _, _; reflexivity.
Qed.

Lemma join_not_empty sep part parts :
  part <> "" -> join sep (part :: parts) <> "".
Proof.
  intros Hpart. unfold join. simpl.
  destruct part as [|c part]; [congruence|].
  destruct parts; simpl; discriminate.
Qed.

(** X13: for a number of chunks that is not negative, over stored vectors
    of the dimension of their column and with a query embedding of that
    dimension or none, the search returns, and the RAG context of the query
    is the empty string exactly when the search has no hit; the context is
    made after the search and changes nothing more. *)
Theorem get_rag_context_empty_iff_no_hit user_id query max_chunks w :
  0 <= max_chunks ->
  vectors_fit (view (session w)) = true ->
  answer_fits (get_embeddings (providers w) (calls w)
                 (EMBEDDING_MODEL (settings w))
                 (list_ascii_of_string query)) = true ->
  exists hits context w',
    @search_documents engine self user_id query max_chunks w = (Ok hits, w') /\
    @get_rag_context_for_query engine self user_id query max_chunks w
      = (Ok context, w') /\
    (context = "" <-> hits = []).
Proof.
  intros Hn Hfit Hanswer.
  destruct (search_documents_spec engine self user_id query max_chunks w
                                  Hn Hfit Hanswer)
    as (hits & w' & Hrun & _ & _).
  unfold get_rag_context_for_query.
  unfold bind. rewrite Hrun.
  destruct hits as [|h hits].
  - exists [], "", w'. repeat split; reflexivity.
  - eexists (h :: hits), _, w'. split; [reflexivity|].
    split; [reflexivity|]. split; [|discriminate].
    intros H. exfalso. revert H. simpl map. apply join_not_empty.
    discriminate.
Qed.

End DocumentQueries.

(* ---------------------------------------------------------------------- *)
(** ** The document store on concrete worlds                               *)
(* ---------------------------------------------------------------------- *)

Section DocumentStoreRuns.

Import RAGService DocumentStore RAGSearch Scenario Stored.
Local Open Scope char_scope.



Lemma document_not_found_witness :
  get_document rag_service 100%nat 8%nat library
    = (Raise (ValueError "Document not found"), library) /\
  update_document rag_service 100%nat 8%nat
                  (mkDocumentUpdate (Some "mine"%string) None None) library
    = (Raise (ValueError "Document not found"), library) /\
  delete_document rag_service 100%nat 8%nat library
    = (Raise (ValueError "Document not found"), library).
Proof.
  apply (document_not_found rag_service 100%nat 8%nat
           (mkDocumentUpdate (Some "mine"%string) None None) library).
  intros d Hd _. vm_compute in Hd. destruct Hd as [<-|[]]. discriminate.
Defined.

Lemma delete_document_cascades_witness :
  exists w',
    delete_document rag_service 100%nat 7%nat library = (Ok tt, w') /\
    committed (session w') = view (session w') /\
    (forall d, In d (documents (committed (session w'))) ->
               doc_id d <> 100%nat) /\
    chunks_of 100%nat (committed (session w')) = [] /\
    (forall other, other <> 100%nat ->
                   chunks_of other (committed (session w')) =
                   chunks_of other (view (session library))) /\
    get_document rag_service 100%nat 7%nat w'
      = (Raise (ValueError "Document not found"), w').
Proof.
  apply (delete_document_cascades rag_service 100%nat 7%nat library letters).
  reflexivity.
Defined.



Lemma get_user_documents_listing_witness :
  exists listed,
    @get_user_documents TableOrder rag_service 7%nat 10 0 library
      = (Ok listed, library) /\
    len listed <= 10 /\
    Forall (fun r => dr_user_id r = 7%nat /\
                     exists d, In d (documents (view (session library))) /\
                               r = document_response d) listed /\
    StronglySorted (fun r1 r2 => (dr_created_at r2 <= dr_created_at r1)%nat)
                   listed.
Proof.
  apply (get_user_documents_listing TableOrder rag_service 7%nat 10 0
                                    library); lia.
Defined.

Lemma search_documents_hits_witness :
  exists hits w',
    @search_documents TableOrder rag_service 7%nat "a"%string 5 library
      = (Ok hits, w') /\
    session w' = session library /\
    len hits <= 5 /\
    StronglySorted (fun h1 h2 => (hit_similarity h2 <= hit_similarity h1)%Q)
                   hits /\
    match get_embeddings (providers library) (calls library)
                         (EMBEDDING_MODEL (settings library))
                         (list_ascii_of_string "a"%string) with
    | Answer q => Forall (hit_of (providers library) 7%nat q
                                 (view (session library))) hits
    | Failure _ => hits = []
    end.
Proof.
  apply (search_documents_hits TableOrder rag_service 7%nat "a"%string 5 library).
  - lia.
  - vm_compute. reflexivity.
  - vm_compute. reflexivity.
Defined.

Lemma get_rag_context_empty_iff_no_hit_witness :
  exists hits context w',
    @search_documents TableOrder rag_service 7%nat "a"%string 5 library
      = (Ok hits, w') /\
    @get_rag_context_for_query TableOrder rag_service 7%nat "a"%string 5
                               library
      = (Ok context, w') /\
    (context = ""%string <-> hits = []).
Proof.
  apply (get_rag_context_empty_iff_no_hit TableOrder rag_service 7%nat
                                          "a"%string 5 library).
  - lia.
  - vm_compute. reflexivity.
  - vm_compute. reflexivity.
Defined.

(** Vectors of another dimension than the column: the ingestion makes
    its embedding calls, the commit is refused and nothing is stored; a
    search over stored vectors of 1536 numbers raises. *)
Example create_document_refuses_short_vectors :
  exists w',
    create_document rag_service abc 1 0
                    (world_of short_vectors vertex_only no_tables)
    = (Raise (DatabaseError "expected 1536 dimensions"), w') /\
    session w' = mkSession no_tables no_tables /\
    calls w' = 3%nat.
Proof. eexists. split; [|split]; vm_compute; reflexivity. Qed.

Example search_documents_refuses_other_dimension :
  exists w',
    @search_documents TableOrder rag_service 7%nat "a"%string 5
                      (world_of short_vectors vertex_only
                                (view (session library)))
    = (Raise (DatabaseError "different vector dimensions"), w').
Proof. eexists. vm_compute. reflexivity. Qed.

End DocumentStoreRuns.

(* ---------------------------------------------------------------------- *)
(** ** More on the memory store                                            *)
(* ---------------------------------------------------------------------- *)

Section MemoryStoreMore.

Import MemoryService MemoryStore.
Local Open Scope monad_scope.
Local Open Scope string_scope.

Variable self : MemoryService.t.

(** A score that passes the validation keeps passing it at the scale of
    its column, and fits the column. *)
Lemma round_2_unit_interval q :
  in_unit_interval q = true ->
  in_unit_interval (round_2 q) = true /\ fits_decimal_3_2 q = true.
Proof.
  unfold in_unit_interval. intros H. apply andb_prop in H as [H0 H1].
  assert (Hcents : 0 <= Qfloor (q * 100 + (1 # 2)) <= 100).
  { apply Qle_bool_iff in H0, H1. split.
    - change 0 with (Qfloor (1 # 2)). apply Qfloor_resp_le.
      rewrite <- (Qplus_0_l (1 # 2)) at 1. apply Qplus_le_l.
      apply Qmult_le_0_compat; [exact H0 | discriminate].
    - change 100 with (Qfloor (1 * 100 + (1 # 2))). apply Qfloor_resp_le.
      apply Qplus_le_l. apply Qmult_le_compat_r; [exact H1 | discriminate]. }
  unfold fits_decimal_3_2, round_2. rewrite H0.
  remember (Qfloor (q * 100 + (1 # 2))) as cents eqn:Ecents. clear Ecents.
  split; [apply andb_true_intro; split|].
  - apply Qle_bool_iff. unfold Qle. simpl. lia.
  - apply Qle_bool_iff. unfold Qle. simpl. lia.
  - apply Z.ltb_lt. simpl. lia.
Qed.

Lemma insert_refusal_none m t :
  fits_column (mem_embedding m) = true ->
  fits_decimal_3_2 (mem_importance_score m) = true ->
  (forall m', In m' (memories t) -> mem_id m' <> mem_id m) ->
  (forall chat, mem_chat_id m = Some chat -> chat_exists chat t = true) ->
  insert_refusal m t = None.
Proof.
  intros Hvector Hscore Hfresh Hchat. unfold insert_refusal.
  rewrite Hvector, Hscore. simpl.
  assert (Hnone : existsb (fun m' => Nat.eqb (mem_id m') (mem_id m))
                          (memories t) = false).
  { destruct (existsb _ _) eqn:Hex; [|reflexivity].
    apply existsb_exists in Hex as (m' & Hm' & Heq).
    apply Nat.eqb_eq in Heq. now destruct (Hfresh m' Hm'). }
  rewrite Hnone.
  destruct (mem_chat_id m) as [chat|]; [|reflexivity].
  now rewrite (Hchat chat eq_refl).
Qed.

(** The embedding call of a memory: it is made once, its failure is logged
    and swallowed. *)
Lemma memory_embedding_step content w :
  exists w1,
    try_except
      (e <- AIClient.generate_embedding (MemoryService.ai_client self)
              (list_ascii_of_string content) ;;
       ret (Some e))
      (fun e => log WARNING "Failed to generate embedding" None (Some e) ;;
                ret None) w
    = (Ok (RAGService.stored_embedding
             (get_embeddings (providers w) (calls w)
                             (EMBEDDING_MODEL (settings w))
                             (list_ascii_of_string content))), w1) /\
    session w1 = session w /\ uuid_supply w1 = uuid_supply w /\
    providers w1 = providers w /\ settings w1 = settings w /\
    calls w1 = S (calls w) /\
    clock w1 = (clock w + latency (providers w) (calls w))%nat /\
    trace w1 = (trace w ++ [GetEmbeddings (EMBEDDING_MODEL (settings w))
                                          (list_ascii_of_string content)])%list.
Proof.
  unfold try_except, AIClient.generate_embedding, bind, get, external,
    ask_external, ret, log.
  simpl.
  destruct (get_embeddings (providers w) (calls w)
                           (EMBEDDING_MODEL (settings w))
                           (list_ascii_of_string content)) as [v|e];
    simpl; eexists; (split; [reflexivity|]); simpl; repeat split.
Qed.

(** The creation of a memory that the store takes: its fields pass the
    validation of [MemoryCreate], the embedding of its content, if one is
    answered, has the dimension of the column, its identifier is not in use
    and its chat, if it has one, exists. *)
Lemma create_memory_spec memory_data w :
  valid_memory_fields (mc_memory_type memory_data)
                      (mc_importance_score memory_data) = true ->
  answer_fits (get_embeddings (providers w) (calls w)
                 (EMBEDDING_MODEL (settings w))
                 (list_ascii_of_string (mc_content memory_data))) = true ->
  (forall m, In m (memories (view (session w))) ->
             mem_id m <> uuid_supply w) ->
  (forall chat, mc_chat_id memory_data = Some chat ->
                chat_exists chat (view (session w)) = true) ->
  exists w',
    create_memory self memory_data w
      = (Ok (memory_fields (new_memory memory_data w)), w') /\
    view (session w') = committed (session w') /\
    documents (view (session w')) = documents (view (session w)) /\
    document_chunks (view (session w')) = document_chunks (view (session w)) /\
    memories (view (session w')) =
      (memories (view (session w)) ++ [new_memory memory_data w])%list /\
    messages (view (session w')) = messages (view (session w)) /\
    chats (view (session w')) = chats (view (session w)) /\
    providers w' = providers w /\ settings w' = settings w /\
    calls w' = S (calls w) /\ uuid_supply w' = S (uuid_supply w) /\
    trace w' =
      (trace w ++ [GetEmbeddings (EMBEDDING_MODEL (settings w))
                     (list_ascii_of_string (mc_content memory_data))])%list.
Proof.
  intros Hvalid Hanswer Hfresh Hchat.
  apply andb_prop in Hvalid as [Htype Hscore].
  destruct (round_2_unit_interval _ Hscore) as [Hrounded Hdecimal].
  destruct (memory_embedding_step (mc_content memory_data) w)
    as (w1 & Hstep & S1 & U1 & P1 & T1 & N1 & C1 & E1).
  unfold create_memory.
  erewrite bind_ok by exact Hstep.
  do 4 (erewrite bind_ok by reflexivity).
  cbv zeta.
  rewrite insert_refusal_none; cbn [mem_embedding mem_importance_score mem_id
                                    mem_chat_id view session];
    [|exact Hanswer | exact Hdecimal
     |rewrite S1, U1; exact Hfresh | rewrite S1; exact Hchat].
  erewrite bind_ok by reflexivity.
  unfold db_commit_checked.
  erewrite bind_ok by reflexivity.
  unfold db_refresh_memory, bind, get.
  cbn [db_add_memory db_commit with_view with_session view session memories
       snd fst uuid4 utcnow mem_id as_stored].
  rewrite find_app_fresh;
    [|intros m Hm; apply Nat.eqb_neq; rewrite S1, U1 in *; now apply Hfresh
     |apply Nat.eqb_refl].
  unfold ret, lift, memory_response, as_stored.
  cbn [mem_memory_type mem_importance_score clock].
  unfold valid_memory_fields. rewrite Htype, Hrounded.
  cbn [andb].
  unfold new_memory. rewrite U1, C1, S1, P1, T1, N1.
  eexists. split; [reflexivity|].
  cbn. rewrite E1. repeat split; reflexivity.
Qed.


Lemma no_owned_memory memory_id user_id (rows : list Memory) :
  (forall m, In m rows -> mem_id m = memory_id -> mem_user_id m <> user_id) ->
  filter (fun m => Nat.eqb (mem_id m) memory_id
                   && Nat.eqb (mem_user_id m) user_id) rows = [].
Proof.
  intros Hnone. induction rows as [|m rows IH]; [reflexivity|]. simpl.
  destruct (Nat.eqb_spec (mem_id m) memory_id) as [Hid|_]; simpl.
  - destruct (Nat.eqb_spec (mem_user_id m) user_id) as [Hu|_].
    + exfalso. now apply (Hnone m (or_introl eq_refl) Hid).
    + apply IH. intros m' Hm'. apply Hnone. now right.
  - apply IH. intros m' Hm'. apply Hnone. now right.
Qed.


(** X15: a memory identifier that belongs to no memory of the user makes
    [get_memory], [update_memory] and [delete_memory] raise
    [ValueError("Memory not found")] and leave the world as it was. *)
Theorem memory_not_found memory_id user_id memory_data w :
  (forall m, In m (memories (view (session w))) ->
             mem_id m = memory_id -> mem_user_id m <> user_id) ->
  get_memory self memory_id user_id w
    = (Raise (ValueError "Memory not found"), w) /\
  update_memory self memory_id user_id memory_data w
    = (Raise (ValueError "Memory not found"), w) /\
  delete_memory self memory_id user_id w
    = (Raise (ValueError "Memory not found"), w).
Proof.
  intros Hnone. apply no_owned_memory in Hnone.
  unfold get_memory, update_memory, delete_memory.
  repeat split.
  all: erewrite bind_ok by reflexivity; rewrite Hnone;
    erewrite bind_ok by reflexivity; reflexivity.
Qed.




(** A score outside the unit interval is not refused by [MemoryUpdate]:
    when it fits the column it is committed, and the validation of the
    response then raises. *)
Example update_memory_score_out_of_range :
  exists w',
    update_memory Scenario.memory_service 1%nat 7%nat
                  (mkMemoryUpdate None (Some 2%Q) None) Scenario.quiet
    = (Raise (ValueError "validation error for MemoryResponse"), w') /\
    map mem_importance_score (memories (committed (session w')))
    = [(200 # 100)%Q; (9 # 10)%Q].
Proof. eexists. split; vm_compute; reflexivity. Qed.

(** X17: deleting a memory of the user commits a state without any row of
    that identifier; the other memories stay, in order, and the memory can
    no longer be read. *)
Theorem delete_memory_removes memory_id user_id w memory :
  filter (fun m => Nat.eqb (mem_id m) memory_id
                   && Nat.eqb (mem_user_id m) user_id)
         (memories (view (session w))) = [memory] ->
  exists w',
    delete_memory self memory_id user_id w = (Ok tt, w') /\
    memories (committed (session w')) =
      filter (fun m => negb (Nat.eqb (mem_id m) memory_id))
             (memories (view (session w))) /\
    get_memory self memory_id user_id w'
      = (Raise (ValueError "Memory not found"), w').
Proof.
  intros Hsel.
  assert (Hid : mem_id memory = memory_id).
  { assert (Hmem : In memory [memory]) by now left.
    rewrite <- Hsel in Hmem. apply filter_In in Hmem as [_ Hb].
    apply andb_prop in Hb as [Hb _]. now apply Nat.eqb_eq in Hb. }
  unfold delete_memory.
  erewrite bind_ok by reflexivity. rewrite Hsel.
  erewrite bind_ok by reflexivity. cbv beta iota.
  erewrite bind_ok by reflexivity.
  eexists. split; [reflexivity|]. simpl. rewrite Hid.
  split; [reflexivity|].
  unfold get_memory. erewrite bind_ok by reflexivity. simpl.
  rewrite no_owned_memory; [reflexivity|].
  intros m Hm Heq. apply filter_In in Hm as [_ Hm].
  rewrite Heq, Nat.eqb_refl in Hm. discriminate.
Qed.

End MemoryStoreMore.

Section MemoryExtraction.

Import MemoryService MemoryStore.
Local Open Scope monad_scope.
Local Open Scope string_scope.

Lemma py_slice_In {A} (s : list A) start stop x :
  In x (py_slice s start stop) -> In x s.
Proof.
  unfold py_slice.
  destruct (adjust_index start (len s) <? adjust_index stop (len s))%Z;
    [|contradiction].
  intros H.
  rewrite <- (firstn_skipn (Z.to_nat (adjust_index start (len s))) s).
  apply in_or_app. right.
  rewrite <- (firstn_skipn
                (Z.to_nat (adjust_index stop (len s)
                           - adjust_index start (len s)))
                (skipn (Z.to_nat (adjust_index start (len s))) s)).
  apply in_or_app. now left.
Qed.

Lemma parse_line_facts line memory_type content :
  parse_line line = Some (memory_type, content) ->
  10 < len content /\
  trimmed content /\
  In memory_type ["user_fact"; "preference"; "chat"] /\
  (forall c, In c content -> In c line).
Proof.
  unfold parse_line.
  destruct (PyText.strip line) as [|c0 stripped] eqn:Hstrip; [discriminate|].
  set (l := c0 :: stripped) in *.
  assert (Hsub : forall c, In c l -> In c line).
  { intros c Hc. apply strip_In. now rewrite Hstrip. }
  assert (Hl : trimmed l).
  { rewrite <- Hstrip. apply strip_trimmed. }
  assert (Hpart : forall k c,
             In c (PyText.strip (PyText.slice_from l k)) -> In c line).
  { intros k c Hc. apply Hsub. apply strip_In in Hc.
    unfold PyText.slice_from in Hc. eapply py_slice_In. exact Hc. }
  destruct (PyText.startswith l (list_ascii_of_string "[FACT]"));
    [|destruct (PyText.startswith l (list_ascii_of_string "[PREFERENCE]"));
      [|destruct (PyText.startswith l (list_ascii_of_string "[CONTEXT]"))]].
  all: match goal with
       | |- match ?content with _ => _ end = _ -> _ =>
           destruct content as [|c1 rest] eqn:Hcontent; [discriminate|];
           destruct (Z.ltb_spec 10 (len (c1 :: rest))); [|discriminate];
           intros [= <- <-]
       end.
  all: split; [assumption|]; split; [|split].
  all: try (simpl; tauto).
  all: try (rewrite <- Hcontent; apply strip_trimmed).
  all: try exact Hl.
  all: try (intros c Hc; rewrite <- Hcontent in Hc; exact (Hpart _ c Hc)).
  all: try (intros c Hc; apply Hsub; exact Hc).
  all: try (intros c Hc; apply Hsub; rewrite Hcontent; exact Hc).
Qed.

(** X18: a line of the model's answer that gives a memory gives one of the
    three memory types and a content of more than 10 characters that neither
    begins nor ends with whitespace and is made of characters of the line. *)
Theorem parse_line_content line memory_type content :
  parse_line line = Some (memory_type, content) ->
  10 < len content /\
  trimmed content /\
  In memory_type ["user_fact"; "preference"; "chat"] /\
  (forall c, In c content -> In c line).
Proof. apply parse_line_facts. Qed.

Lemma parse_line_content_witness :
  10 < len (list_ascii_of_string "likes green tea") /\
  trimmed (list_ascii_of_string "likes green tea") /\
  In "user_fact" ["user_fact"; "preference"; "chat"] /\
  (forall c, In c (list_ascii_of_string "likes green tea") ->
             In c (list_ascii_of_string "  [FACT] likes green tea ")).
Proof.
  apply (parse_line_content
           (list_ascii_of_string "  [FACT] likes green tea ")
           "user_fact" (list_ascii_of_string "likes green tea")).
  reflexivity.
Defined.

Lemma length_string_of_list_ascii l :
  String.length (string_of_list_ascii l) = List.length l.
Proof. induction l as [|c l IH]; simpl; [reflexivity | now rewrite IH]. Qed.

Variable self : MemoryService.t.

Lemma tables_ext (t t' : Tables) :
  documents t = documents t' -> document_chunks t = document_chunks t' ->
  memories t = memories t' -> messages t = messages t' ->
  chats t = chats t' -> t = t'.
Proof. destruct t, t'. simpl. intros. now subst. Qed.

(** The loop creates one memory per parsed line, after the memories
    already stored, and touches no other table.  The chat exists, the
    identifiers in use are below those to come, and the embedding model
    answers in the dimension of the column. *)
Lemma extract_lines_spec user_id chat_id lines :
  forall extracted w,
  embeds_in_dimension (providers w) ->
  chat_exists chat_id (view (session w)) = true ->
  (forall m, In m (memories (view (session w))) ->
             (mem_id m < uuid_supply w)%nat) ->
  exists w' rows,
    extract_lines self user_id chat_id lines extracted w
      = (Ok (extracted ++ map memory_fields rows)%list, w') /\
    memories (view (session w')) =
      (memories (view (session w)) ++ rows)%list /\
    documents (view (session w')) = documents (view (session w)) /\
    document_chunks (view (session w')) = document_chunks (view (session w)) /\
    messages (view (session w')) = messages (view (session w)) /\
    chats (view (session w')) = chats (view (session w)) /\
    committed (session w') =
      match rows with
      | [] => committed (session w)
      | _ => view (session w')
      end /\
    map (fun row => (mem_memory_type row, mem_content row)) rows =
      map (fun parsed => (fst parsed, string_of_list_ascii (snd parsed)))
          (parsed_lines lines) /\
    Forall (fun row =>
              mem_user_id row = user_id /\ mem_chat_id row = Some chat_id /\
              (mem_importance_score row == 7 # 10)%Q /\
              mem_metadata row = [("auto_extracted", JBool true)] /\
              (10 < String.length (mem_content row))%nat /\
              In (mem_memory_type row) ["user_fact"; "preference"; "chat"])
           rows.
Proof.
  induction lines as [|line lines IH]; intros extracted w Hp Hchat Hids.
  - exists w, []. simpl. rewrite !app_nil_r.
    repeat split; constructor.
  - simpl extract_lines. unfold parsed_lines. simpl flat_map.
    fold (parsed_lines lines).
    destruct (parse_line line) as [[memory_type content]|] eqn:Hparse.
    + destruct (parse_line_facts _ _ _ Hparse) as (Hlong & _ & Htype & _).
      set (memory_data :=
             mkMemoryCreate (string_of_list_ascii content) memory_type
                            (7 # 10) [("auto_extracted", JBool true)] user_id
                            (Some chat_id)).
      destruct (create_memory_spec self memory_data w)
        as (w1 & Hrun & V1 & D1 & C1 & M1 & G1 & H1 & P1 & _ & _ & U1 & _).
      { simpl in Htype.
        destruct Htype as [<-|[<-|[<-|[]]]]; reflexivity. }
      { now apply embeds_answer_fits. }
      { intros m Hm. apply Hids in Hm. lia. }
      { intros chat [= <-]. exact Hchat. }
      destruct (IH (extracted ++ [memory_fields (new_memory memory_data w)])%list
                   w1)
        as (w' & rows & Hrest & M2 & D2 & C2 & G2 & H2 & V2 & Hrows & Hall).
      { now rewrite P1. }
      { unfold chat_exists in *. now rewrite H1. }
      { intros m Hm. rewrite M1 in Hm. rewrite U1.
        apply in_app_or in Hm as [Hm|[<-|[]]]; [apply Hids in Hm; lia|].
        simpl. lia. }
      exists w', (new_memory memory_data w :: rows).
      split.
      { erewrite bind_ok by exact Hrun. rewrite Hrest.
        now rewrite <- app_assoc. }
      rewrite M2, M1, D2, D1, C2, C1, G2, G1, H2, H1, <- app_assoc.
      do 5 (split; [reflexivity|]).
      split.
      { rewrite V2. destruct rows as [|row rows]; [|reflexivity].
        rewrite <- V1. simpl in M2. rewrite app_nil_r in M2.
        now apply tables_ext. }
      split.
      { simpl. now rewrite Hrows. }
      constructor; [|exact Hall].
      simpl. do 2 (split; [reflexivity|]). split; [reflexivity|].
      split; [reflexivity|]. split; [|exact Htype].
      rewrite length_string_of_list_ascii. unfold len in Hlong. lia.
    + simpl. now apply IH.
Qed.

(** The call that the extraction makes to the model in world [w]. *)
Lemma extraction_call (client : AIClient.t) prompt w :
  exists w1,
    session w1 = session w /\ uuid_supply w1 = uuid_supply w /\
    providers w1 = providers w /\
    (AIClient.chat_completion client "gemini-2.5-flash"
       [mkChatMessage "user" prompt] (3 # 10) 500 false None false w
     = (match generate_content (providers w) (calls w)
                (mkGenerativeModel "gemini-2.5-flash" None)
                [mkGeminiMessage "user" [prompt]]
                (mkGenerationConfig (3 # 10) 500) with
        | Answer r =>
            Ok (AIClient.Unified
                  (AIClient.mkCompletion "gemini-gemini-2.5-flash"
                     "gemini-2.5-flash" (mkChatMessage "assistant" (gr_text r))
                     (match gr_total_token_count r with
                      | Some n => n
                      | None => 0
                      end) "stop"
                     [("candidates", JInt (match gr_candidates r with
                                           | Some n => n
                                           | None => 1
                                           end))]))
        | Failure e => Raise e
        end, w1)).
Proof.
  unfold AIClient.chat_completion, AIClient.startswith. simpl prefix.
  cbv beta iota.
  unfold AIClient._gemini_completion, bind, emit, external, ask_external, ret.
  simpl.
  destruct (generate_content _ _ _ _ _) as [r|e]; simpl.
  - eexists. split; [|split; [|split]]. 4: reflexivity. all: reflexivity.
  - eexists. split; [|split; [|split]]. 4: reflexivity. all: reflexivity.
Qed.

(** X19: the extraction of memories from the conversation of an existing
    chat, when the identifiers in use are below those to come and the
    embedding model answers in the dimension of the column: it returns and
    does not raise.  When the model answers, it creates one memory per
    usable line of the answer, in the order of the lines, with the type
    and the content parsed from the line; the memories are stored after the
    memories already there and committed, each with the user and the chat
    given, importance 0.7 and the mark [auto_extracted], a content of more
    than 10 characters and one of the three types; the responses returned
    are those of these rows.  When the call to the model fails, it returns
    the empty list and stores nothing.  The tables of documents, chunks,
    messages and chats do not change. *)
Theorem extract_memories_best_effort user_id chat_id messages w :
  embeds_in_dimension (providers w) ->
  chat_exists chat_id (view (session w)) = true ->
  (forall m, In m (memories (view (session w))) ->
             (mem_id m < uuid_supply w)%nat) ->
  exists w' rows,
    extract_memories_from_conversation self user_id chat_id messages w
      = (Ok (map memory_fields rows), w') /\
    memories (view (session w')) =
      (memories (view (session w)) ++ rows)%list /\
    documents (view (session w')) = documents (view (session w)) /\
    document_chunks (view (session w')) = document_chunks (view (session w)) /\
    Effects.messages (view (session w')) = Effects.messages (view (session w)) /\
    chats (view (session w')) = chats (view (session w)) /\
    (rows <> [] -> committed (session w') = view (session w')) /\
    match generate_content (providers w) (calls w)
            (mkGenerativeModel "gemini-2.5-flash" None)
            [mkGeminiMessage "user"
               [extraction_prompt
                  (join nl
                     (map (fun msg => cm_role msg ++ ": " ++ cm_content msg)
                          (PyText.slice_from messages (-10))))]]
            (mkGenerationConfig (3 # 10) 500) with
    | Answer r =>
        map (fun row => (mem_memory_type row, mem_content row)) rows =
        map (fun parsed => (fst parsed, string_of_list_ascii (snd parsed)))
            (parsed_lines (PyText.split PyText.LF
                                        (list_ascii_of_string (gr_text r))))
    | Failure _ => rows = []
    end /\
    Forall (fun row =>
              mem_user_id row = user_id /\ mem_chat_id row = Some chat_id /\
              (mem_importance_score row == 7 # 10)%Q /\
              mem_metadata row = [("auto_extracted", JBool true)] /\
              (10 < String.length (mem_content row))%nat /\
              In (mem_memory_type row) ["user_fact"; "preference"; "chat"])
           rows.
Proof.
  intros Hp Hchat Hids.
  unfold extract_memories_from_conversation.
  set (prompt := extraction_prompt _).
  destruct (extraction_call (ai_client self) prompt w)
    as (w1 & Hs & Hu & Hp1 & Hcall).
  unfold try_except, bind at 1. rewrite Hcall.
  destruct (generate_content (providers w) (calls w)
              (mkGenerativeModel "gemini-2.5-flash" None)
              [mkGeminiMessage "user" [prompt]]
              (mkGenerationConfig (3 # 10) 500)) as [r|e] eqn:Hans.
  - cbv beta iota.
    destruct (extract_lines_spec user_id chat_id
                (PyText.split PyText.LF (list_ascii_of_string (gr_text r)))
                [] w1)
      as (w' & rows & Hrun & M & D & C & G & H & V & Hrows & Hall).
    { now rewrite Hp1. }
    { now rewrite Hs. }
    { rewrite Hs, Hu. exact Hids. }
    simpl in Hrun. simpl cm_content. rewrite Hrun.
    exists w', rows. rewrite M, D, C, G, H, Hs.
    do 6 (split; [reflexivity|]).
    split; [|split; assumption].
    intros Hrows'. rewrite V. destruct rows; [now destruct Hrows'|reflexivity].
  - exists (snd (log ERROR "Failed to extract memories" None (Some e) w1)), [].
    unfold log, bind, ret. simpl. rewrite Hs.
    rewrite app_nil_r.
    do 6 (split; [reflexivity|]).
    split; [intros H; now destruct H|]. split; [reflexivity|constructor].
Qed.

End MemoryExtraction.

Section MemoryQueries.

Import MemoryService.
Local Open Scope monad_scope.
Local Open Scope string_scope.

Variable engine : OrderBy.
Variable self : MemoryService.t.

Ltac scope_facts :=
  unfold in_scope; split; [assumption|];
  split; [assumption|];
  split; intros;
  repeat match goal with
         | H : Some _ = Some _ |- _ => inversion H; clear H; subst
         | H : None = Some _ |- _ => discriminate H
         end;
  try congruence; try assumption.

Lemma memory_scope_in_scope user_id search_request tables m :
  In m (memory_scope user_id search_request tables) ->
  In m (memories tables) /\ in_scope user_id search_request m.
Proof.
  intros Hm. unfold memory_scope in Hm. unfold in_scope.
  destruct (msr_chat_id search_request) as [chat|].
  - apply filter_In in Hm as [Hm Hchat].
    assert (Hc : mem_chat_id m = Some chat).
    { unfold eqb_chat in Hchat. destruct (mem_chat_id m) as [x|];
        [|discriminate]. apply Nat.eqb_eq in Hchat. now subst. }
    destruct (msr_memory_type search_request) as [ty|].
    + destruct (String.eqb_spec ty "") as [Hty|Hne].
      * apply filter_In in Hm as [Hm Hu]. apply Nat.eqb_eq in Hu.
        scope_facts.
      * apply filter_In in Hm as [Hm Hty]. apply String.eqb_eq in Hty.
        apply filter_In in Hm as [Hm Hu]. apply Nat.eqb_eq in Hu.
        scope_facts.
    + apply filter_In in Hm as [Hm Hu]. apply Nat.eqb_eq in Hu.
      scope_facts.
  - destruct (msr_memory_type search_request) as [ty|].
    + destruct (String.eqb_spec ty "") as [Hty|Hne].
      * apply filter_In in Hm as [Hm Hu]. apply Nat.eqb_eq in Hu.
        scope_facts.
      * apply filter_In in Hm as [Hm Hty]. apply String.eqb_eq in Hty.
        apply filter_In in Hm as [Hm Hu]. apply Nat.eqb_eq in Hu.
        scope_facts.
    + apply filter_In in Hm as [Hm Hu]. apply Nat.eqb_eq in Hu.
      scope_facts.
Qed.

(** [min_score] is read nowhere: two requests that differ in it only are
    searched alike. *)
Lemma search_memories_ignores_min_score user_id search_request min_score :
  @search_memories engine self user_id
    (mkMemorySearchRequest (msr_query search_request)
       (msr_memory_type search_request) (msr_chat_id search_request)
       (msr_limit search_request) min_score)
  = @search_memories engine self user_id search_request.
Proof. reflexivity. Qed.

(** X20: a memory search for a valid request, over stored vectors of the
    dimension of their column and memories that pass the validation of the
    response, with a query embedding of that dimension or none: the search
    returns and stores nothing; it returns at most [limit] memories, each
    of them the response of a stored memory of the user, of the requested
    type when a type is requested and of the requested chat when a chat is
    requested; [min_score] plays no part. *)
Theorem search_memories_scope user_id search_request w :
  valid_search_request search_request = true ->
  vectors_fit (view (session w)) = true ->
  memories_presentable (view (session w)) = true ->
  answer_fits (get_embeddings (providers w) (calls w)
                 (EMBEDDING_MODEL (settings w))
                 (list_ascii_of_string (msr_query search_request))) = true ->
  exists rows w',
    @search_memories engine self user_id search_request w
      = (Ok (map memory_fields rows), w') /\
    session w' = session w /\
    len rows <= msr_limit search_request /\
    Forall (fun m => In m (memories (view (session w))) /\
                     in_scope user_id search_request m) rows /\
    (forall min_score,
        @search_memories engine self user_id
          (mkMemorySearchRequest (msr_query search_request)
             (msr_memory_type search_request) (msr_chat_id search_request)
             (msr_limit search_request) min_score) w
        = (Ok (map memory_fields rows), w')).
Proof.
  intros Hrequest Hfit Hvalid Hanswer.
  assert (Hlimit : 0 <= msr_limit search_request).
  { apply valid_search_request_limit in Hrequest. lia. }
  destruct (search_memories_spec engine self user_id search_request w
                                 Hlimit Hfit Hvalid Hanswer)
    as (rows & w' & _ & Hrun & Hsession & _ & _ & _ & _ & _ & _ & Hcase).
  exists rows, w'. split; [exact Hrun|]. split; [exact Hsession|].
  assert (Hrows : len rows <= msr_limit search_request /\
                  Forall (fun m => In m (memories (view (session w))) /\
                                   in_scope user_id search_request m) rows).
  { destruct (get_embeddings _ _ _ _) as [q|e].
    - destruct Hcase as [-> _]. split.
      + unfold take, len. rewrite length_firstn. lia.
      + apply Forall_forall. intros m Hm. apply In_take in Hm.
        eapply Permutation_in in Hm;
          [|apply Permutation_sym, order_by_permutation].
        now apply memory_scope_in_scope.
    - subst rows. split; [exact Hlimit | constructor]. }
  split; [apply Hrows|]. split; [apply Hrows|].
  intros min_score. now rewrite search_memories_ignores_min_score.
Qed.

(** X21: the memory context of a query, for a limit from 1 to 100, over
    stored vectors of the dimension of their column and memories that pass
    the validation of the response, with a query embedding of that
    dimension or none: the search returns, and the context is the empty
    string exactly when the search finds no memory; otherwise it has one
    line ["- <content> (type: <type>)"] per memory found, in the order of
    the search. *)
Theorem get_relevant_memories_lines user_id query chat_id limit w :
  1 <= limit <= 100 ->
  vectors_fit (view (session w)) = true ->
  memories_presentable (view (session w)) = true ->
  answer_fits (get_embeddings (providers w) (calls w)
                 (EMBEDDING_MODEL (settings w))
                 (list_ascii_of_string query)) = true ->
  exists found context w',
    @search_memories engine self user_id
      (mkMemorySearchRequest query None chat_id limit 0) w = (Ok found, w') /\
    @get_relevant_memories_for_query engine self user_id query chat_id limit w
      = (Ok context, w') /\
    (context = "" <-> found = []) /\
    (found <> [] ->
     context =
       join nl (map (fun memory => "- " ++ mr_content memory ++ " (type: "
                                        ++ mr_memory_type memory ++ ")")
                    found)).
Proof.
  intros Hlimit Hfit Hvalid Hanswer.
  destruct (search_memories_spec engine self user_id
              (mkMemorySearchRequest query None chat_id limit 0) w)
    as (rows & w' & _ & Hrun & _); try assumption; [simpl; lia|].
  unfold get_relevant_memories_for_query, new_MemorySearchRequest,
    valid_search_request.
  cbn [msr_memory_type msr_limit msr_min_score].
  destruct (Z.leb_spec 1 limit) as [_|]; [|lia].
  destruct (Z.leb_spec limit 100) as [_|]; [|lia].
  change (in_unit_interval 0) with true. cbn [andb].
  unfold lift. erewrite bind_ok by reflexivity.
  erewrite bind_ok by exact Hrun.
  remember (map memory_fields rows) as found eqn:Efound. clear Efound.
  destruct found as [|m found].
  - exists [], "", w'. split; [exact Hrun|]. repeat split; reflexivity.
  - eexists (m :: found), _, w'. split; [exact Hrun|].
    split; [reflexivity|]. split; [split; [|discriminate]|reflexivity].
    intros H. exfalso. revert H. simpl map. apply join_not_empty.
    discriminate.
Qed.

(** A limit outside 1..100 is refused by the validation of the search
    request: the memory context raises before anything is called. *)
Lemma get_relevant_memories_limit_refused user_id query chat_id limit w :
  limit < 1 \/ 100 < limit ->
  @get_relevant_memories_for_query engine self user_id query chat_id limit w
  = (Raise (ValueError "validation error for MemorySearchRequest"), w).
Proof.
  intros Hlimit.
  unfold get_relevant_memories_for_query, new_MemorySearchRequest,
    valid_search_request.
  cbn [msr_memory_type msr_limit msr_min_score].
  destruct (Z.leb_spec 1 limit), (Z.leb_spec limit 100); try lia; reflexivity.
Qed.

End MemoryQueries.

(* ---------------------------------------------------------------------- *)
(** ** The memory store on a concrete world                                *)
(* ---------------------------------------------------------------------- *)

Section MemoryStoreRuns.

Import MemoryService MemoryStore Scenario.
Local Open Scope string_scope.

Lemma memory_not_found_witness :
  get_memory memory_service 1%nat 8%nat quiet
    = (Raise (ValueError "Memory not found"), quiet) /\
  update_memory memory_service 1%nat 8%nat
                (mkMemoryUpdate (Some "likes coffee") None None) quiet
    = (Raise (ValueError "Memory not found"), quiet) /\
  delete_memory memory_service 1%nat 8%nat quiet
    = (Raise (ValueError "Memory not found"), quiet).
Proof.
  apply (memory_not_found memory_service 1%nat 8%nat
           (mkMemoryUpdate (Some "likes coffee") None None) quiet).
  intros m Hm. vm_compute in Hm. destruct Hm as [<-|[<-|[]]]; discriminate.
Defined.


(** A vector of another dimension than the column is refused at the
    commit: the creation raises and nothing is stored. *)
Example create_memory_refuses_short_vector :
  exists w',
    create_memory memory_service Stored.coffee Stored.short_sighted
    = (Raise (DatabaseError "expected 1536 dimensions"), w') /\
    session w' = session Stored.short_sighted.
Proof. eexists. split; vm_compute; reflexivity. Qed.


Lemma delete_memory_removes_witness :
  exists w',
    delete_memory memory_service 1%nat 7%nat quiet = (Ok tt, w') /\
    memories (committed (session w')) =
      filter (fun m => negb (Nat.eqb (mem_id m) 1))
             (memories (view (session quiet))) /\
    get_memory memory_service 1%nat 7%nat w'
      = (Raise (ValueError "Memory not found"), w').
Proof.
  apply (delete_memory_removes memory_service 1%nat 7%nat quiet minor).
  reflexivity.
Defined.

Lemma search_memories_scope_witness :
  exists rows w',
    @search_memories TableOrder memory_service 7%nat any_memory quiet
      = (Ok (map memory_fields rows), w') /\
    session w' = session quiet /\
    len rows <= msr_limit any_memory /\
    Forall (fun m => In m (memories (view (session quiet))) /\
                     in_scope 7%nat any_memory m) rows /\
    (forall min_score,
        @search_memories TableOrder memory_service 7%nat
          (mkMemorySearchRequest (msr_query any_memory)
             (msr_memory_type any_memory) (msr_chat_id any_memory)
             (msr_limit any_memory) min_score) quiet
        = (Ok (map memory_fields rows), w')).
Proof.
  apply (search_memories_scope TableOrder memory_service 7%nat any_memory
                               quiet).
  - reflexivity.
  - vm_compute. reflexivity.
  - reflexivity.
  - vm_compute. reflexivity.
Defined.

Lemma get_relevant_memories_lines_witness :
  exists found context w',
    @search_memories TableOrder memory_service 7%nat
      (mkMemorySearchRequest "what to drink" None None 5 0) quiet
      = (Ok found, w') /\
    @get_relevant_memories_for_query TableOrder memory_service 7%nat
      "what to drink" None 5 quiet
      = (Ok context, w') /\
    (context = "" <-> found = []) /\
    (found <> [] ->
     context =
       join nl (map (fun memory => "- " ++ mr_content memory ++ " (type: "
                                        ++ mr_memory_type memory ++ ")")
                    found)).
Proof.
  apply (get_relevant_memories_lines TableOrder memory_service 7%nat
                                     "what to drink" None 5 quiet).
  - lia.
  - vm_compute. reflexivity.
  - reflexivity.
  - vm_compute. reflexivity.
Defined.

(** The search raises when a stored vector has another dimension than the
    query embedding. *)
Example search_memories_refuses_other_dimension :
  exists e w',
    @search_memories TableOrder memory_service 7%nat any_memory
                     Stored.short_sighted
    = (Raise e, w').
Proof. eexists _, _. vm_compute. reflexivity. Qed.

Lemma extract_memories_best_effort_witness :
  exists w' row,
    extract_memories_from_conversation
      memory_service 7%nat 3%nat [mkChatMessage "user" "I like green tea"]
      Stored.notebook
    = (Ok [memory_fields row], w') /\
    memories (committed (session w')) = [row] /\
    mem_content row = "likes green tea" /\
    mem_memory_type row = "user_fact" /\
    Effects.messages (view (session w'))
    = Effects.messages (view (session Stored.notebook)) /\
    chats (view (session w')) = chats (view (session Stored.notebook)).
Proof.
  destruct (extract_memories_best_effort
              memory_service 7%nat 3%nat
              [mkChatMessage "user" "I like green tea"] Stored.notebook)
    as (w' & rows & Hrun & Hmem & _ & _ & Hmsg & Hchats & Hcommit & Hrows & _).
  - intros n model text v Hanswer. injection Hanswer as <-. reflexivity.
  - reflexivity.
  - intros m [].
  - change (generate_content (providers Stored.notebook)
              (calls Stored.notebook)
              (mkGenerativeModel "gemini-2.5-flash" None)
              [mkGeminiMessage "user"
                 [extraction_prompt
                    (join nl
                       (map (fun msg => cm_role msg ++ ": " ++ cm_content msg)
                            (PyText.slice_from
                               [mkChatMessage "user" "I like green tea"]
                               (-10))))]]
              (mkGenerationConfig (3 # 10) 500))
      with (Answer (mkGeminiResponse
                      ("[FACT] likes green tea" ++ nl ++ "ok") None None))
      in Hrows.
    destruct rows as [|row [|other rows]]; try discriminate Hrows.
    injection Hrows as Htype Hcontent.
    exists w', row. rewrite Hcommit by discriminate. rewrite Hmem.
    repeat split; assumption.
Defined.

End MemoryStoreRuns.

(* ---------------------------------------------------------------------- *)
(** ** More on the provider adapter layer                                  *)
(* ---------------------------------------------------------------------- *)

Section AdapterMore.

Import AIClient.
Local Open Scope monad_scope.
Local Open Scope string_scope.

Lemma same_store_refl w : same_store w w.
Proof. repeat split. Qed.

Lemma same_store_trans w1 w2 w3 :
  same_store w1 w2 -> same_store w2 w3 -> same_store w1 w3.
Proof.
  intros (A1 & A2 & A3 & A4) (B1 & B2 & B3 & B4).
  repeat split; congruence.
Qed.

Lemma harmless_ret {A} (a : A) : harmless (ret a).
Proof. intros w. split; [apply same_store_refl | discriminate]. Qed.

Lemma harmless_raise {A} e : harmless (@raise A e).
Proof. intros w. split; [apply same_store_refl | discriminate]. Qed.

Lemma harmless_emit ev : harmless (emit ev).
Proof. intros w. split; [repeat split | discriminate]. Qed.

Lemma harmless_external {A} ev (ask : Providers -> nat -> answer A) :
  harmless (external ev ask).
Proof.
  intros w. unfold external, ask_external. simpl.
  split; [repeat split|].
  destruct (ask (providers w) (calls w)); discriminate.
Qed.

Lemma harmless_bind {A B} (m : M A) (k : A -> M B) :
  harmless m -> (forall a, harmless (k a)) -> harmless (bind m k).
Proof.
  intros Hm Hk w. unfold bind.
  destruct (Hm w) as [Hs Hd]. destruct (m w) as [[a| e |] w1]; simpl in *.
  - destruct (Hk a w1) as [Hs' Hd']. split; [|exact Hd'].
    eapply same_store_trans; eassumption.
  - split; [exact Hs | discriminate].
  - congruence.
Qed.

Lemma harmless_for_each {A} (xs : list A) (body : A -> M unit) :
  (forall x, harmless (body x)) -> harmless (for_each xs body).
Proof.
  intros Hbody. induction xs as [|x xs IH]; simpl.
  - apply harmless_ret.
  - apply harmless_bind; [apply Hbody | intros _; exact IH].
Qed.

Lemma harmless_chat_completion (self : AIClient.t) model messages temperature
      max_tokens stream system_prompt use_extended_thinking :
  harmless (chat_completion self model messages temperature max_tokens stream
                            system_prompt use_extended_thinking).
Proof.
  unfold chat_completion.
  destruct (startswith model "claude");
    [|destruct (startswith model "gemini");
      [|destruct (startswith model "gemma")]].
  - unfold _claude_completion.
    destruct (negb (anthropic_client self)); [apply harmless_raise|].
    destruct stream; [apply harmless_ret|].
    apply harmless_bind; [apply harmless_external|].
    intros r. destruct (am_content r); [apply harmless_raise|apply harmless_ret].
  - unfold _gemini_completion.
    apply harmless_bind; [apply harmless_emit|]. intros _.
    destruct stream; [apply harmless_ret|].
    apply harmless_bind.
    + destruct (truthy system_prompt); [|apply harmless_ret].
      apply harmless_bind; [apply harmless_emit | intros; apply harmless_ret].
    + intros gm. apply harmless_bind; [apply harmless_external|].
      intros; apply harmless_ret.
  - unfold _gemma_completion.
    apply harmless_bind; [apply harmless_external|]. intros _.
    apply harmless_bind.
    + destruct system_prompt as [sp|]; [|apply harmless_ret].
      destruct (String.eqb sp ""); [apply harmless_ret|].
      apply harmless_bind; [apply harmless_external|intros; apply harmless_ret].
    + intros _. apply harmless_bind.
      * apply harmless_for_each. intros msg.
        destruct (String.eqb (cm_role msg) "user"); [|apply harmless_ret].
        apply harmless_bind; [apply harmless_external|intros; apply harmless_ret].
      * intros _. destruct (rev messages); [apply harmless_raise|].
        apply harmless_bind; [apply harmless_external|intros; apply harmless_ret].
  - apply harmless_raise.
Qed.

Lemma prefix_append p : forall m,
  prefix p m = true -> exists rest, m = p ++ rest.
Proof.
  induction p as [|a p IH]; intros m H.
  - now exists m.
  - destruct m as [|b m]; [discriminate|]. simpl in H.
    destruct (Ascii.ascii_dec a b) as [<-|]; [|discriminate].
    destruct (IH m H) as (rest & ->). now exists rest.
Qed.

Lemma gemini_not_claude model :
  startswith model "gemini" = true -> startswith model "claude" = false.
Proof.
  unfold startswith. intros H.
  apply prefix_append in H as (rest & ->). reflexivity.
Qed.

Lemma gemma_not_claude_gemini model :
  startswith model "gemma" = true ->
  startswith model "claude" = false /\ startswith model "gemini" = false.
Proof.
  unfold startswith. intros H.
  apply prefix_append in H as (rest & ->). split; reflexivity.
Qed.

(** X22: a completion for a model whose identifier starts with "claude",
    asked of a client without Anthropic key, raises
    [ValueError("Anthropic API key not configured")] in an unchanged world:
    no request is built and no call is made, streaming or not. *)
Theorem claude_without_api_key
        (self : AIClient.t) model messages temperature max_tokens stream
        system_prompt use_extended_thinking w :
  anthropic_client self = false ->
  startswith model "claude" = true ->
  chat_completion self model messages temperature max_tokens stream
                  system_prompt use_extended_thinking w
    = (Raise (ValueError "Anthropic API key not configured"), w).
Proof.
  intros Hclient Hclaude.
  unfold chat_completion. rewrite Hclaude.
  unfold _claude_completion. now rewrite Hclient.
Qed.

(** X23: a streaming completion for a Claude model (with a configured
    client) or a Gemini model returns a generator at once: no collaborator
    is called and no time passes before the generator is consumed; the only
    events are constructions of local objects. *)
Theorem streaming_completion_is_lazy
        (self : AIClient.t) model messages temperature max_tokens
        system_prompt use_extended_thinking w :
  (startswith model "claude" = true /\ anthropic_client self = true) \/
  startswith model "gemini" = true ->
  exists g w' events,
    chat_completion self model messages temperature max_tokens true
                    system_prompt use_extended_thinking w
      = (Ok (EventStream g), w') /\
    calls w' = calls w /\ clock w' = clock w /\
    trace w' = (trace w ++ events)%list /\
    forallb (fun ev => negb (is_network_call ev)) events = true.
Proof.
  intros [[Hclaude Hclient]|Hgemini].
  - unfold chat_completion. rewrite Hclaude.
    unfold _claude_completion. rewrite Hclient. simpl.
    eexists _, w, []. rewrite app_nil_r. repeat split; reflexivity.
  - unfold chat_completion.
    rewrite (gemini_not_claude model Hgemini), Hgemini.
    unfold _gemini_completion, bind, emit, ret. simpl.
    eexists _, _, [_]. repeat split; reflexivity.
Qed.

(** A property of the outcome that every raise satisfies passes through a
    [bind] whose first part always comes back. *)
Lemma bind_outcome {A B} (m : M A) (k : A -> M B) (Q : result B -> Prop) :
  (forall e, Q (Raise e)) -> harmless m ->
  (forall a w, Q (fst (k a w))) ->
  forall w, Q (fst (bind m k w)).
Proof.
  intros Hraise Hm Hk w. unfold bind.
  destruct (Hm w) as [_ Hd]. destruct (m w) as [[a| e |] w1]; simpl in *.
  - apply Hk.
  - apply Hraise.
  - congruence.
Qed.

Lemma _gemma_completion_outcome
      (self : AIClient.t) model messages temperature max_tokens stream
      system_prompt :
  forall w, gemma_outcome model
              (fst (_gemma_completion self model messages temperature
                                      max_tokens stream system_prompt w)).
Proof.
  unfold _gemma_completion.
  apply bind_outcome; [exact (fun _ => I) | apply harmless_external|].
  intros _. apply bind_outcome; [exact (fun _ => I) | |].
  { destruct system_prompt as [sp|]; [|apply harmless_ret].
    destruct (String.eqb sp ""); [apply harmless_ret|].
    apply harmless_bind; [apply harmless_external|intros; apply harmless_ret]. }
  intros _. apply bind_outcome; [exact (fun _ => I) | |].
  { apply harmless_for_each. intros msg.
    destruct (String.eqb (cm_role msg) "user"); [|apply harmless_ret].
    apply harmless_bind; [apply harmless_external|intros; apply harmless_ret]. }
  intros _. destruct (rev messages) as [|last_msg ?]; [intros w; exact I|].
  apply bind_outcome; [exact (fun _ => I) | apply harmless_external|].
  intros response w. simpl. split; reflexivity.
Qed.

(** X24: the Gemma adapter does not read the streaming flag: for a model
    whose identifier starts with "gemma" the outcome with [stream = true] is
    the outcome with [stream = false], never a generator, and a reply, when
    there is one, carries the caller's model name and [tokens_used = 0]. *)
Theorem gemma_ignores_stream
        (self : AIClient.t) model messages temperature max_tokens stream
        system_prompt use_extended_thinking w :
  startswith model "gemma" = true ->
  chat_completion self model messages temperature max_tokens stream
                  system_prompt use_extended_thinking w
  = chat_completion self model messages temperature max_tokens false
                    system_prompt use_extended_thinking w /\
  match fst (chat_completion self model messages temperature max_tokens
                             stream system_prompt use_extended_thinking w) with
  | Ok (Unified c) => c_tokens_used c = 0 /\ c_model c = model
  | Ok (EventStream _) => False
  | Raise _ => True
  | Diverge => False
  end.
Proof.
  intros Hgemma.
  destruct (gemma_not_claude_gemini model Hgemma) as [Hclaude Hgemini].
  unfold chat_completion. rewrite Hclaude, Hgemini, Hgemma.
  split; [reflexivity|].
  exact (_gemma_completion_outcome self model messages temperature max_tokens
                                   stream system_prompt w).
Qed.

(** X25: the Gemini adapter drops the system prompt of a streaming
    completion: for a model whose identifier starts with "gemini" and
    [stream = true], the outcome, generator included, is the one of the same
    call without system prompt. *)
Theorem gemini_stream_drops_system_prompt
        (self : AIClient.t) model messages temperature max_tokens
        system_prompt use_extended_thinking w :
  startswith model "gemini" = true ->
  chat_completion self model messages temperature max_tokens true
                  system_prompt use_extended_thinking w
  = chat_completion self model messages temperature max_tokens true
                    None use_extended_thinking w.
Proof.
  intros Hgemini. unfold chat_completion.
  rewrite (gemini_not_claude model Hgemini), Hgemini. reflexivity.
Qed.

End AdapterMore.

(* ---------------------------------------------------------------------- *)
(** ** The adapters on concrete requests                                   *)
(* ---------------------------------------------------------------------- *)

Section AdapterRuns.

Import AIClient Scenario Stored.
Local Open Scope string_scope.

Lemma claude_without_api_key_witness :
  chat_completion client "claude-sonnet-4.5" [mkChatMessage "user" "hello"]
                  (7 # 10) 4000 true None false blank
    = (Raise (ValueError "Anthropic API key not configured"), blank).
Proof.
  apply (claude_without_api_key
           client "claude-sonnet-4.5" [mkChatMessage "user" "hello"]
           (7 # 10) 4000 true None false blank).
  - reflexivity.
  - reflexivity.
Defined.

Lemma streaming_completion_is_lazy_witness :
  exists g w' events,
    chat_completion client "gemini-2.5-flash" [mkChatMessage "user" "hello"]
                    (7 # 10) 4000 true None false blank
      = (Ok (EventStream g), w') /\
    calls w' = calls blank /\ clock w' = clock blank /\
    trace w' = (trace blank ++ events)%list /\
    forallb (fun ev => negb (is_network_call ev)) events = true.
Proof.
  apply (streaming_completion_is_lazy
           client "gemini-2.5-flash" [mkChatMessage "user" "hello"]
           (7 # 10) 4000 None false blank).
  right. reflexivity.
Defined.

Lemma gemma_ignores_stream_witness :
  chat_completion client "gemma-7b" [mkChatMessage "user" "hello"]
                  (7 # 10) 4000 true None false chatty
  = chat_completion client "gemma-7b" [mkChatMessage "user" "hello"]
                    (7 # 10) 4000 false None false chatty /\
  match fst (chat_completion client "gemma-7b" [mkChatMessage "user" "hello"]
                             (7 # 10) 4000 true None false chatty) with
  | Ok (Unified c) => c_tokens_used c = 0 /\ c_model c = "gemma-7b"
  | Ok (EventStream _) => False
  | Raise _ => True
  | Diverge => False
  end.
Proof.
  apply (gemma_ignores_stream
           client "gemma-7b" [mkChatMessage "user" "hello"]
           (7 # 10) 4000 true None false chatty).
  reflexivity.
Defined.

Lemma gemini_stream_drops_system_prompt_witness :
  chat_completion client "gemini-2.5-flash" [mkChatMessage "user" "hello"]
                  (7 # 10) 4000 true (Some "Be brief.") false blank
  = chat_completion client "gemini-2.5-flash" [mkChatMessage "user" "hello"]
                    (7 # 10) 4000 true None false blank.
Proof.
  apply (gemini_stream_drops_system_prompt
           client "gemini-2.5-flash" [mkChatMessage "user" "hello"]
           (7 # 10) 4000 (Some "Be brief.") false blank).
  reflexivity.
Defined.

End AdapterRuns.

(* ---------------------------------------------------------------------- *)
(** ** More on chat/service.py: what a completion stores                   *)
(* ---------------------------------------------------------------------- *)

Section ChatMore.

Import AIClient ChatService.
Local Open Scope monad_scope.
Local Open Scope string_scope.

Variable self : ChatService.t.

Lemma chat_completion_harmless user_id request memory_context rag_context
      web_context :
  stream request = true \/ chat_id request = None ->
  harmless (ChatService.chat_completion self user_id request memory_context
                                        rag_context web_context).
Proof.
  intros Hno. unfold ChatService.chat_completion.
  apply harmless_bind; [apply harmless_chat_completion|].
  intros result. destruct (stream request).
  - apply harmless_ret.
  - destruct Hno as [Hno|Hno]; [discriminate|]. rewrite Hno.
    destruct result; [apply harmless_ret | apply harmless_raise].
Qed.

(** X26: a streaming completion, and a completion of a request without
    chat identifier, store nothing: whatever the provider does, the call
    comes back with the session, the identifier supply, the collaborators
    and the settings as they were. *)
Theorem chat_completion_stores_nothing
        user_id request memory_context rag_context web_context w :
  stream request = true \/ chat_id request = None ->
  same_store w (snd (ChatService.chat_completion
                       self user_id request memory_context rag_context
                       web_context w)) /\
  fst (ChatService.chat_completion self user_id request memory_context
                                   rag_context web_context w) <> Diverge.
Proof.
  intros Hno.
  exact (chat_completion_harmless user_id request memory_context rag_context
                                  web_context Hno w).
Qed.








(** The completion of a request that names a chat which does not exist:
    the first message breaks the foreign key, the commit is refused and
    the call raises after the provider has answered. *)
Lemma add_message_without_chat message_data w :
  filter (fun c => Nat.eqb (ch_id c) (mc_chat_id message_data))
         (chats (view (session w))) = [] ->
  exists w',
    add_message self message_data w
    = (Raise (DatabaseError "violates foreign key constraint"), w') /\
    view (session w') = committed (session w) /\
    committed (session w') = committed (session w).
Proof.
  intros Hsel.
  destruct w as [[t saved] supply now made events records collaborators
                 config].
  cbn [session view committed] in *.
  unfold add_message.
  do 3 (erewrite bind_ok by reflexivity).
  unfold select_chats. unfold bind at 2, get at 1, ret at 1.
  erewrite bind_ok by reflexivity.
  cbn [db_add_message with_view with_session session view chats
       uuid_supply clock calls trace logs providers settings committed
       documents document_chunks memories Effects.messages fst snd].
  rewrite Hsel.
  erewrite bind_ok by reflexivity.
  cbv beta iota.
  erewrite bind_ok by reflexivity.
  unfold db_commit_checked, db_rollback, bind, raise.
  eexists. split; [reflexivity|]. split; reflexivity.
Qed.

End ChatMore.

(* ---------------------------------------------------------------------- *)
(** ** More on grounding/service.py                                        *)
(* ---------------------------------------------------------------------- *)

Section GroundingMore.

Import WebGroundingService.
Local Open Scope monad_scope.
Local Open Scope string_scope.

Variable self : WebGroundingService.t.

(** X28: a web search never raises and leaves the store alone.  Without
    API key or without search engine identifier it returns the empty list
    and calls nobody.  Otherwise it makes one HTTP request, for at most ten
    results, and returns the items that the request gave, or the empty list
    when the request failed. *)
Theorem search_never_raises query num_results w :
  exists items w',
    search self query num_results w = (Ok items, w') /\
    same_store w w' /\
    (if configured self
     then trace w' = (trace w
                        ++ [HttpGet (base_url self) query
                                    (Z.min num_results 10)])%list /\
          calls w' = S (calls w) /\
          items = match http_get (providers w) (calls w) (base_url self) query
                                 (Z.min num_results 10) with
                  | Answer found => found
                  | Failure _ => []
                  end
     else items = [] /\ trace w' = trace w /\ calls w' = calls w).
Proof.
  destruct (search_spec self query num_results w)
    as (items & w' & Hrun & Hafter & Hitems).
  destruct Hafter as (A1 & A2 & A3 & A4 & A5 & _ & A7).
  exists items, w'. split; [exact Hrun|].
  split; [repeat split; assumption|].
  destruct (configured self).
  - split; [exact A7|]. split; [|exact Hitems]. simpl in A5. lia.
  - split; [exact Hitems|]. split; [|simpl in A5; lia].
    rewrite A7. apply app_nil_r.
Qed.

(** X29: the grounding context of a query is the empty string exactly when
    the search has no result; it is made after the search and changes
    nothing more. *)
Theorem get_grounding_context_empty_iff_no_result query num_results w :
  exists items context w',
    search self query num_results w = (Ok items, w') /\
    get_grounding_context self query num_results w = (Ok context, w') /\
    (context = "" <-> items = []).
Proof.
  destruct (search_spec self query num_results w)
    as (items & w' & Hrun & _).
  unfold get_grounding_context, bind. rewrite Hrun.
  destruct items as [|item items].
  - exists [], "", w'. repeat split; reflexivity.
  - eexists (item :: items), _, w'. split; [reflexivity|].
    split; [reflexivity|]. split; [|discriminate].
    intros H. exfalso. revert H. apply join_not_empty. discriminate.
Qed.

End GroundingMore.
(* ---------------------------------------------------------------------- *)
(** ** More on api/main.py: the context of a plain request                 *)
(* ---------------------------------------------------------------------- *)

Section RouteMore.

Import ChatService Api.
Local Open Scope monad_scope.
Local Open Scope string_scope.

Variable engine : OrderBy.

(** X30: the memory context is fetched whatever the request asks for.  In
    a world whose stored vectors have the dimension of their column, whose
    memories pass the validation of the response and whose embedding model
    answers in that dimension: with RAG and web grounding both switched
    off, the route still embeds the last message of the request, one call
    to the embedding model, to search the user's memories; the other two
    contexts stay unset and the session is not written. *)
Theorem get_context_always_searches_memories
        memory_service rag_service grounding_service user_id request w :
  use_rag request = false ->
  use_web_grounding request = false ->
  vectors_fit (view (session w)) = true ->
  memories_presentable (view (session w)) = true ->
  embeds_in_dimension (providers w) ->
  exists memory_context w',
    @get_context engine memory_service rag_service grounding_service user_id
                 request w
      = (Ok (Some memory_context, None, None), w') /\
    trace w' = (trace w
                  ++ [GetEmbeddings
                        (EMBEDDING_MODEL (settings w))
                        (list_ascii_of_string (last_message request))])%list /\
    calls w' = S (calls w) /\
    session w' = session w.
Proof.
  intros Hrag Hweb Hfit Hvalid Hp.
  destruct (get_context_spec engine memory_service rag_service
                             grounding_service user_id request w
                             Hfit Hvalid Hp)
    as (m & r & g & w' & Hrun & Hafter & Hr & Hg).
  rewrite (Hr Hrag), (Hg Hweb) in Hrun.
  rewrite Hrag, Hweb in Hafter. simpl in Hafter.
  destruct Hafter as (Hsession & _ & _ & _ & Hcalls & _ & Htrace).
  exists m, w'. split; [exact Hrun|]. split; [exact Htrace|].
  split; [simpl in Hcalls; lia | exact Hsession].
Qed.

End RouteMore.

(* ---------------------------------------------------------------------- *)
(** ** The chat service and the route on concrete requests                 *)
(* ---------------------------------------------------------------------- *)

Section ChatRuns.

Import AIClient ChatService Api Scenario Stored.
Local Open Scope string_scope.

Lemma chat_completion_stores_nothing_witness :
  same_store quiet
             (snd (ChatService.chat_completion
                     chat_service 7%nat unknown_model (Some "- likes tea")
                     None None quiet)) /\
  fst (ChatService.chat_completion chat_service 7%nat unknown_model
                                   (Some "- likes tea") None None quiet)
    <> Diverge.
Proof.
  apply (chat_completion_stores_nothing
           chat_service 7%nat unknown_model (Some "- likes tea") None None
           quiet).
  right. reflexivity.
Defined.


(** Without the row of the chat the first message breaks the foreign key:
    the completion raises after the provider has answered, and nothing is
    stored. *)
Example chat_completion_without_chat :
  exists w2,
    ChatService.chat_completion
      chat_service 7%nat hello_gemma None None None
      (world_of talkative vertex_only no_tables)
    = (Raise (DatabaseError "violates foreign key constraint"), w2) /\
    session w2 = session (world_of talkative vertex_only no_tables).
Proof. eexists. split; vm_compute; reflexivity. Qed.

Lemma get_context_always_searches_memories_witness :
  exists memory_context w',
    @get_context TableOrder memory_service rag_service grounding_service
                 7%nat unknown_model quiet
      = (Ok (Some memory_context, None, None), w') /\
    trace w' = (trace quiet
                  ++ [GetEmbeddings
                        (EMBEDDING_MODEL (settings quiet))
                        (list_ascii_of_string
                           (last_message unknown_model))])%list /\
    calls w' = S (calls quiet) /\
    session w' = session quiet.
Proof.
  apply (get_context_always_searches_memories
           TableOrder memory_service rag_service grounding_service 7%nat
           unknown_model quiet).
  - reflexivity.
  - reflexivity.
  - vm_compute. reflexivity.
  - reflexivity.
  - exact steady_embeds_in_dimension.
Defined.

End ChatRuns.

